(** * find-political-donors: running medians of campaign contributions

    A shallow embedding of the three Python modules of the repository

    - [heap.py]: the [MinHeap] and [MaxHeap] wrappers around the standard
      [heapq] module,
    - [transaction_handling.py]: the worker class [TransactionThread] with its
      pair of balanced heaps per group key, and its two subclasses, and
    - [main.py]: the reader that validates the lines of the input file and
      feeds the two workers,

    followed by the properties proved about them.

    Conventions of the embedding.

    - A Python float is a double, modelled by the rational number it stands
      for.  A comparison and a negation are exact; a sum and a quotient are
      the double nearest to the exact result, a tie going to the even
      mantissa, as IEEE 754 prescribes ([Py.float_add], [Py.float_div]).
      Infinities and NaN are outside the model: the amounts are finite, and
      the sums are taken to stay in the range of the doubles; the theorems
      on the value of a sum or of a median say so by a hypothesis
      ([Py.finite]).
    - A Python string is a string of 8-bit characters: the input file is
      taken to be ASCII.
    - A Python [dict] is an association list kept in insertion order, the
      order in which Python 3.7 and later iterate; the theorems about the
      program do not depend on the order of the keys.
    - A raised exception is a value of [Py.exn]; a method of the worker is a
      function from the state of the worker to an outcome that carries the
      state reached, whether the call returned or raised.
    - The program runs under Python 2 and under Python 3 (the module
      [transaction_handling] imports [Queue] or [queue] accordingly); where the
      two differ, definitions take the version as a parameter. *)

From Stdlib Require Import ZArith QArith Qround Qabs Lqa.
From Stdlib Require Import String Ascii List Bool Arith Lia.
From Stdlib Require Import Permutation Sorted DecimalString.
Import ListNotations.

Set Implicit Arguments.

Close Scope Q_scope.
Open Scope nat_scope.

(* ================================================================= *)
(** ** The Python run time *)

Module Py.

Inductive version : Type := Py2 | Py3.

Inductive exn : Type := KeyError | IndexError | TypeError | ValueError.

Definition exn_eqb (a b : exn) : bool :=
  match a, b with
  | KeyError, KeyError | IndexError, IndexError
  | TypeError, TypeError | ValueError, ValueError => true
  | _, _ => false
  end.

(** The result of a call that touches no state. *)
Inductive result (A : Type) : Type :=
| Ok (a : A)
| Raise (e : exn).
Arguments Raise {A} e.

Definition rbind {A B} (r : result A) (k : A -> result B) : result B :=
  match r with
  | Ok a => k a
  | Raise e => Raise e
  end.

(** *** Numbers *)

(** [x < y] on floats. *)
Definition lt (x y : Q) : bool := negb (Qle_bool y x).

(** [round(x)] of Python 2: to the nearest integer, a tie away from zero. *)
Definition round_half_away (x : Q) : Z :=
  if Qle_bool 0%Q x then Qfloor (x + (1 # 2))%Q else Qceiling (x - (1 # 2))%Q.

(** [round(x)] of Python 3: to the nearest integer, a tie to the even one. *)
Definition round_half_even (x : Q) : Z :=
  let f := Qfloor x in
  match (x - inject_Z f ?= 1 # 2)%Q with
  | Lt => f
  | Gt => (f + 1)%Z
  | Eq => if Z.even f then f else (f + 1)%Z
  end.

(** The builtin [round] with one argument.  Python 2 returns a float and
    Python 3 an int; both are integral, here an integral rational. *)
Definition round (v : version) (x : Q) : Q :=
  match v with
  | Py2 => inject_Z (round_half_away x)
  | Py3 => inject_Z (round_half_even x)
  end.

(** [int(x)]: truncation toward zero. *)
Definition int (x : Q) : Z := Z.quot (Qnum x) (Zpos (Qden x)).

(** *** Floats

    The doubles are the numbers [m * 2^e] with [|m| < 2^53] and
    [-1074 <= e]: all of them are multiples of [2^-1074], and the doubles
    next to a number [y * 2^-1074] are [spacing y * 2^-1074] apart. *)

Definition scale : Z := 2 ^ 1074.

Definition spacing (y : Q) : Z :=
  2 ^ Z.max 0 (Z.log2 (Qfloor (Qabs y)) - 52).

(** The double nearest to a rational, the one of even mantissa for a tie;
    the exponent has no upper limit here, see [finite]. *)
Definition to_double (q : Q) : Q :=
  let y := (q * inject_Z scale)%Q in
  let unit := inject_Z (spacing y) in
  Qred (inject_Z (round_half_even (y / unit)) * unit / inject_Z scale).

(** Whether a rational is a double. *)
Definition is_double (q : Q) : bool := Qeq_bool (to_double q) q.

(** Whether a result is in the range of the doubles; Python turns a
    result that is not into an infinity. *)
Definition finite (q : Q) : bool :=
  negb (Qle_bool (inject_Z (2 ^ 1024)) (Qabs q)).

(** [x + y] on floats, and on the integer 0 and a float: a zero operand
    leaves the other operand as it is. *)
Definition float_add (x y : Q) : Q :=
  if Qeq_bool x 0 then y
  else if Qeq_bool y 0 then x
  else to_double (x + y).

(** [x / y] on floats, for a divisor that is not zero. *)
Definition float_div (x y : Q) : Q := to_double (x / y).

(** *** Strings *)

Definition newline : string := String (ascii_of_nat 10) EmptyString.

(** ['%d' % z] *)
Definition format_d (z : Z) : string := NilZero.string_of_int (Z.to_int z).

(** Truth value of a string: non-empty. *)
Definition truthy (s : string) : bool :=
  match s with
  | EmptyString => false
  | String _ _ => true
  end.

(** [s.split(sep)] for a separator of one character. *)
Fixpoint split (sep : ascii) (s : string) : list string :=
  match s with
  | EmptyString => [EmptyString]
  | String c s' =>
      if Ascii.eqb c sep then EmptyString :: split sep s'
      else match split sep s' with
           | field :: fields => String c field :: fields
           | [] => [String c EmptyString]
           end
  end.

(** *** Lists *)

(** [l[i]], which raises [IndexError] out of range. *)
Definition getitem {A} (l : list A) (i : nat) : result A :=
  match nth_error l i with
  | Some a => Ok a
  | None => Raise IndexError
  end.

(** [l[i] = x] for [i] in range; the list is unchanged otherwise (the
    callers below only write in range). *)
Fixpoint setitem {A} (l : list A) (i : nat) (x : A) : list A :=
  match l, i with
  | [], _ => []
  | _ :: l', O => x :: l'
  | a :: l', S i' => a :: setitem l' i' x
  end.

(** [l.pop()]: the last element and the list without it. *)
Definition pop {A} (l : list A) : result (A * list A) :=
  match rev l with
  | [] => Raise IndexError
  | a :: r => Ok (a, rev r)
  end.

(** *** Dictionaries with string keys, in insertion order *)

Definition dict (V : Type) : Type := list (string * V).

Fixpoint dict_get {V} (k : string) (d : dict V) : option V :=
  match d with
  | [] => None
  | (k', v) :: d' => if String.eqb k k' then Some v else dict_get k d'
  end.

(** [k in d] *)
Definition dict_mem {V} (k : string) (d : dict V) : bool :=
  match dict_get k d with
  | Some _ => true
  | None => false
  end.

(** [d[k] = v]: a present key keeps its place, a new one goes last. *)
Fixpoint dict_set {V} (k : string) (v : V) (d : dict V) : dict V :=
  match d with
  | [] => [(k, v)]
  | (k', v') :: d' =>
      if String.eqb k k' then (k', v) :: d' else (k', v') :: dict_set k v d'
  end.

(** The keys in iteration order. *)
Definition dict_keys {V} (d : dict V) : list string := map fst d.

End Py.

(* ================================================================= *)
(** ** The standard module [datetime]

    [main.is_valid_date] asks whether [datetime.strptime(s, '%m%d%Y')]
    returns.  The library turns this format into the regular expression

    [(1[0-2]|0[1-9]|[1-9])(3[0-1]|[1-2]\d|0[1-9]|[1-9]| [1-9])(\d\d\d\d)],

    takes the first way to match it at the start of the string, trying the
    alternatives of a group from left to right, and raises [ValueError] when
    there is no match, when characters are left after the match, or when the
    year, month and day found are no date of the calendar.  The model reads
    ASCII digits and this one format. *)

Module datetime.

(** The value of a decimal digit. *)
Definition digit (c : ascii) : option nat :=
  let n := nat_of_ascii c in
  if (48 <=? n) && (n <=? 57) then Some (n - 48) else None.

(** One alternative of a group: the number read and the rest of the string,
    or no match. *)
Definition alternative : Type := string -> option (nat * string).

(** Two digits, each in its class. *)
Definition two (first second : nat -> bool) : alternative :=
  fun s =>
    match s with
    | String c1 (String c2 rest) =>
        match digit c1, digit c2 with
        | Some d1, Some d2 =>
            if first d1 && second d2 then Some (10 * d1 + d2, rest) else None
        | _, _ => None
        end
    | _ => None
    end.

(** One digit in a class. *)
Definition one (class : nat -> bool) : alternative :=
  fun s =>
    match s with
    | String c rest =>
        match digit c with
        | Some d => if class d then Some (d, rest) else None
        | None => None
        end
    | EmptyString => None
    end.

(** A space and one digit in a class. *)
Definition space_one (class : nat -> bool) : alternative :=
  fun s =>
    match s with
    | String c rest => if Ascii.eqb c " " then one class rest else None
    | EmptyString => None
    end.

Definition between (lo hi : nat) (d : nat) : bool := (lo <=? d) && (d <=? hi).

(** [1[0-2]|0[1-9]|[1-9]] *)
Definition month_group : list alternative :=
  [two (between 1 1) (between 0 2); two (between 0 0) (between 1 9);
   one (between 1 9)].

(** [3[0-1]|[1-2]\d|0[1-9]|[1-9]| [1-9]] *)
Definition day_group : list alternative :=
  [two (between 3 3) (between 0 1); two (between 1 2) (between 0 9);
   two (between 0 0) (between 1 9); one (between 1 9);
   space_one (between 1 9)].

(** [\d\d\d\d] *)
Definition year_group (s : string) : option (nat * string) :=
  match two (between 0 9) (between 0 9) s with
  | Some (hi, rest) =>
      match two (between 0 9) (between 0 9) rest with
      | Some (lo, rest') => Some (100 * hi + lo, rest')
      | None => None
      end
  | None => None
  end.

(** The first alternative of a group after which the rest of the
    expression matches. *)
Fixpoint first_match {A} (group : list alternative) (s : string)
         (then_ : nat -> string -> option A) : option A :=
  match group with
  | [] => None
  | alt :: group' =>
      match alt s with
      | Some (n, rest) =>
          match then_ n rest with
          | Some found => Some found
          | None => first_match group' s then_
          end
      | None => first_match group' s then_
      end
  end.

(** The match of the whole expression: month, day, year and what remains
    of the string. *)
Definition match_mdY (s : string) : option (nat * nat * nat * string) :=
  first_match month_group s (fun month rest =>
  first_match day_group rest (fun day rest' =>
  match year_group rest' with
  | Some (year, remains) => Some (month, day, year, remains)
  | None => None
  end)).

Definition is_leap (year : nat) : bool :=
  (year mod 4 =? 0) && (negb (year mod 100 =? 0) || (year mod 400 =? 0)).

Definition days_in_month (year month : nat) : nat :=
  match month with
  | 1 | 3 | 5 | 7 | 8 | 10 | 12 => 31
  | 4 | 6 | 9 | 11 => 30
  | 2 => if is_leap year then 29 else 28
  | _ => 0
  end.

(** Whether [date(year, month, day)] is a date.  The years go from 1 to
    9999, and a year of four digits is never above. *)
Definition is_date (year month day : nat) : bool :=
  (1 <=? year) && between 1 12 month
  && between 1 (days_in_month year month) day.

(** Whether [datetime.strptime(data_string, format)] returns. *)
Definition strptime (data_string format : string) : bool :=
  String.eqb format "%m%d%Y"
  && match match_mdY data_string with
     | Some (month, day, year, remains) =>
         negb (Py.truthy remains) && is_date year month day
     | None => false
     end.

End datetime.

(* ================================================================= *)
(** ** The standard module [heapq]

    [heap.py] delegates to [heapq.heappush] and [heapq.heappop], and to
    [heapq.heapify] in its constructors; they are
    modelled after the library's algorithm: a binary heap laid out in a list,
    [_siftdown] moving an item toward the root and [_siftup] moving the
    smaller child up to a leaf before sifting the displaced item back.  The
    two loops are bounded by a fuel that the positions can never exhaust
    (see [siftdown_loop_fuel] and [siftup_loop_fuel]).  Every position read
    is in range, the parent of a position in range or a child found below
    [endpos]; [nth] takes a default that is never returned. *)

Module heapq.

(** The loop of [_siftdown]: returns the list and the final [pos]. *)
Fixpoint _siftdown_loop (fuel : nat) (heap : list Q) (startpos pos : nat)
         (newitem : Q) : list Q * nat :=
  match fuel with
  | O => (heap, pos)
  | S fuel' =>
      if startpos <? pos then
        let parentpos := Nat.shiftr (pos - 1) 1 in
        let parent := nth parentpos heap 0%Q in
        if Py.lt newitem parent then
          _siftdown_loop fuel' (Py.setitem heap pos parent) startpos
                         parentpos newitem
        else (heap, pos)
      else (heap, pos)
  end.

Definition _siftdown (heap : list Q) (startpos pos : nat) : list Q :=
  let newitem := nth pos heap 0%Q in
  let '(heap, pos) := _siftdown_loop pos heap startpos pos newitem in
  Py.setitem heap pos newitem.

(** The loop of [_siftup]: returns the list and the final [pos]. *)
Fixpoint _siftup_loop (fuel : nat) (heap : list Q) (endpos pos childpos : nat)
  : list Q * nat :=
  match fuel with
  | O => (heap, pos)
  | S fuel' =>
      if childpos <? endpos then
        let rightpos := childpos + 1 in
        let childpos :=
          if (rightpos <? endpos)
             && negb (Py.lt (nth childpos heap 0%Q) (nth rightpos heap 0%Q))
          then rightpos else childpos in
        let heap := Py.setitem heap pos (nth childpos heap 0%Q) in
        let pos := childpos in
        _siftup_loop fuel' heap endpos pos (2 * pos + 1)
      else (heap, pos)
  end.

Definition _siftup (heap : list Q) (pos : nat) : list Q :=
  let endpos := length heap in
  let startpos := pos in
  let newitem := nth pos heap 0%Q in
  let childpos := 2 * pos + 1 in
  let '(heap, pos) := _siftup_loop endpos heap endpos pos childpos in
  let heap := Py.setitem heap pos newitem in
  _siftdown heap startpos pos.

Definition heappush (heap : list Q) (item : Q) : list Q :=
  let heap := heap ++ [item] in
  _siftdown heap 0 (length heap - 1).

Definition heappop (heap : list Q) : Py.result (Q * list Q) :=
  Py.rbind (Py.pop heap) (fun '(lastelt, heap) =>
    match heap with
    | _ :: _ =>
        let returnitem := nth 0 heap 0%Q in
        let heap := Py.setitem heap 0 lastelt in
        Py.Ok (returnitem, _siftup heap 0)
    | [] => Py.Ok (lastelt, heap)
    end).

(** [heapify(x)]: [_siftup] at every position that can have a child, from
    the last of them back to the root. *)
Definition heapify (x : list Q) : list Q :=
  let n := length x in
  fold_left (fun x i => _siftup x i) (rev (seq 0 (n / 2))) x.

End heapq.

(* ================================================================= *)
(** ** [heap.py] *)

Module heap.

(** An object of either class is its attribute [heap].  Both constructors
    are only ever called without elements, [MinHeap()] and [MaxHeap()]. *)
Module MinHeap.
Definition t : Type := list Q.

Definition init : t := [].

Definition push (self : t) (value : Q) : t := heapq.heappush self value.

(** Returns the popped value, [None] for an empty heap, and the heap. *)
Definition pop (self : t) : Py.result (option Q * t) :=
  match self with
  | _ :: _ =>
      Py.rbind (heapq.heappop self) (fun '(x, h) => Py.Ok (Some x, h))
  | [] => Py.Ok (None, self)
  end.

Definition peek (self : t) : option Q :=
  match self with
  | x :: _ => Some x
  | [] => None
  end.

Definition size (self : t) : nat := length self.

Definition empty (self : t) : bool :=
  match self with
  | [] => true
  | _ :: _ => false
  end.

(** [MinHeap(elements)]: the constructor with its argument, a heap made of
    a copy of the elements. *)
Definition __init__ (elements : list Q) : t :=
  heapq.heapify (map (fun e => e) elements).
End MinHeap.

(** The max heap keeps the negated values in a min heap. *)
Module MaxHeap.
Definition t : Type := list Q.

Definition init : t := [].

Definition push (self : t) (value : Q) : t :=
  heapq.heappush self (- value)%Q.

Definition pop (self : t) : Py.result (option Q * t) :=
  match self with
  | _ :: _ =>
      Py.rbind (heapq.heappop self) (fun '(x, h) => Py.Ok (Some (- x)%Q, h))
  | [] => Py.Ok (None, self)
  end.

Definition peek (self : t) : option Q :=
  match self with
  | x :: _ => Some (- x)%Q
  | [] => None
  end.

Definition size (self : t) : nat := length self.

Definition empty (self : t) : bool :=
  match self with
  | [] => true
  | _ :: _ => false
  end.

(** [MaxHeap(elements)]: a heap made of the negated elements. *)
Definition __init__ (elements : list Q) : t :=
  heapq.heapify (map (fun e => (- e)%Q) elements).
End MaxHeap.

End heap.

(* ================================================================= *)
(** ** [transaction_handling.py] *)

Module transaction_handling.

(** An output file: the strings written so far, and whether it has been
    closed. *)
Record file : Type := {
  written : list string;
  closed : bool
}.

(** One item of a task queue, the [dict] built by [main.read_file]. *)
Record Data : Type := {
  cmte_id : string;
  zipcode : string;
  transaction_dt : string;
  transaction_amt : Q
}.

(** The attributes of a [TransactionThread], and what it has printed. *)
Record TransactionThread : Type := {
  total_amt_dict : Py.dict Q;
  transaction_amt_heaps : Py.dict (heap.MaxHeap.t * heap.MinHeap.t);
  output_file : file;
  stdout : list string
}.

(** [__init__]: empty dictionaries and a freshly opened file. *)
Definition init : TransactionThread :=
  {| total_amt_dict := [];
     transaction_amt_heaps := [];
     output_file := {| written := []; closed := false |};
     stdout := [] |}.

(** A call either returns a value or raises, and leaves a state. *)
Inductive outcome (A : Type) : Type :=
| Return (a : A) (self : TransactionThread)
| Throw (e : Py.exn) (self : TransactionThread).
Arguments Throw {A} e self.

Definition M (A : Type) : Type := TransactionThread -> outcome A.

Definition ret {A} (a : A) : M A := fun self => Return a self.

Definition throw {A} (e : Py.exn) : M A := fun self => Throw e self.

Definition bind {A B} (m : M A) (k : A -> M B) : M B :=
  fun self =>
    match m self with
    | Return a self' => k a self'
    | Throw e self' => Throw e self'
    end.

Notation "x <- m ;; k" := (bind m (fun x => k))
  (at level 61, m at next level, right associativity).
Notation "m ;;; k" := (bind m (fun _ => k))
  (at level 61, right associativity).

(** [try: body except e: handler] *)
Definition try_except {A} (body : M A) (e : Py.exn) (handler : M A) : M A :=
  fun self =>
    match body self with
    | Return a self' => Return a self'
    | Throw e' self' =>
        if Py.exn_eqb e' e then handler self' else Throw e' self'
    end.

Definition lift {A} (r : Py.result A) : M A :=
  match r with
  | Py.Ok a => ret a
  | Py.Raise e => throw e
  end.

(** [for x in xs: body x] *)
Fixpoint for_each {A} (xs : list A) (body : A -> M unit) : M unit :=
  match xs with
  | [] => ret tt
  | x :: xs' => body x ;;; for_each xs' body
  end.

Definition print (s : string) : M unit :=
  fun self =>
    Return tt {| total_amt_dict := total_amt_dict self;
                 transaction_amt_heaps := transaction_amt_heaps self;
                 output_file := output_file self;
                 stdout := stdout self ++ [s] |}.

(** [self.output_file.write(s)], a [ValueError] on a closed file. *)
Definition write (s : string) : M unit :=
  fun self =>
    if closed (output_file self) then Throw Py.ValueError self
    else
      Return tt {| total_amt_dict := total_amt_dict self;
                   transaction_amt_heaps := transaction_amt_heaps self;
                   output_file :=
                     {| written := written (output_file self) ++ [s];
                        closed := false |};
                   stdout := stdout self |}.

(** [self.output_file.close()] *)
Definition close : M unit :=
  fun self =>
    Return tt {| total_amt_dict := total_amt_dict self;
                 transaction_amt_heaps := transaction_amt_heaps self;
                 output_file :=
                   {| written := written (output_file self);
                      closed := true |};
                 stdout := stdout self |}.

(** [identifier in self.total_amt_dict] *)
Definition total_amt_mem (identifier : string) : M bool :=
  fun self => Return (Py.dict_mem identifier (total_amt_dict self)) self.

(** [self.total_amt_dict[identifier]] *)
Definition total_amt_get (identifier : string) : M Q :=
  fun self =>
    match Py.dict_get identifier (total_amt_dict self) with
    | Some total => Return total self
    | None => Throw Py.KeyError self
    end.

(** [self.total_amt_dict[identifier] = total] *)
Definition total_amt_set (identifier : string) (total : Q) : M unit :=
  fun self =>
    Return tt {| total_amt_dict :=
                   Py.dict_set identifier total (total_amt_dict self);
                 transaction_amt_heaps := transaction_amt_heaps self;
                 output_file := output_file self;
                 stdout := stdout self |}.

(** [identifier in self.transaction_amt_heaps] *)
Definition heaps_mem (identifier : string) : M bool :=
  fun self =>
    Return (Py.dict_mem identifier (transaction_amt_heaps self)) self.

(** The keys of [self.transaction_amt_heaps] in iteration order. *)
Definition heaps_keys : M (list string) :=
  fun self => Return (Py.dict_keys (transaction_amt_heaps self)) self.

(** [self.transaction_amt_heaps[identifier]] *)
Definition heaps_get (identifier : string)
  : M (heap.MaxHeap.t * heap.MinHeap.t) :=
  fun self =>
    match Py.dict_get identifier (transaction_amt_heaps self) with
    | Some heaps => Return heaps self
    | None => Throw Py.KeyError self
    end.

(** Binds [identifier] to a pair of heaps: the assignment of a new tuple,
    and the effect of a method that changes one heap of the tuple in
    place. *)
Definition heaps_set (identifier : string)
           (heaps : heap.MaxHeap.t * heap.MinHeap.t) : M unit :=
  fun self =>
    Return tt {| total_amt_dict := total_amt_dict self;
                 transaction_amt_heaps :=
                   Py.dict_set identifier heaps (transaction_amt_heaps self);
                 output_file := output_file self;
                 stdout := stdout self |}.

(** The two components of the tuple: index 0 is the max heap of the lower
    part and index 1 the min heap of the higher part.  A local variable
    such as [bigger_heap] is a reference to one of them. *)
Inductive ref : Type := lower_heap | higher_heap.

(** [h.size()] *)
Definition size (h : ref) (heaps : heap.MaxHeap.t * heap.MinHeap.t) : nat :=
  match h with
  | lower_heap => heap.MaxHeap.size (fst heaps)
  | higher_heap => heap.MinHeap.size (snd heaps)
  end.

(** [h.peek()] *)
Definition peek (h : ref) (heaps : heap.MaxHeap.t * heap.MinHeap.t)
  : option Q :=
  match h with
  | lower_heap => heap.MaxHeap.peek (fst heaps)
  | higher_heap => heap.MinHeap.peek (snd heaps)
  end.

(** [h.pop()] for the heap [h] of the pair at [identifier] *)
Definition pop (identifier : string) (h : ref) : M (option Q) :=
  heaps <- heaps_get identifier ;;
  match h with
  | lower_heap =>
      r <- lift (heap.MaxHeap.pop (fst heaps)) ;;
      heaps_set identifier (snd r, snd heaps) ;;;
      ret (fst r)
  | higher_heap =>
      r <- lift (heap.MinHeap.pop (snd heaps)) ;;
      heaps_set identifier (fst heaps, snd r) ;;;
      ret (fst r)
  end.

(** [h.push(value)] for the heap [h] of the pair at [identifier].  The
    value is a number or the result of a [pop], which is [None] only for an
    empty heap.  A heap that holds [None] is outside the model and the case
    is a [TypeError] here, as negating [None] is; it is never reached:
    [transaction_heaps_rebalance], the one caller that pushes what it
    popped, pops from a heap of two items or more. *)
Definition push (identifier : string) (h : ref) (value : option Q) : M unit :=
  heaps <- heaps_get identifier ;;
  match value with
  | None => throw Py.TypeError
  | Some x =>
      match h with
      | lower_heap =>
          heaps_set identifier (heap.MaxHeap.push (fst heaps) x, snd heaps)
      | higher_heap =>
          heaps_set identifier (fst heaps, heap.MinHeap.push (snd heaps) x)
      end
  end.

Section Version.
Variable v : Py.version.

(** [number < None]: false under Python 2, where [None] is below every
    number, and a [TypeError] under Python 3. *)
Definition lt_None : M bool :=
  match v with
  | Py.Py2 => ret false
  | Py.Py3 => throw Py.TypeError
  end.

(** [TransactionThread.transaction_heaps_add_number]: the number goes to
    the lower heap when this heap is empty or its root is above the number,
    and to the higher heap otherwise. *)
Definition transaction_heaps_add_number (identifier : string) (number : Q)
  : M unit :=
  present <- heaps_mem identifier ;;
  (if negb present
   then heaps_set identifier (heap.MaxHeap.init, heap.MinHeap.init)
   else ret tt) ;;;
  heaps <- heaps_get identifier ;;
  to_lower <-
    (if heap.MaxHeap.empty (fst heaps) then ret true
     else match heap.MaxHeap.peek (fst heaps) with
          | Some top => ret (Py.lt number top)
          | None => lt_None
          end) ;;
  if to_lower then push identifier lower_heap (Some number)
  else push identifier higher_heap (Some number).

(** The choice of [bigger_heap] and [smaller_heap]. *)
Definition bigger_smaller (heaps : heap.MaxHeap.t * heap.MinHeap.t)
  : ref * ref :=
  if size higher_heap heaps <? size lower_heap heaps
  then (lower_heap, higher_heap)
  else (higher_heap, lower_heap).

Definition rebalance_message : string :=
  "Error happened when rebalanced the non-exist heaps of 'CMTE_ID|TRANSACTION_DT' or 'CMTE_ID|ZIPCODE'.".

(** [TransactionThread.transaction_heaps_rebalance] *)
Definition transaction_heaps_rebalance (identifier : string) : M unit :=
  try_except
    (heaps <- heaps_get identifier ;;
     let '(bigger_heap, smaller_heap) := bigger_smaller heaps in
     if (2 <=? Z.of_nat (size bigger_heap heaps)
               - Z.of_nat (size smaller_heap heaps))%Z
     then
       value <- pop identifier bigger_heap ;;
       push identifier smaller_heap value
     else ret tt)
    Py.IndexError
    (print rebalance_message).

Definition median_message : string :=
  "Error happened when got median from the non-exist heaps of 'CMTE_ID|TRANSACTION_DT' or 'CMTE_ID|ZIPCODE'.".

(** [a + b] and [round(a)] where an operand may be [None]. *)
Definition add (a b : option Q) : M Q :=
  match a, b with
  | Some x, Some y => ret (Py.float_add x y)
  | _, _ => throw Py.TypeError
  end.

Definition round (a : option Q) : M Q :=
  match a with
  | Some x => ret (Py.round v x)
  | None => throw Py.TypeError
  end.

(** [TransactionThread.transaction_heaps_get_median]; it returns [None]
    after the handler of the [except] clause. *)
Definition transaction_heaps_get_median (identifier : string)
  : M (option Z) :=
  try_except
    (heaps <- heaps_get identifier ;;
     let '(bigger_heap, smaller_heap) := bigger_smaller heaps in
     if size bigger_heap heaps =? size smaller_heap heaps then
       sum <- add (peek bigger_heap heaps) (peek smaller_heap heaps) ;;
       ret (Some (Py.int (Py.round v (Py.float_div sum 2))))
     else
       rounded <- round (peek bigger_heap heaps) ;;
       ret (Some (Py.int rounded)))
    Py.IndexError
    (print median_message ;;; ret None).

(** ['%s|%s|%d|%d|%d\n' % (a, b, median, count, total)]; [%d] of [None]
    is a [TypeError]. *)
Definition format_line (a b : string) (median : option Z) (count : nat)
           (total : Z) : M string :=
  match median with
  | None => throw Py.TypeError
  | Some m =>
      ret (a ++ "|" ++ b ++ "|" ++ Py.format_d m ++ "|"
             ++ Py.format_d (Z.of_nat count) ++ "|"
             ++ Py.format_d total ++ Py.newline)%string
  end.

(** ['%s|%s' % (a, b)] *)
Definition make_identifier (a b : string) : string :=
  (a ++ "|" ++ b)%string.

(** [TransactionByDateThread.handler] *)
Definition date_handler (data : Data) : M unit :=
  if negb (Py.truthy (cmte_id data)) then
    identifiers <- heaps_keys ;;
    for_each identifiers (fun identifier =>
      heaps <- heaps_get identifier ;;
      let number_of_transactions :=
        size lower_heap heaps + size higher_heap heaps in
      median <- transaction_heaps_get_median identifier ;;
      total <- total_amt_get identifier ;;
      let total_transaction_amount := Py.int total in
      cmte_id <- lift (Py.getitem (Py.split "|" identifier) 0) ;;
      transaction_dt <- lift (Py.getitem (Py.split "|" identifier) 1) ;;
      line <- format_line cmte_id transaction_dt median
                          number_of_transactions
                          total_transaction_amount ;;
      write line) ;;;
    close
  else
    let identifier :=
      make_identifier (cmte_id data) (transaction_dt data) in
    present <- total_amt_mem identifier ;;
    (if negb present then total_amt_set identifier 0%Q else ret tt) ;;;
    total <- total_amt_get identifier ;;
    total_amt_set identifier (Py.float_add total (transaction_amt data)) ;;;
    transaction_heaps_add_number identifier (transaction_amt data) ;;;
    transaction_heaps_rebalance identifier.

(** [TransactionByZipThread.handler] *)
Definition zip_handler (data : Data) : M unit :=
  if negb (Py.truthy (cmte_id data)) then close
  else
    let identifier := make_identifier (cmte_id data) (zipcode data) in
    present <- total_amt_mem identifier ;;
    (if negb present then total_amt_set identifier 0%Q else ret tt) ;;;
    total <- total_amt_get identifier ;;
    total_amt_set identifier (Py.float_add total (transaction_amt data)) ;;;
    transaction_heaps_add_number identifier (transaction_amt data) ;;;
    transaction_heaps_rebalance identifier ;;;
    heaps <- heaps_get identifier ;;
    let number_of_transactions :=
      size lower_heap heaps + size higher_heap heaps in
    running_median <- transaction_heaps_get_median identifier ;;
    total <- total_amt_get identifier ;;
    let total_transaction_amount := Py.int total in
    line <- format_line (cmte_id data) (zipcode data) running_median
                        number_of_transactions total_transaction_amount ;;
    write line.

(** [run] on the items put in the task queue, first in first out; an
    exception ends the thread. *)
Definition run (handler : Data -> M unit) (task_queue : list Data)
  : M unit :=
  for_each task_queue handler.

End Version.

End transaction_handling.

(* ================================================================= *)
(** ** [main.py] *)

Module main.
Import transaction_handling.

Definition CMTE_ID_POSITION : nat := 0.
Definition ZIPCODE_POSITION : nat := 10.
Definition TRANSACTION_DT_POSITION : nat := 13.
Definition TRANSACTION_AMT_POSITION : nat := 14.
Definition OTHER_ID_POSITION : nat := 15.

(** What [read_file] builds: the [dict] objects it has created, by
    address, and for each worker the addresses put in its task queue.  One
    [distilled_data] object can be in both queues, and the assignment to
    its zipcode entry happens after it went into the queue of the date
    worker. *)
Record Reader : Type := {
  objects : list Data;
  date_queue : list nat;
  zip_queue : list nat
}.

Definition start : Reader :=
  {| objects := []; date_queue := []; zip_queue := [] |}.

(** A new [dict]; its address is the second component. *)
Definition new_dict (d : Data) (r : Reader) : Reader * nat :=
  ({| objects := objects r ++ [d];
      date_queue := date_queue r;
      zip_queue := zip_queue r |}, length (objects r)).

(** [transac_by_date_thread.add_task(obj)] *)
Definition add_date_task (a : nat) (r : Reader) : Reader :=
  {| objects := objects r;
     date_queue := date_queue r ++ [a];
     zip_queue := zip_queue r |}.

(** [transac_by_zip_thread.add_task(obj)] *)
Definition add_zip_task (a : nat) (r : Reader) : Reader :=
  {| objects := objects r;
     date_queue := date_queue r;
     zip_queue := zip_queue r ++ [a] |}.

(** [obj[zipcode] = z] *)
Definition set_zipcode (a : nat) (z : string) (r : Reader) : Reader :=
  {| objects :=
       match nth_error (objects r) a with
       | Some d =>
           Py.setitem (objects r) a
                      {| cmte_id := cmte_id d;
                         zipcode := z;
                         transaction_dt := transaction_dt d;
                         transaction_amt := transaction_amt d |}
       | None => objects r
       end;
     date_queue := date_queue r;
     zip_queue := zip_queue r |}.

Definition end_data : Data :=
  {| cmte_id := EmptyString; zipcode := EmptyString;
     transaction_dt := EmptyString; transaction_amt := 0%Q |}.

(** The object at an address; addresses come from [new_dict] and are
    always bound. *)
Definition deref (r : Reader) (a : nat) : Data := nth a (objects r) end_data.

(** The items a worker takes from its queue, in order. *)
Definition date_tasks (r : Reader) : list Data := map (deref r) (date_queue r).
Definition zip_tasks (r : Reader) : list Data := map (deref r) (zip_queue r).

Section Library.
(** [float(s)]: the double that the string denotes, [None] when it raises
    [ValueError].  A string that denotes an infinity or NaN, or a number
    beyond the range of the doubles, is outside the model. *)
Variable float : string -> option Q.

(** Whether [datetime.strptime(s, format)] returns rather than raises;
    [datetime.strptime] above is the model of it. *)
Variable strptime : string -> string -> bool.

Definition is_valid_date (date_str : string) : bool :=
  strptime date_str "%m%d%Y".

Definition is_number (s : string) : bool :=
  match float s with
  | Some _ => true
  | None => false
  end.

(** The body of the loop of [read_file] for one line; [continue] is the
    return of the reader unchanged. *)
Definition read_line (line : string) (r : Reader) : Py.result Reader :=
  let line_items := Py.split "|" line in
  Py.rbind (Py.getitem line_items OTHER_ID_POSITION) (fun other_id =>
  if Py.truthy other_id then Py.Ok r
  else
    Py.rbind (Py.getitem line_items CMTE_ID_POSITION) (fun cmte =>
    Py.rbind (Py.getitem line_items TRANSACTION_AMT_POSITION) (fun amt =>
    if negb (Py.truthy cmte) || negb (Py.truthy amt)
       || negb (is_number amt)
    then Py.Ok r
    else
      Py.rbind (Py.getitem line_items ZIPCODE_POSITION) (fun zip =>
      Py.rbind (Py.getitem line_items TRANSACTION_DT_POSITION) (fun dt =>
      match float amt with
      | None => Py.Raise Py.ValueError
      | Some amount =>
          let '(r, distilled_data) :=
            new_dict {| cmte_id := cmte; zipcode := zip;
                        transaction_dt := dt;
                        transaction_amt := amount |} r in
          let r :=
            if Py.truthy (transaction_dt (deref r distilled_data))
               && is_valid_date (transaction_dt (deref r distilled_data))
            then add_date_task distilled_data r else r in
          let r :=
            if 5 <=? String.length (zipcode (deref r distilled_data))
            then
              add_zip_task distilled_data
                (set_zipcode distilled_data
                   (substring 0 5 (zipcode (deref r distilled_data))) r)
            else r in
          Py.Ok r
      end))))).

(** The loop over the lines of the file. *)
Fixpoint read_lines (lines : list string) (r : Reader)
  : Py.result Reader :=
  match lines with
  | [] => Py.Ok r
  | line :: lines' =>
      Py.rbind (read_line line r) (read_lines lines')
  end.

Definition read_file (input_file : list string) (r : Reader)
  : Py.result Reader :=
  Py.rbind (read_lines input_file r) (fun r =>
  let '(r, end_data) := new_dict end_data r in
  Py.Ok (add_zip_task end_data (add_date_task end_data r))).

End Library.

End main.

(* ================================================================= *)
(** ** Notions used by the statements *)

(** *** States and outcomes *)

(** The state that follows a call, returned or raised. *)
Definition state_of {A} (o : transaction_handling.outcome A)
  : transaction_handling.TransactionThread :=
  match o with
  | transaction_handling.Return _ self => self
  | transaction_handling.Throw _ self => self
  end.

(** The pair of heaps of a group key; a key never inserted into has none. *)
Definition tracker (identifier : string)
           (self : transaction_handling.TransactionThread)
  : option (heap.MaxHeap.t * heap.MinHeap.t) :=
  Py.dict_get identifier (transaction_handling.transaction_amt_heaps self).

(** The pair of heaps [transaction_heaps_add_number] starts from: the one of
    the key, or two new heaps. *)
Definition tracker_or_new (identifier : string)
           (self : transaction_handling.TransactionThread)
  : heap.MaxHeap.t * heap.MinHeap.t :=
  match tracker identifier self with
  | Some heaps => heaps
  | None => (heap.MaxHeap.init, heap.MinHeap.init)
  end.

(** The total number of items in the heaps of a key, zero without them. *)
Definition tracker_size (identifier : string)
           (self : transaction_handling.TransactionThread) : nat :=
  match tracker identifier self with
  | Some heaps =>
      transaction_handling.size transaction_handling.lower_heap heaps
      + transaction_handling.size transaction_handling.higher_heap heaps
  | None => 0
  end.

(** The running sum stored for a key. *)
Definition running_sum (identifier : string)
           (self : transaction_handling.TransactionThread) : option Q :=
  Py.dict_get identifier (transaction_handling.total_amt_dict self).

(** The running sum of a key before its first record. *)
Definition running_sum_or_zero (identifier : string)
           (self : transaction_handling.TransactionThread) : Q :=
  match running_sum identifier self with
  | Some total => total
  | None => 0%Q
  end.

(** Replaces the pair of heaps of a key, as [heaps_set] leaves the state. *)
Definition set_tracker (identifier : string)
           (heaps : heap.MaxHeap.t * heap.MinHeap.t)
           (self : transaction_handling.TransactionThread)
  : transaction_handling.TransactionThread :=
  state_of (transaction_handling.heaps_set identifier heaps self).

(** Replaces the running sum of a key, as [total_amt_set] leaves the
    state. *)
Definition set_total (identifier : string) (total : Q)
           (self : transaction_handling.TransactionThread)
  : transaction_handling.TransactionThread :=
  state_of (transaction_handling.total_amt_set identifier total self).

(** The state after a line has been written to the output file. *)
Definition appended (line : string)
           (self : transaction_handling.TransactionThread)
  : transaction_handling.TransactionThread :=
  state_of (transaction_handling.write line self).

(** *** The values of a pair of heaps *)

(** The values held by a pair of heaps: the max heap stores them negated. *)
Definition lower_values (heaps : heap.MaxHeap.t * heap.MinHeap.t) : list Q :=
  map Qopp (fst heaps).

Definition higher_values (heaps : heap.MaxHeap.t * heap.MinHeap.t) : list Q :=
  snd heaps.

Definition values (heaps : heap.MaxHeap.t * heap.MinHeap.t) : list Q :=
  lower_values heaps ++ higher_values heaps.

(** *** What the methods do to a pair of heaps *)

(** What [transaction_heaps_add_number] makes of a pair of heaps. *)
Definition added (number : Q) (heaps : heap.MaxHeap.t * heap.MinHeap.t)
  : heap.MaxHeap.t * heap.MinHeap.t :=
  if heap.MaxHeap.empty (fst heaps)
     || match heap.MaxHeap.peek (fst heaps) with
        | Some top => Py.lt number top
        | None => false
        end
  then (heap.MaxHeap.push (fst heaps) number, snd heaps)
  else (fst heaps, heap.MinHeap.push (snd heaps) number).

(** The root of the lower heap goes to the higher heap, and back. *)
Definition lower_to_higher (heaps : heap.MaxHeap.t * heap.MinHeap.t)
  : heap.MaxHeap.t * heap.MinHeap.t :=
  match heap.MaxHeap.pop (fst heaps) with
  | Py.Ok (Some x, lower) => (lower, heap.MinHeap.push (snd heaps) x)
  | _ => heaps
  end.

Definition higher_to_lower (heaps : heap.MaxHeap.t * heap.MinHeap.t)
  : heap.MaxHeap.t * heap.MinHeap.t :=
  match heap.MinHeap.pop (snd heaps) with
  | Py.Ok (Some x, higher) => (heap.MaxHeap.push (fst heaps) x, higher)
  | _ => heaps
  end.

(** Whether [transaction_heaps_rebalance] finds a difference of two or
    more, and what it makes of the pair of heaps then. *)
Definition unbalanced (heaps : heap.MaxHeap.t * heap.MinHeap.t) : bool :=
  (length (snd heaps) + 2 <=? length (fst heaps))
  || (length (fst heaps) + 2 <=? length (snd heaps)).

Definition rebalanced (heaps : heap.MaxHeap.t * heap.MinHeap.t)
  : heap.MaxHeap.t * heap.MinHeap.t :=
  if length (snd heaps) + 2 <=? length (fst heaps) then lower_to_higher heaps
  else if length (fst heaps) + 2 <=? length (snd heaps)
       then higher_to_lower heaps
       else heaps.

(** The value that [transaction_heaps_get_median] rounds: the half sum of
    the two roots for equal sizes, the root of the bigger heap otherwise;
    none when a root it needs is [None]. *)
Definition median_value (heaps : heap.MaxHeap.t * heap.MinHeap.t) : option Q :=
  let '(bigger_heap, smaller_heap) :=
    transaction_handling.bigger_smaller heaps in
  if transaction_handling.size bigger_heap heaps
     =? transaction_handling.size smaller_heap heaps
  then match transaction_handling.peek bigger_heap heaps,
             transaction_handling.peek smaller_heap heaps with
       | Some a, Some b => Some (Py.float_div (Py.float_add a b) 2)
       | _, _ => None
       end
  else transaction_handling.peek bigger_heap heaps.

(** The state after a handler has stored a record: the amount is added to
    the running sum of the key, then inserted in the heaps of the key, which
    are rebalanced. *)
Definition recorded (identifier : string) (amount : Q)
           (self : transaction_handling.TransactionThread)
  : transaction_handling.TransactionThread :=
  set_tracker identifier
    (rebalanced (added amount (tracker_or_new identifier self)))
    (set_total identifier
               (Py.float_add (running_sum_or_zero identifier self) amount)
               self).

(** *** Sequences of calls *)

(** The values of a finite sequence inserted one at a time for one key, each
    insertion followed by one rebalancing. *)
Definition insert_all (v : Py.version) (identifier : string) (numbers : list Q)
  : transaction_handling.M unit :=
  transaction_handling.for_each numbers (fun number =>
    transaction_handling.bind
      (transaction_handling.transaction_heaps_add_number v identifier number)
      (fun _ => transaction_handling.transaction_heaps_rebalance identifier)).

(** One call of the sequences of calls on a single key. *)
Inductive call : Type :=
| add_number (number : Q)
| rebalance.

(** Any sequence of the two calls on one key; a call that raises leaves the
    state it reached and the sequence goes on. *)
Definition perform (v : Py.version) (identifier : string) (c : call)
  : transaction_handling.M unit :=
  match c with
  | add_number number =>
      transaction_handling.transaction_heaps_add_number v identifier number
  | rebalance => transaction_handling.transaction_heaps_rebalance identifier
  end.

Definition perform_all (v : Py.version) (identifier : string)
           (calls : list call) (self : transaction_handling.TransactionThread)
  : transaction_handling.TransactionThread :=
  fold_left (fun self c => state_of (perform v identifier c self)) calls self.

(** The numbers inserted by a sequence of calls, in order. *)
Fixpoint inserted (calls : list call) : list Q :=
  match calls with
  | [] => []
  | add_number number :: calls' => number :: inserted calls'
  | rebalance :: calls' => inserted calls'
  end.

(** *** The statistical median *)

(** Sorting by insertion, to say what the median of a list is. *)
Fixpoint insert_sorted (x : Q) (l : list Q) : list Q :=
  match l with
  | [] => [x]
  | y :: l' => if Qle_bool x y then x :: l else y :: insert_sorted x l'
  end.

Fixpoint sort (l : list Q) : list Q :=
  match l with
  | [] => []
  | x :: l' => insert_sorted x (sort l')
  end.

(** The statistical median: the middle value of the sorted list for an odd
    count, the average of the two middle values for an even count. *)
Definition true_median (l : list Q) : Q :=
  let s := sort l in
  let n := length l in
  if Nat.odd n then nth (n / 2) s 0%Q
  else ((nth (n / 2 - 1) s 0 + nth (n / 2) s 0) / 2)%Q.

(** The median as the code computes it from the two middle values, in
    float arithmetic: they are added and the sum is halved. *)
Definition float_median (l : list Q) : Q :=
  let s := sort l in
  let n := length l in
  if Nat.odd n then nth (n / 2) s 0%Q
  else Py.float_div (Py.float_add (nth (n / 2 - 1) s 0%Q) (nth (n / 2) s 0%Q))
                    2.

(** Whether the sum of the two middle values, when the median needs it, is
    in the range of the doubles. *)
Definition median_finite (l : list Q) : bool :=
  let s := sort l in
  let n := length l in
  Nat.odd n
  || Py.finite (Py.float_add (nth (n / 2 - 1) s 0%Q) (nth (n / 2) s 0%Q)).

(** How many values are below, or not above, a given one. *)
Definition count_lt (m : Q) (l : list Q) : nat :=
  length (filter (fun x => Py.lt x m) l).

Definition count_le (m : Q) (l : list Q) : nat :=
  length (filter (fun x => Qle_bool x m) l).

(** [m] has rank [k] in [l]: at most [k] values are below it and more than
    [k] are not above it, as the item at index [k] of the sorted list. *)
Definition has_rank (k : nat) (m : Q) (l : list Q) : Prop :=
  count_lt m l <= k < count_le m l.

(** [z] is an integer nearest to [x]. *)
Definition nearest_integer (z : Z) (x : Q) : Prop :=
  (Qabs (x - inject_Z z) <= 1 # 2)%Q.

(** *** Invariants *)

(** Index of the parent, as [_siftdown] computes it. *)
Definition parent (i : nat) : nat := Nat.shiftr (i - 1) 1.

(** Every item is at least its parent: the invariant kept by [heappush] and
    [heappop]. *)
Definition heap_ok (h : list Q) : Prop :=
  forall i, 0 < i < length h -> (nth (parent i) h 0 <= nth i h 0)%Q.

(** State of the loop of [_siftdown] when the item [x] travels to the root:
    position [pos] is a hole, the rest is ordered, and [x] as well as the
    parent of the hole are below the children of the hole. *)
Record hole_up (h : list Q) (pos : nat) (x : Q) : Prop := {
  hu_range : pos < length h;
  hu_rest : forall i, 0 < i < length h -> i <> pos -> parent i <> pos ->
                 (nth (parent i) h 0 <= nth i h 0)%Q;
  hu_item : forall i, 0 < i < length h -> parent i = pos ->
                 (x <= nth i h 0)%Q;
  hu_grand : forall i, 0 < i < length h -> parent i = pos -> 0 < pos ->
                 (nth (parent pos) h 0 <= nth i h 0)%Q
}.

(** State of the loop of [_siftup] while the hole travels to a leaf. *)
Record hole_down (h : list Q) (pos : nat) : Prop := {
  hd_range : pos < length h;
  hd_rest : forall i, 0 < i < length h -> i <> pos -> parent i <> pos ->
                 (nth (parent i) h 0 <= nth i h 0)%Q;
  hd_grand : forall i, 0 < i < length h -> parent i = pos -> 0 < pos ->
                 (nth (parent pos) h 0 <= nth i h 0)%Q
}.

(** [pos] is the position [k] or below it in the tree. *)
Inductive descends (k : nat) : nat -> Prop :=
| descends_here : descends k k
| descends_child (i : nat) : 0 < i -> descends k (parent i) -> descends k i.

(** Every item whose parent is at position [k] or after is at least its
    parent: the state of [heapify] when the positions from [k] on are
    done. *)
Definition heap_from (k : nat) (h : list Q) : Prop :=
  forall i, 0 < i < length h -> k <= parent i ->
            (nth (parent i) h 0 <= nth i h 0)%Q.

(** The states of the two loops when [_siftup] works below position [k]. *)
Record hole_up_from (k : nat) (h : list Q) (pos : nat) (x : Q) : Prop := {
  huf_range : pos < length h;
  huf_below : descends k pos;
  huf_rest : forall i, 0 < i < length h -> k <= parent i ->
                  i <> pos -> parent i <> pos ->
                  (nth (parent i) h 0 <= nth i h 0)%Q;
  huf_item : forall i, 0 < i < length h -> parent i = pos ->
                  (x <= nth i h 0)%Q;
  huf_grand : forall i, 0 < i < length h -> parent i = pos -> k < pos ->
                  (nth (parent pos) h 0 <= nth i h 0)%Q
}.

Record hole_down_from (k : nat) (h : list Q) (pos : nat) : Prop := {
  hdf_range : pos < length h;
  hdf_below : descends k pos;
  hdf_rest : forall i, 0 < i < length h -> k <= parent i ->
                  i <> pos -> parent i <> pos ->
                  (nth (parent i) h 0 <= nth i h 0)%Q;
  hdf_grand : forall i, 0 < i < length h -> parent i = pos -> k < pos ->
                  (nth (parent pos) h 0 <= nth i h 0)%Q
}.

(** The lower part is below the higher part, each part is a heap, and the
    lower part is empty only if both are. *)
Record partitioned (heaps : heap.MaxHeap.t * heap.MinHeap.t) : Prop := {
  lower_heap_ok : heap_ok (fst heaps);
  higher_heap_ok : heap_ok (snd heaps);
  lower_below_higher :
    forall a b, In a (lower_values heaps) -> In b (higher_values heaps) ->
                (a <= b)%Q;
  lower_first : fst heaps = [] -> snd heaps = []
}.

(** The sizes differ by one at most. *)
Definition balanced (heaps : heap.MaxHeap.t * heap.MinHeap.t) : Prop :=
  length (fst heaps) <= length (snd heaps) + 1
  /\ length (snd heaps) <= length (fst heaps) + 1.

(** The state of the heaps of a key that holds the values [l]. *)
Definition holds (id : string) (self : transaction_handling.TransactionThread)
           (l : list Q) : Prop :=
  partitioned (tracker_or_new id self)
  /\ balanced (tracker_or_new id self)
  /\ Permutation (values (tracker_or_new id self)) l
  /\ (l <> [] -> tracker id self = Some (tracker_or_new id self)).

(** *** Emptying a heap *)

(** The values that successive calls of [pop] return, as long as the heap
    gives one and at most [fuel] times. *)
Fixpoint MinHeap_pop_all (fuel : nat) (self : heap.MinHeap.t) : list Q :=
  match fuel with
  | O => []
  | S fuel' =>
      match heap.MinHeap.pop self with
      | Py.Ok (Some x, self') => x :: MinHeap_pop_all fuel' self'
      | _ => []
      end
  end.

Fixpoint MaxHeap_pop_all (fuel : nat) (self : heap.MaxHeap.t) : list Q :=
  match fuel with
  | O => []
  | S fuel' =>
      match heap.MaxHeap.pop self with
      | Py.Ok (Some x, self') => x :: MaxHeap_pop_all fuel' self'
      | _ => []
      end
  end.

(** *** Calendar dates *)

(** The digits of a string that has nothing else. *)
Fixpoint digits (s : string) : option (list nat) :=
  match s with
  | EmptyString => Some []
  | String c s' =>
      match datetime.digit c, digits s' with
      | Some d, Some ds => Some (d :: ds)
      | _, _ => None
      end
  end.

(** A valid MMDDYYYY calendar date: eight digits, the first two a month from
    01 to 12, the next two a day of this month in the year of the last
    four, a year from 0001 on. *)
Definition valid_MMDDYYYY (s : string) : bool :=
  match digits s with
  | Some [m1; m2; d1; d2; y1; y2; y3; y4] =>
      let month := 10 * m1 + m2 in
      let day := 10 * d1 + d2 in
      let year := 1000 * y1 + 100 * y2 + 10 * y3 + y4 in
      (1 <=? year) && (1 <=? month) && (month <=? 12)
      && (1 <=? day) && (day <=? datetime.days_in_month year month)
  | _ => false
  end.

(** A date as [strptime] reads it with the format of the program: a month
    written with one or two digits, then a day written with one or two
    digits, or with a space and one digit, then a year written with four
    digits, and nothing more; the three make a date of the calendar. *)
Definition writes_month (m : string) (month : nat) : Prop :=
  digits m = Some [month]
  \/ exists m1 m2, digits m = Some [m1; m2] /\ month = 10 * m1 + m2.

Definition writes_day (d : string) (day : nat) : Prop :=
  digits d = Some [day]
  \/ (exists d1 d2, digits d = Some [d1; d2] /\ day = 10 * d1 + d2)
  \/ exists c, d = String " " (String c EmptyString)
               /\ datetime.digit c = Some day.

Definition writes_year (y : string) (year : nat) : Prop :=
  exists y1 y2 y3 y4,
    digits y = Some [y1; y2; y3; y4]
    /\ year = 1000 * y1 + 100 * y2 + 10 * y3 + y4.

Definition written_date (s : string) : Prop :=
  exists m d y month day year,
    s = (m ++ d ++ y)%string
    /\ writes_month m month /\ writes_day d day /\ writes_year y year
    /\ 1 <= year /\ 1 <= month <= 12
    /\ 1 <= day <= datetime.days_in_month year month.

(** The end of the match of [datetime.match_mdY] after a month and a day,
    and after a month. *)
Definition year_then (month day : nat) (rest : string)
  : option (nat * nat * nat * string) :=
  match datetime.year_group rest with
  | Some (year, remains) => Some (month, day, year, remains)
  | None => None
  end.

Definition day_then (month : nat) (rest : string)
  : option (nat * nat * nat * string) :=
  datetime.first_match datetime.day_group rest (year_then month).

(** *** Lines and reports *)

(** Whether a character occurs in a string. *)
Fixpoint occurs (c : ascii) (s : string) : bool :=
  match s with
  | EmptyString => false
  | String c' s' => Ascii.eqb c' c || occurs c s'
  end.


(** A line of a report for the key parts [a] and [b] whose last field is
    the integer [total]. *)
Definition reports (line a b : string) (total : Z) : Prop :=
  exists (median : Z) (count : nat),
    line = (a ++ "|" ++ b ++ "|" ++ Py.format_d median ++ "|"
              ++ Py.format_d (Z.of_nat count) ++ "|"
              ++ Py.format_d total ++ Py.newline)%string.

(** Column [i] of a line of the input file, if the line has it. *)
Definition field (line : string) (i : nat) : option string :=
  nth_error (Py.split "|" line) i.

(** The lines of the two reports for an input file: [read_file] fills the
    two queues and each worker runs its handler on the items of its queue;
    none when [read_file] raises. *)
Definition date_report (v : Py.version) (float : string -> option Q)
           (strptime : string -> string -> bool) (input_file : list string)
  : option (list string) :=
  match main.read_file float strptime input_file main.start with
  | Py.Ok r =>
      Some (transaction_handling.written (transaction_handling.output_file
              (state_of (transaction_handling.run
                           (transaction_handling.date_handler v)
                           (main.date_tasks r) transaction_handling.init))))
  | Py.Raise _ => None
  end.

Definition zip_report (v : Py.version) (float : string -> option Q)
           (strptime : string -> string -> bool) (input_file : list string)
  : option (list string) :=
  match main.read_file float strptime input_file main.start with
  | Py.Ok r =>
      Some (transaction_handling.written (transaction_handling.output_file
              (state_of (transaction_handling.run
                           (transaction_handling.zip_handler v)
                           (main.zip_tasks r) transaction_handling.init))))
  | Py.Raise _ => None
  end.

(** *** The reports as functions of the records *)

(** The group key that each handler makes for a record. *)
Definition zip_key (data : transaction_handling.Data) : string :=
  transaction_handling.make_identifier
    (transaction_handling.cmte_id data) (transaction_handling.zipcode data).

Definition date_key (data : transaction_handling.Data) : string :=
  transaction_handling.make_identifier
    (transaction_handling.cmte_id data)
    (transaction_handling.transaction_dt data).

(** The amounts of the records of a key, in the order of the records. *)
Definition amounts_of (key : transaction_handling.Data -> string)
           (k : string) (records : list transaction_handling.Data) : list Q :=
  map transaction_handling.transaction_amt
      (filter (fun data => String.eqb (key data) k) records).

(** The sum as the handlers accumulate it: from zero, one amount after the
    other, in float arithmetic. *)
Definition total (amounts : list Q) : Q :=
  fold_left Py.float_add amounts 0%Q.

(** Whether the sums of the amounts added one after the other are all in
    the range of the doubles. *)
Fixpoint sums_finite (sum : Q) (amounts : list Q) : bool :=
  match amounts with
  | [] => true
  | amount :: amounts' =>
      Py.finite (Py.float_add sum amount)
      && sums_finite (Py.float_add sum amount) amounts'
  end.

(** The line of a report for a key and the amounts of its records: the key,
    the median of the amounts rounded, their number, and their sum
    truncated. *)
Definition report_line (v : Py.version) (k : string) (amounts : list Q)
  : string :=
  (k ++ "|" ++ Py.format_d (Py.int (Py.round v (float_median amounts)))
     ++ "|" ++ Py.format_d (Z.of_nat (length amounts))
     ++ "|" ++ Py.format_d (Py.int (total amounts)) ++ Py.newline)%string.

(** The report by zip code for the records that follow the records [seen]:
    one line for each record, on the records of its key up to it. *)
Fixpoint zip_lines (v : Py.version)
         (seen records : list transaction_handling.Data) : list string :=
  match records with
  | [] => []
  | data :: records' =>
      report_line v (zip_key data)
                  (amounts_of zip_key (zip_key data) (seen ++ [data]))
      :: zip_lines v (seen ++ [data]) records'
  end.

(** The keys in the order of their first occurrence. *)
Definition first_seen (keys : list string) : list string :=
  fold_left (fun acc k => if existsb (String.eqb k) acc then acc
                          else acc ++ [k]) keys [].

(** The report by date: one line for each key, on all the records of the
    key, in the order in which the keys first occur. *)
Definition date_lines (v : Py.version)
           (records : list transaction_handling.Data) : list string :=
  map (fun k => report_line v k (amounts_of date_key k records))
      (first_seen (map date_key records)).

(** *** The range of the floats *)

(** Whether the amounts of the records are doubles in range: floats that
    are neither an infinity nor NaN. *)
Definition float_amounts (records : list transaction_handling.Data) : bool :=
  forallb (fun data =>
             Py.is_double (transaction_handling.transaction_amt data)
             && Py.finite (transaction_handling.transaction_amt data))
          records.

(** Whether the floats computed for the line of some amounts stay in
    range: the sums on the way to their total, and the sum of the two
    middle values. *)
Definition line_finite (amounts : list Q) : bool :=
  sums_finite 0%Q amounts && median_finite amounts.

(** The same for every line of the report by zip code and of the report
    by date. *)
Fixpoint zip_finite (seen records : list transaction_handling.Data) : bool :=
  match records with
  | [] => true
  | data :: records' =>
      line_finite (amounts_of zip_key (zip_key data) (seen ++ [data]))
      && zip_finite (seen ++ [data]) records'
  end.

Definition date_finite (records : list transaction_handling.Data) : bool :=
  forallb (fun k => line_finite (amounts_of date_key k records))
          (first_seen (map date_key records)).

(** The body of the loop of [TransactionByDateThread.handler] at the end of
    the stream, for one key. *)
Definition flush_line (v : Py.version) (identifier : string)
  : transaction_handling.M unit :=
  transaction_handling.bind (transaction_handling.heaps_get identifier)
    (fun heaps =>
  transaction_handling.bind
    (transaction_handling.transaction_heaps_get_median v identifier)
    (fun median =>
  transaction_handling.bind (transaction_handling.total_amt_get identifier)
    (fun total =>
  transaction_handling.bind
    (transaction_handling.lift (Py.getitem (Py.split "|" identifier) 0))
    (fun cmte_id =>
  transaction_handling.bind
    (transaction_handling.lift (Py.getitem (Py.split "|" identifier) 1))
    (fun transaction_dt =>
  transaction_handling.bind
    (transaction_handling.format_line cmte_id transaction_dt median
       (transaction_handling.size transaction_handling.lower_heap heaps
        + transaction_handling.size transaction_handling.higher_heap heaps)
       (Py.int total))
    transaction_handling.write))))).

(** The state of a worker that has stored the records [seen], grouped by
    [key]: for every key the heaps hold the amounts of its records and the
    running sum is their total. *)
Definition stores (key : transaction_handling.Data -> string)
           (seen : list transaction_handling.Data)
           (self : transaction_handling.TransactionThread) : Prop :=
  forall k,
    holds k self (amounts_of key k seen)
    /\ running_sum_or_zero k self = total (amounts_of key k seen)
    /\ (amounts_of key k seen <> [] -> running_sum k self <> None).

(** *** The records of an input file *)

(** The number of columns of a line. *)
Definition columns (line : string) : nat := length (Py.split "|" line).

(** The record that a line gives, as the workers come to see it: none for
    a line that is skipped or too short, and the zip code cut to its first
    five characters when it has five or more. *)
Definition distilled (float : string -> option Q) (line : string)
  : option transaction_handling.Data :=
  match field line main.OTHER_ID_POSITION,
        field line main.CMTE_ID_POSITION,
        field line main.ZIPCODE_POSITION,
        field line main.TRANSACTION_DT_POSITION,
        field line main.TRANSACTION_AMT_POSITION with
  | Some other, Some cmte, Some zip, Some dt, Some amt =>
      if Py.truthy other || negb (Py.truthy cmte) || negb (Py.truthy amt)
      then None
      else
        match float amt with
        | Some amount =>
            Some {| transaction_handling.cmte_id := cmte;
                    transaction_handling.zipcode :=
                      if 5 <=? String.length zip then substring 0 5 zip
                      else zip;
                    transaction_handling.transaction_dt := dt;
                    transaction_handling.transaction_amt := amount |}
        | None => None
        end
  | _, _, _, _, _ => None
  end.

Definition record_list (float : string -> option Q) (line : string)
  : list transaction_handling.Data :=
  match distilled float line with
  | Some data => [data]
  | None => []
  end.

(** The records of the lines of a file, in the order of the lines. *)
Definition records_of (float : string -> option Q) (lines : list string)
  : list transaction_handling.Data :=
  flat_map (record_list float) lines.

(** Whether a record goes to the date worker: its date is not empty and
    [strptime] reads it; and to the zip worker: its zip code has five
    characters or more. *)
Definition for_date (strptime : string -> string -> bool)
           (data : transaction_handling.Data) : bool :=
  Py.truthy (transaction_handling.transaction_dt data)
  && strptime (transaction_handling.transaction_dt data) "%m%d%Y"%string.

Definition for_zip (data : transaction_handling.Data) : bool :=
  5 <=? String.length (transaction_handling.zipcode data).

(** The addresses in the two queues of a reader are addresses of objects
    it has created. *)
Definition bound (r : main.Reader) : Prop :=
  Forall (fun a => a < length (main.objects r)) (main.date_queue r)
  /\ Forall (fun a => a < length (main.objects r)) (main.zip_queue r).

(** *** Sample data *)

(** A record with the committee, zip code and date of a sample line, and
    its two keys. *)
Definition sample_record (amount : Q) : transaction_handling.Data :=
  {| transaction_handling.cmte_id := "C00177436";
     transaction_handling.zipcode := "30004";
     transaction_handling.transaction_dt := "01312017";
     transaction_handling.transaction_amt := amount |}.

Definition sample_zip_key : string := "C00177436|30004".

Definition sample_date_key : string := "C00177436|01312017".

(** A sample reader of numbers for the examples, in place of [float]:
    digits only. *)
Fixpoint digits_value (s : string) (acc : Z) : option Z :=
  match s with
  | EmptyString => Some acc
  | String c s' =>
      let n := nat_of_ascii c in
      if (48 <=? n) && (n <=? 57)
      then digits_value s' (10 * acc + Z.of_nat (n - 48))%Z
      else None
  end.

Definition sample_float (s : string) : option Q :=
  match s with
  | EmptyString => None
  | _ => option_map inject_Z (digits_value s 0)
  end.

Definition sample_line (zip date amount other : string) : string :=
  ("C00177436|N|M2|P|201702039042410894|15|IND|DEEHAN, WILLIAM N|ALPHARETTA|GA|"
     ++ zip ++ "|UNUM|SVP|" ++ date ++ "|" ++ amount ++ "|" ++ other
     ++ "|PR2283873845050|1147350||P/R DEDUCTION|4020820171370029337")%string.
(* ================================================================= *)
(** ** Lists written by index *)

Section SetItem.
Context {A : Type}.
Implicit Types (l : list A) (i j : nat) (x y d : A).

Lemma setitem_length l i x : length (Py.setitem l i x) = length l.
Proof.
  revert i; induction l as [|a l IH]; intros [|i]; simpl; auto.
Qed.

Lemma nth_setitem_eq l i x d :
  i < length l -> nth i (Py.setitem l i x) d = x.
Proof.
  revert i; induction l as [|a l IH]; intros [|i]; simpl; intros H;
    try lia; auto.
  apply IH; lia.
Qed.

Lemma nth_setitem_neq l i j x d :
  i <> j -> nth j (Py.setitem l i x) d = nth j l d.
Proof.
  revert i j; induction l as [|a l IH]; intros [|i] [|j]; simpl; intros H;
    try congruence; auto.
Qed.

Lemma setitem_same l i d : Py.setitem l i (nth i l d) = l.
Proof.
  revert i; induction l as [|a l IH]; intros [|i]; simpl; auto.
  f_equal; apply IH.
Qed.

Lemma setitem_cons_perm l j x y :
  j < length l ->
  Permutation (x :: Py.setitem l j y) (y :: Py.setitem l j x).
Proof.
  revert j; induction l as [|a l IH]; intros [|j]; simpl; intros H; try lia.
  - apply perm_swap.
  - rewrite (perm_swap a x), (perm_swap a y).
    apply perm_skip, IH; lia.
Qed.

(** Writing two values at two places, in either arrangement, gives the
    same multiset. *)
Lemma setitem_swap_perm l i j x y :
  i <> j -> i < length l -> j < length l ->
  Permutation (Py.setitem (Py.setitem l i x) j y)
              (Py.setitem (Py.setitem l i y) j x).
Proof.
  revert i j; induction l as [|a l IH]; intros [|i] [|j]; simpl;
    intros Hij Hi Hj; try lia.
  - apply setitem_cons_perm; lia.
  - symmetry; apply setitem_cons_perm; lia.
  - apply perm_skip, IH; lia.
Qed.

Lemma pop_app l x : Py.pop (l ++ [x]) = Py.Ok (x, l).
Proof.
  unfold Py.pop. rewrite rev_app_distr. simpl. now rewrite rev_involutive.
Qed.

Lemma list_last_split l : l <> [] -> exists l' x, l = l' ++ [x].
Proof.
  intros H. destruct (exists_last H) as (l' & x & ->). eauto.
Qed.
End SetItem.

(* ================================================================= *)
(** ** The heap invariant of [heapq] *)


Lemma parent_children i :
  0 < i -> i = 2 * parent i + 1 \/ i = 2 * parent i + 2.
Proof.
  intros H. unfold parent. rewrite Nat.shiftr_div_pow2.
  change (2 ^ 1) with 2.
  pose proof (Nat.div_mod_eq (i - 1) 2).
  pose proof (Nat.mod_upper_bound (i - 1) 2). lia.
Qed.

Lemma parent_left p : parent (2 * p + 1) = p.
Proof.
  pose proof (parent_children (i := 2 * p + 1)). lia.
Qed.

Lemma parent_right p : parent (2 * p + 2) = p.
Proof.
  pose proof (parent_children (i := 2 * p + 2)). lia.
Qed.

Lemma parent_lt i : 0 < i -> parent i < i.
Proof. intros H. pose proof (parent_children H). lia. Qed.

Lemma lt_spec x y : Py.lt x y = true <-> (x < y)%Q.
Proof.
  unfold Py.lt. rewrite negb_true_iff.
  split; intros H.
  - apply Qnot_le_lt. intros Hle. apply Qle_bool_iff in Hle. congruence.
  - destruct (Qle_bool y x) eqn:E; auto.
    apply Qle_bool_iff in E. exfalso. exact (Qlt_not_le _ _ H E).
Qed.

Lemma lt_false x y : Py.lt x y = false <-> (y <= x)%Q.
Proof.
  unfold Py.lt. rewrite negb_false_iff. apply Qle_bool_iff.
Qed.

Lemma hole_up_stop h pos x :
  hole_up h pos x ->
  pos = 0 \/ (nth (parent pos) h 0 <= x)%Q ->
  heap_ok (Py.setitem h pos x).
Proof.
  intros [Hr H1 H2 H3] Hstop i Hi. rewrite setitem_length in Hi.
  destruct (Nat.eq_dec i pos) as [->|Hne].
  - rewrite nth_setitem_eq by lia.
    rewrite nth_setitem_neq by (pose proof (parent_lt (proj1 Hi)); lia).
    destruct Hstop; [lia | assumption].
  - rewrite (nth_setitem_neq h x 0%Q (i := pos) (j := i)) by lia.
    destruct (Nat.eq_dec (parent i) pos) as [Hp|Hp].
    + rewrite Hp, nth_setitem_eq by lia. now apply H2.
    + rewrite nth_setitem_neq by auto. now apply H1.
Qed.

Lemma nth_setitem_at (l : list Q) i j x :
  j = i -> i < length l -> nth j (Py.setitem l i x) 0%Q = x.
Proof. intros ->. apply nth_setitem_eq. Qed.

(** Reads through one write, the side conditions left to [lia]. *)
Ltac nth_set :=
  repeat match goal with
         | |- context [nth ?j (Py.setitem ?l ?i ?x) 0%Q] =>
             first [ rewrite (nth_setitem_neq l x 0%Q (i := i) (j := j)) by lia
                   | rewrite (@nth_setitem_at l i j x) by lia ]
         end.

Lemma hole_up_step h pos x :
  hole_up h pos x -> 0 < pos -> (x < nth (parent pos) h 0)%Q ->
  hole_up (Py.setitem h pos (nth (parent pos) h 0%Q)) (parent pos) x.
Proof.
  intros [Hr H1 H2 H3] Hpos Hlt.
  pose proof (parent_lt Hpos) as Hpp.
  split; rewrite ?setitem_length.
  - lia.
  - intros i Hi Hne Hpne.
    assert (i <> pos) by congruence.
    destruct (Nat.eq_dec (parent i) pos) as [Hp|Hp]; nth_set.
    + now apply H3.
    + now apply H1.
  - intros i Hi Hp.
    destruct (Nat.eq_dec i pos) as [->|Hne]; nth_set.
    + now apply Qlt_le_weak.
    + apply Qlt_le_weak, Qlt_le_trans with (1 := Hlt).
      rewrite <- Hp. apply H1; auto; lia.
  - intros i Hi Hp Hpp0.
    pose proof (parent_lt Hpp0).
    assert (Hgp : (nth (parent (parent pos)) h 0 <= nth (parent pos) h 0)%Q)
      by (apply H1; lia).
    destruct (Nat.eq_dec i pos) as [->|Hne]; nth_set; auto.
    apply Qle_trans with (1 := Hgp).
    rewrite <- Hp. apply H1; auto; lia.
Qed.

Lemma hole_up_refill h pos x y :
  hole_up h pos x -> hole_up (Py.setitem h pos y) pos x.
Proof.
  intros [Hr H1 H2 H3].
  split; rewrite ?setitem_length; auto.
  - intros i Hi Hne Hp. nth_set. now apply H1.
  - intros i Hi Hp. pose proof (parent_lt (proj1 Hi)). nth_set. now apply H2.
  - intros i Hi Hp Hpos.
    pose proof (parent_lt (proj1 Hi)). pose proof (parent_lt Hpos).
    nth_set. now apply H3.
Qed.

Lemma siftdown_loop_S fuel h startpos pos x :
  heapq._siftdown_loop (S fuel) h startpos pos x
  = if startpos <? pos then
      if Py.lt x (nth (parent pos) h 0%Q) then
        heapq._siftdown_loop fuel (Py.setitem h pos (nth (parent pos) h 0%Q))
                             startpos (parent pos) x
      else (h, pos)
    else (h, pos).
Proof. reflexivity. Qed.

(** The loop of [_siftdown] from a hole state ends with a heap once the item
    is written back, and keeps the items. *)
Lemma siftdown_loop_heap fuel : forall h pos x h' pos',
  pos <= fuel -> hole_up h pos x ->
  heapq._siftdown_loop fuel h 0 pos x = (h', pos') ->
  heap_ok (Py.setitem h' pos' x)
  /\ Permutation (Py.setitem h' pos' x) (Py.setitem h pos x).
Proof.
  induction fuel as [|fuel IH]; intros h pos x h' pos' Hf Hu E.
  - injection E as <- <-. split; auto.
    apply hole_up_stop; auto. left; lia.
  - rewrite siftdown_loop_S in E.
    destruct (Nat.ltb_spec 0 pos) as [Hpos|Hpos].
    + destruct (Py.lt x (nth (parent pos) h 0%Q)) eqn:Hlt.
      * apply lt_spec in Hlt.
        pose proof (parent_lt Hpos) as Hpp.
        pose proof (hu_range Hu) as Hr.
        apply IH in E; [|lia|now apply hole_up_step].
        destruct E as [Hok Hperm]. split; auto.
        rewrite Hperm.
        rewrite (setitem_swap_perm h (i := pos) (j := parent pos)) by lia.
        replace (nth (parent pos) h 0%Q)
          with (nth (parent pos) (Py.setitem h pos x) 0%Q) by (now nth_set).
        now rewrite setitem_same.
      * apply lt_false in Hlt. injection E as <- <-. split; auto.
        apply hole_up_stop; auto.
    + injection E as <- <-. split; auto.
      apply hole_up_stop; auto. left; lia.
Qed.

Lemma siftdown_heap h pos :
  hole_up h pos (nth pos h 0%Q) ->
  heap_ok (heapq._siftdown h 0 pos)
  /\ Permutation (heapq._siftdown h 0 pos) h.
Proof.
  intros Hu. unfold heapq._siftdown.
  destruct (heapq._siftdown_loop pos h 0 pos (nth pos h 0%Q)) as [h' pos'] eqn:E.
  apply siftdown_loop_heap in E; auto.
  now rewrite setitem_same in E.
Qed.

(** Any fuel from the position upward gives the same run: the loop of
    [_siftdown] stops at the root at the latest. *)
Lemma siftdown_loop_fuel fuel : forall fuel' h startpos pos x,
  pos <= fuel -> pos <= fuel' ->
  heapq._siftdown_loop fuel h startpos pos x
  = heapq._siftdown_loop fuel' h startpos pos x.
Proof.
  induction fuel as [|fuel IH]; intros [|fuel'] h startpos pos x Hf Hf';
    rewrite ?siftdown_loop_S; auto.
  - replace pos with 0 by lia. now destruct startpos.
  - replace pos with 0 by lia. now destruct startpos.
  - destruct (Nat.ltb_spec startpos pos) as [Hs|Hs]; auto.
    destruct (Py.lt x _); auto.
    assert (parent pos < pos) by (apply parent_lt; lia).
    apply IH; lia.
Qed.

Lemma heappush_heap h x :
  heap_ok h ->
  heap_ok (heapq.heappush h x) /\ Permutation (heapq.heappush h x) (x :: h).
Proof.
  intros Hok. unfold heapq.heappush.
  rewrite length_app, Nat.add_sub. simpl length.
  assert (Hu : hole_up (h ++ [x]) (length h) (nth (length h) (h ++ [x]) 0%Q)).
  { split; rewrite ?length_app; simpl length.
    - lia.
    - intros i Hi Hne Hp. pose proof (parent_lt (proj1 Hi)).
      rewrite !app_nth1 by lia. apply Hok; lia.
    - intros i Hi Hp. pose proof (parent_lt (proj1 Hi)). lia.
    - intros i Hi Hp. pose proof (parent_lt (proj1 Hi)). lia. }
  destruct (siftdown_heap Hu) as [H1 H2]. split; auto.
  rewrite H2. symmetry. apply Permutation_cons_append.
Qed.

Lemma siftup_loop_S fuel h endpos pos childpos :
  heapq._siftup_loop (S fuel) h endpos pos childpos
  = if childpos <? endpos then
      let c := if (childpos + 1 <? endpos)
                  && negb (Py.lt (nth childpos h 0%Q) (nth (childpos + 1) h 0%Q))
               then childpos + 1 else childpos in
      heapq._siftup_loop fuel (Py.setitem h pos (nth c h 0%Q)) endpos c
                         (2 * c + 1)
    else (h, pos).
Proof. reflexivity. Qed.

Lemma hole_down_step h pos c :
  hole_down h pos -> c < length h -> 0 < c -> parent c = pos ->
  (forall i, 0 < i < length h -> parent i = pos ->
             (nth c h 0 <= nth i h 0)%Q) ->
  hole_down (Py.setitem h pos (nth c h 0%Q)) c.
Proof.
  intros [Hr H1 H3] Hc Hc0 Hpc Hmin.
  pose proof (parent_lt Hc0) as Hlt.
  split; rewrite ?setitem_length; auto.
  - intros i Hi Hne Hp.
    pose proof (parent_lt (proj1 Hi)).
    destruct (Nat.eq_dec i pos) as [->|Hnp]; nth_set.
    + apply H3; auto; lia.
    + destruct (Nat.eq_dec (parent i) pos) as [Hpp|Hpp]; nth_set.
      * now apply Hmin.
      * now apply H1.
  - intros i Hi Hp _.
    pose proof (parent_lt (proj1 Hi)).
    nth_set. rewrite <- Hp. apply H1; auto; lia.
Qed.

Lemma hole_down_leaf h pos x :
  hole_down h pos -> length h <= 2 * pos + 1 -> hole_up h pos x.
Proof.
  intros [Hr H1 H3] Hleaf.
  split; auto; intros i Hi Hp; pose proof (parent_children (proj1 Hi)); lia.
Qed.

(** The loop of [_siftup] moves the hole to a leaf and keeps the other
    items. *)
Lemma siftup_loop_hole fuel : forall h pos h' pos',
  length h - pos <= fuel -> hole_down h pos ->
  heapq._siftup_loop fuel h (length h) pos (2 * pos + 1) = (h', pos') ->
  length h' = length h /\ hole_down h' pos' /\ length h' <= 2 * pos' + 1
  /\ forall x, Permutation (Py.setitem h' pos' x) (Py.setitem h pos x).
Proof.
  induction fuel as [|fuel IH]; intros h pos h' pos' Hf Hd E.
  - pose proof (hd_range Hd). lia.
  - rewrite siftup_loop_S in E.
    pose proof (hd_range Hd) as Hr.
    destruct (Nat.ltb_spec (2 * pos + 1) (length h)) as [Hl|Hl].
    + cbv zeta in E.
      match type of E with
      | heapq._siftup_loop _ _ _ ?c' _ = _ => set (c := c') in E
      end.
      assert (Hc : (c = 2 * pos + 1 \/ c = 2 * pos + 2) /\ c < length h
                   /\ forall i, 0 < i < length h -> parent i = pos ->
                                (nth c h 0 <= nth i h 0)%Q).
      { subst c.
        destruct (Nat.ltb_spec (2 * pos + 1 + 1) (length h)) as [Hrt|Hrt];
          simpl andb.
        - destruct (Py.lt _ _) eqn:Hcmp; simpl negb; cbv iota.
          + apply lt_spec in Hcmp. repeat split; auto.
            intros i Hi Hp.
            pose proof (parent_children (proj1 Hi)) as [Hi'|Hi'];
              rewrite Hp in Hi'; subst i.
            * apply Qle_refl.
            * replace (2 * pos + 2) with (2 * pos + 1 + 1) by lia.
              now apply Qlt_le_weak.
          + apply lt_false in Hcmp. repeat split; auto; try lia.
            intros i Hi Hp.
            pose proof (parent_children (proj1 Hi)) as [Hi'|Hi'];
              rewrite Hp in Hi'; subst i.
            * exact Hcmp.
            * replace (2 * pos + 2) with (2 * pos + 1 + 1) by lia.
              apply Qle_refl.
        - repeat split; auto.
          intros i Hi Hp.
          pose proof (parent_children (proj1 Hi)) as [Hi'|Hi'];
            rewrite Hp in Hi'; subst i; [apply Qle_refl | lia]. }
      clearbody c. destruct Hc as (Hc12 & Hc & Hmin).
      assert (Hpc : parent c = pos)
        by (destruct Hc12; subst c; [apply parent_left | apply parent_right]).
      assert (Hd' : hole_down (Py.setitem h pos (nth c h 0%Q)) c)
        by (apply hole_down_step; auto; lia).
      rewrite <- (setitem_length h pos (nth c h 0%Q)) in E.
      apply IH in E; auto; rewrite ?setitem_length in *; try lia.
      destruct E as (E1 & E2 & E3 & E4). split; [|split; [|split]]; auto.
      intros x. rewrite E4.
      rewrite (setitem_swap_perm h (i := pos) (j := c)) by lia.
      replace (nth c h 0%Q) with (nth c (Py.setitem h pos x) 0%Q)
        by (now nth_set).
      now rewrite setitem_same.
    + injection E as <- <-. split; [|split; [|split]]; auto.
Qed.

Lemma siftup_heap h :
  hole_down h 0 ->
  heap_ok (heapq._siftup h 0) /\ Permutation (heapq._siftup h 0) h.
Proof.
  intros Hd. unfold heapq._siftup.
  destruct (heapq._siftup_loop (length h) h (length h) 0 (2 * 0 + 1))
    as [h' pos'] eqn:E.
  apply siftup_loop_hole in E; auto; try lia.
  destruct E as (E1 & E2 & E3 & E4).
  pose proof (hd_range E2) as Hr.
  set (x := nth 0 h 0%Q) in *.
  assert (Hu : hole_up (Py.setitem h' pos' x) pos'
                       (nth pos' (Py.setitem h' pos' x) 0%Q)).
  { nth_set. apply hole_up_refill. now apply hole_down_leaf. }
  destruct (siftdown_heap Hu) as [H1 H2]. split; auto.
  rewrite H2, E4. subst x. now rewrite setitem_same.
Qed.

(** [heappop] on a heap that is not empty: it returns the first item and
    leaves a heap of the others. *)
Lemma heappop_heap h :
  heap_ok h -> h <> [] ->
  exists h', heapq.heappop h = Py.Ok (nth 0 h 0%Q, h')
             /\ heap_ok h' /\ Permutation (nth 0 h 0%Q :: h') h.
Proof.
  intros Hok Hne.
  destruct (list_last_split Hne) as (h0 & lastelt & ->).
  unfold heapq.heappop. rewrite pop_app. simpl Py.rbind.
  destruct h0 as [|r t].
  - exists []. repeat split; auto. intros i Hi; simpl in Hi; lia.
  - change (nth 0 ((r :: t) ++ [lastelt]) 0%Q) with r.
    change (nth 0 (r :: t) 0%Q) with r.
    change (Py.setitem (r :: t) 0 lastelt) with (lastelt :: t).
    assert (Hd : hole_down (lastelt :: t) 0).
    { split; simpl length; try lia.
      intros i Hi Hn Hp. pose proof (parent_lt (proj1 Hi)).
      specialize (Hok i). rewrite length_app in Hok. simpl length in Hok.
      destruct i as [|i]; [lia|].
      destruct (parent (S i)) as [|p] eqn:Ep; [congruence|].
      simpl nth. simpl nth in Hok.
      rewrite !app_nth1 in Hok by lia. apply Hok. lia. }
    destruct (siftup_heap Hd) as [H1 H2].
    eexists; repeat split; eauto.
    rewrite H2. simpl. apply perm_skip. apply Permutation_cons_append.
Qed.

Lemma heappop_empty : heapq.heappop [] = Py.Raise Py.IndexError.
Proof. reflexivity. Qed.

(** The first item of a heap is a least one. *)
Lemma heap_root_min h :
  heap_ok h -> forall i, i < length h -> (nth 0 h 0 <= nth i h 0)%Q.
Proof.
  intros Hok i. induction i as [i IH] using lt_wf_ind. intros Hi.
  destruct i as [|i]; [apply Qle_refl|].
  assert (H0 : 0 < S i) by lia.
  pose proof (parent_lt H0).
  apply Qle_trans with (nth (parent (S i)) h 0%Q).
  - apply IH; lia.
  - apply Hok; lia.
Qed.

Lemma heap_root_min_In h x :
  heap_ok h -> In x h -> (nth 0 h 0 <= x)%Q.
Proof.
  intros Hok Hin. destruct (In_nth _ _ 0%Q Hin) as (i & Hi & <-).
  now apply heap_root_min.
Qed.

Lemma heap_ok_nil : heap_ok [].
Proof. intros i Hi; simpl in Hi; lia. Qed.
(** Lengths, for any list whether a heap or not. *)
Lemma siftdown_loop_length fuel : forall h startpos pos x,
  length (fst (heapq._siftdown_loop fuel h startpos pos x)) = length h.
Proof.
  induction fuel as [|fuel IH]; intros h startpos pos x; auto.
  rewrite siftdown_loop_S.
  destruct (startpos <? pos); auto.
  destruct (Py.lt x _); auto.
  now rewrite IH, setitem_length.
Qed.

Lemma siftdown_length h startpos pos :
  length (heapq._siftdown h startpos pos) = length h.
Proof.
  unfold heapq._siftdown.
  pose proof (siftdown_loop_length pos h startpos pos (nth pos h 0%Q)) as H.
  destruct (heapq._siftdown_loop _ _ _ _ _) as [h' pos'].
  now rewrite setitem_length.
Qed.

Lemma siftup_loop_length fuel : forall h endpos pos childpos,
  length (fst (heapq._siftup_loop fuel h endpos pos childpos)) = length h.
Proof.
  induction fuel as [|fuel IH]; intros h endpos pos childpos; auto.
  rewrite siftup_loop_S.
  destruct (childpos <? endpos); auto.
  cbv zeta. now rewrite IH, setitem_length.
Qed.

Lemma siftup_length h pos : length (heapq._siftup h pos) = length h.
Proof.
  unfold heapq._siftup.
  pose proof (siftup_loop_length (length h) h (length h) pos (2 * pos + 1))
    as H.
  destruct (heapq._siftup_loop _ _ _ _ _) as [h' pos'].
  now rewrite siftdown_length, setitem_length.
Qed.

Lemma heappush_length h x : length (heapq.heappush h x) = S (length h).
Proof.
  unfold heapq.heappush. rewrite siftdown_length, length_app. simpl. lia.
Qed.

(** Any fuel from the distance to the end upward gives the same run: the
    loop of [_siftup] stops past the last item at the latest. *)
Lemma siftup_loop_fuel fuel : forall fuel' h endpos pos childpos,
  endpos - childpos <= fuel -> endpos - childpos <= fuel' ->
  heapq._siftup_loop fuel h endpos pos childpos
  = heapq._siftup_loop fuel' h endpos pos childpos.
Proof.
  induction fuel as [|fuel IH]; intros [|fuel'] h endpos pos childpos Hf Hf';
    rewrite ?siftup_loop_S; auto.
  - replace (childpos <? endpos) with false
      by (symmetry; apply Nat.ltb_ge; lia). reflexivity.
  - replace (childpos <? endpos) with false
      by (symmetry; apply Nat.ltb_ge; lia). reflexivity.
  - destruct (Nat.ltb_spec childpos endpos) as [Hc|Hc]; auto.
    cbv zeta. apply IH; destruct (_ && _); lia.
Qed.

(** [heappop] never raises on a list that is not empty. *)
Lemma heappop_nonempty h :
  h <> [] ->
  exists h', heapq.heappop h = Py.Ok (nth 0 h 0%Q, h')
             /\ S (length h') = length h.
Proof.
  intros Hne. destruct (list_last_split Hne) as (h0 & lastelt & ->).
  unfold heapq.heappop. rewrite pop_app. simpl Py.rbind.
  rewrite length_app. simpl length.
  destruct h0 as [|r t].
  - exists []. split; auto.
  - eexists; split; [reflexivity|].
    rewrite siftup_length. simpl. lia.
Qed.

(* ================================================================= *)
(** ** The two classes of [heap.py] *)

Lemma Qopp_opp_eq (x : Q) : (- - x)%Q = x.
Proof. destruct x as [n d]. unfold Qopp. simpl. now rewrite Z.opp_involutive. Qed.

Lemma MinHeap_push_ok h x :
  heap_ok h ->
  heap_ok (heap.MinHeap.push h x)
  /\ Permutation (heap.MinHeap.push h x) (x :: h).
Proof. apply heappush_heap. Qed.

Lemma MinHeap_pop_run h :
  h <> [] ->
  exists h', heap.MinHeap.pop h = Py.Ok (heap.MinHeap.peek h, h')
             /\ heap.MinHeap.peek h = Some (nth 0 h 0%Q)
             /\ S (length h') = length h.
Proof.
  intros Hne. destruct (heappop_nonempty Hne) as (h' & E & Hl).
  exists h'. destruct h as [|r t]; [congruence|].
  unfold heap.MinHeap.pop. rewrite E. simpl. auto.
Qed.

Lemma MinHeap_pop_ok h h' x :
  heap_ok h -> heap.MinHeap.pop h = Py.Ok (Some x, h') ->
  heap_ok h' /\ Permutation (x :: h') h.
Proof.
  intros Hok E. destruct h as [|r t]; [discriminate|].
  assert (Hne : r :: t <> []) by discriminate.
  destruct (heappop_heap Hok Hne) as (h1 & E1 & H1 & H2).
  unfold heap.MinHeap.pop in E. rewrite E1 in E. simpl in E.
  injection E as <- <-. auto.
Qed.

Lemma MinHeap_peek_min h x :
  heap_ok h -> heap.MinHeap.peek h = Some x ->
  In x h /\ forall y, In y h -> (x <= y)%Q.
Proof.
  intros Hok E. destruct h as [|r t]; [discriminate|].
  injection E as <-. split; [now left|].
  intros y Hy. exact (heap_root_min_In y Hok Hy).
Qed.

Lemma MaxHeap_push_ok h x :
  heap_ok h ->
  heap_ok (heap.MaxHeap.push h x)
  /\ Permutation (map Qopp (heap.MaxHeap.push h x)) (x :: map Qopp h).
Proof.
  intros Hok. destruct (heappush_heap (- x)%Q Hok) as [H1 H2].
  split; auto. unfold heap.MaxHeap.push.
  rewrite H2. simpl. now rewrite Qopp_opp_eq.
Qed.

Lemma MaxHeap_pop_run h :
  h <> [] ->
  exists h', heap.MaxHeap.pop h = Py.Ok (heap.MaxHeap.peek h, h')
             /\ heap.MaxHeap.peek h = Some (- nth 0 h 0)%Q
             /\ S (length h') = length h.
Proof.
  intros Hne. destruct (heappop_nonempty Hne) as (h' & E & Hl).
  exists h'. destruct h as [|r t]; [congruence|].
  unfold heap.MaxHeap.pop. rewrite E. simpl. auto.
Qed.

Lemma MaxHeap_pop_ok h h' x :
  heap_ok h -> heap.MaxHeap.pop h = Py.Ok (Some x, h') ->
  heap_ok h' /\ Permutation (x :: map Qopp h') (map Qopp h).
Proof.
  intros Hok E. destruct h as [|r t]; [discriminate|].
  assert (Hne : r :: t <> []) by discriminate.
  destruct (heappop_heap Hok Hne) as (h1 & E1 & H1 & H2).
  unfold heap.MaxHeap.pop in E. rewrite E1 in E. simpl in E.
  injection E as <- <-. split; auto.
  rewrite <- H2. reflexivity.
Qed.

Lemma MaxHeap_peek_max h x :
  heap_ok h -> heap.MaxHeap.peek h = Some x ->
  In x (map Qopp h) /\ forall y, In y (map Qopp h) -> (y <= x)%Q.
Proof.
  intros Hok E. destruct h as [|r t]; [discriminate|].
  injection E as <-. split; [now left|].
  intros y Hy. apply in_map_iff in Hy. destruct Hy as (z & <- & Hz).
  apply Qopp_le_compat. exact (heap_root_min_In z Hok Hz).
Qed.
(* ================================================================= *)
(** ** The pair of heaps of one key *)

Lemma partitioned_new : partitioned (heap.MaxHeap.init, heap.MinHeap.init).
Proof.
  split; simpl; auto using heap_ok_nil. intros a b [].
Qed.

Lemma added_length x heaps :
  (length (fst (added x heaps)) = S (length (fst heaps))
   /\ length (snd (added x heaps)) = length (snd heaps))
  \/ (length (fst (added x heaps)) = length (fst heaps)
      /\ length (snd (added x heaps)) = S (length (snd heaps))).
Proof.
  unfold added. destruct (_ || _); simpl.
  - left. split; auto. apply heappush_length.
  - right. split; auto. apply heappush_length.
Qed.

Lemma added_partitioned x heaps :
  partitioned heaps ->
  partitioned (added x heaps)
  /\ Permutation (values (added x heaps)) (x :: values heaps).
Proof.
  destruct heaps as [lo hi]. intros [Hlo Hhi Hord Hfirst].
  unfold values, lower_values, higher_values in *. simpl in *.
  unfold added. simpl fst. simpl snd.
  destruct (heap.MaxHeap.empty lo
            || match heap.MaxHeap.peek lo with
               | Some top => Py.lt x top
               | None => false
               end) eqn:Hc.
  - destruct (MaxHeap_push_ok x Hlo) as [H1 H2]. simpl. split.
    + split; simpl; auto.
      * intros a b Ha Hb.
        apply (Permutation_in _ H2) in Ha. destruct Ha as [<-|Ha]; auto.
        destruct lo as [|r t]; [rewrite Hfirst in Hb; auto; contradiction|].
        simpl in Hc. apply lt_spec in Hc.
        apply Qlt_le_weak, Qlt_le_trans with (1 := Hc).
        apply Hord; auto. now left.
      * intros E. apply (f_equal (@length Q)) in E.
        unfold heap.MaxHeap.push in E. rewrite heappush_length in E.
        discriminate.
    + now rewrite H2.
  - destruct (MinHeap_push_ok x Hhi) as [H1 H2]. simpl. split.
    + split; simpl; auto.
      * intros a b Ha Hb.
        apply (Permutation_in _ H2) in Hb. destruct Hb as [<-|Hb]; auto.
        destruct lo as [|r t]; [discriminate|].
        simpl in Hc. apply lt_false in Hc.
        apply Qle_trans with (2 := Hc).
        destruct (@MaxHeap_peek_max (r :: t) (- r)%Q Hlo eq_refl) as [_ Hmax].
        now apply Hmax.
      * intros ->. discriminate.
    + rewrite H2. symmetry. apply Permutation_middle.
Qed.

Lemma lower_to_higher_length heaps :
  fst heaps <> [] ->
  S (length (fst (lower_to_higher heaps))) = length (fst heaps)
  /\ length (snd (lower_to_higher heaps)) = S (length (snd heaps)).
Proof.
  destruct heaps as [lo hi]. simpl. intros Hne. unfold lower_to_higher. simpl.
  destruct (MaxHeap_pop_run Hne) as (lo' & E & Ep & Hl).
  rewrite E, Ep. simpl. split; auto. apply heappush_length.
Qed.

Lemma higher_to_lower_length heaps :
  snd heaps <> [] ->
  length (fst (higher_to_lower heaps)) = S (length (fst heaps))
  /\ S (length (snd (higher_to_lower heaps))) = length (snd heaps).
Proof.
  destruct heaps as [lo hi]. simpl. intros Hne. unfold higher_to_lower. simpl.
  destruct (MinHeap_pop_run Hne) as (hi' & E & Ep & Hl).
  rewrite E, Ep. simpl. split; auto. apply heappush_length.
Qed.

Lemma length_nonempty {A} (l : list A) : 0 < length l -> l <> [].
Proof. destruct l; simpl; [lia | discriminate]. Qed.

(** What [rebalanced] does to the sizes: one item moves from the bigger heap
    when the difference is two or more, nothing moves otherwise. *)
Lemma rebalanced_length heaps :
  let l := length (fst heaps) in
  let h := length (snd heaps) in
  let l' := length (fst (rebalanced heaps)) in
  let h' := length (snd (rebalanced heaps)) in
  (h + 2 <= l /\ S l' = l /\ h' = S h)
  \/ (l + 2 <= h /\ l' = S l /\ S h' = h)
  \/ (l < h + 2 /\ h < l + 2 /\ rebalanced heaps = heaps).
Proof.
  cbv zeta. unfold rebalanced. destruct heaps as [lo hi]. simpl fst. simpl snd.
  destruct (Nat.leb_spec (length hi + 2) (length lo)) as [H|H].
  - left. split; auto.
    apply (@lower_to_higher_length (lo, hi)), length_nonempty. simpl. lia.
  - destruct (Nat.leb_spec (length lo + 2) (length hi)) as [H'|H'].
    + right; left. split; auto.
      apply (@higher_to_lower_length (lo, hi)), length_nonempty. simpl. lia.
    + right; right. auto.
Qed.

Lemma lower_to_higher_partitioned heaps :
  partitioned heaps -> 2 <= length (fst heaps) ->
  partitioned (lower_to_higher heaps)
  /\ Permutation (values (lower_to_higher heaps)) (values heaps).
Proof.
  destruct heaps as [lo hi]. intros [Hlo Hhi Hord Hfirst] Hlen.
  unfold values, lower_values, higher_values in *. simpl in *.
  assert (Hne : lo <> []) by (apply length_nonempty; lia).
  unfold lower_to_higher. simpl fst. simpl snd.
  destruct (MaxHeap_pop_run Hne) as (lo' & E & Ep & Hl).
  rewrite E, Ep. rewrite Ep in E.
  destruct (MaxHeap_pop_ok Hlo E) as [H1 H2].
  destruct (MaxHeap_peek_max Hlo Ep) as [Hin Hmax].
  set (top := (- nth 0 lo 0)%Q) in *.
  destruct (MinHeap_push_ok top Hhi) as [H3 H4]. simpl. split.
  - split; simpl; auto.
    + intros a b Ha Hb.
      assert (Ha' : In a (map Qopp lo))
        by (apply (Permutation_in _ H2); now right).
      apply (Permutation_in _ H4) in Hb. destruct Hb as [<-|Hb]; auto.
    + intros ->. simpl in Hl. lia.
  - rewrite H4, <- H2. simpl. symmetry. apply Permutation_middle.
Qed.

Lemma higher_to_lower_partitioned heaps :
  partitioned heaps -> 1 <= length (snd heaps) ->
  partitioned (higher_to_lower heaps)
  /\ Permutation (values (higher_to_lower heaps)) (values heaps).
Proof.
  destruct heaps as [lo hi]. intros [Hlo Hhi Hord Hfirst] Hlen.
  unfold values, lower_values, higher_values in *. simpl in *.
  assert (Hne : hi <> []) by (apply length_nonempty; lia).
  unfold higher_to_lower. simpl fst. simpl snd.
  destruct (MinHeap_pop_run Hne) as (hi' & E & Ep & Hl).
  rewrite E, Ep. rewrite Ep in E.
  destruct (MinHeap_pop_ok Hhi E) as [H1 H2].
  destruct (MinHeap_peek_min Hhi Ep) as [Hin Hmin].
  set (bot := nth 0 hi 0%Q) in *.
  destruct (MaxHeap_push_ok bot Hlo) as [H3 H4]. simpl. split.
  - split; simpl; auto.
    + intros a b Ha Hb.
      assert (Hb' : In b hi) by (apply (Permutation_in _ H2); now right).
      apply (Permutation_in _ H4) in Ha. destruct Ha as [<-|Ha]; auto.
    + intros E'. apply (f_equal (@length Q)) in E'.
      unfold heap.MaxHeap.push in E'. rewrite heappush_length in E'.
      discriminate.
  - rewrite H4, <- H2. simpl. apply Permutation_middle.
Qed.

Lemma rebalanced_partitioned heaps :
  partitioned heaps ->
  partitioned (rebalanced heaps)
  /\ Permutation (values (rebalanced heaps)) (values heaps).
Proof.
  intros Hp. unfold rebalanced. destruct heaps as [lo hi]. simpl fst. simpl snd.
  destruct (Nat.leb_spec (length hi + 2) (length lo)) as [H|H].
  - apply lower_to_higher_partitioned; auto. simpl. lia.
  - destruct (Nat.leb_spec (length lo + 2) (length hi)) as [H'|H'].
    + apply higher_to_lower_partitioned; auto. simpl. lia.
    + auto.
Qed.

(** One insertion and one rebalancing keep a balanced pair balanced. *)
Lemma rebalanced_added_balanced x heaps :
  balanced heaps -> balanced (rebalanced (added x heaps)).
Proof.
  unfold balanced. intros [H1 H2].
  pose proof (added_length x heaps) as Ha.
  pose proof (rebalanced_length (added x heaps)) as Hr. cbv zeta in Hr.
  destruct heaps as [lo hi].
  destruct (added x (lo, hi)) as [lo1 hi1].
  destruct (rebalanced (lo1, hi1)) as [lo2 hi2].
  simpl in *.
  destruct Hr as [Hr|[Hr|(Hr1 & Hr2 & Hr3)]]; [lia|lia|].
  injection Hr3 as -> ->. lia.
Qed.
(* ================================================================= *)
(** ** Dictionaries *)

Section Dict.
Context {V : Type}.
Implicit Types (d : Py.dict V) (k : string) (v : V).

Lemma dict_get_set_eq k v d : Py.dict_get k (Py.dict_set k v d) = Some v.
Proof.
  induction d as [|[k' v'] d IH]; simpl.
  - now rewrite String.eqb_refl.
  - destruct (String.eqb k k') eqn:E; simpl; rewrite E; auto.
Qed.

Lemma dict_get_set_neq k k' v d :
  k <> k' -> Py.dict_get k' (Py.dict_set k v d) = Py.dict_get k' d.
Proof.
  intros Hne. induction d as [|[k0 v0] d IH]; simpl.
  - destruct (String.eqb_spec k' k); congruence.
  - destruct (String.eqb_spec k k0) as [->|Hk]; simpl.
    + destruct (String.eqb_spec k' k0); congruence.
    + now rewrite IH.
Qed.

Lemma dict_set_twice k v v' d :
  Py.dict_set k v' (Py.dict_set k v d) = Py.dict_set k v' d.
Proof.
  induction d as [|[k0 v0] d IH]; simpl.
  - now rewrite String.eqb_refl.
  - destruct (String.eqb k k0) eqn:E; simpl; rewrite E; auto.
    now rewrite IH.
Qed.

Lemma dict_set_same k v d :
  Py.dict_get k d = Some v -> Py.dict_set k v d = d.
Proof.
  induction d as [|[k0 v0] d IH]; simpl; [discriminate|].
  destruct (String.eqb_spec k k0) as [->|Hk].
  - now intros [= ->].
  - intros H. now rewrite IH.
Qed.

Lemma dict_mem_get k d :
  Py.dict_mem k d = match Py.dict_get k d with Some _ => true | None => false end.
Proof. reflexivity. Qed.

End Dict.

(* ================================================================= *)
(** ** The methods of [TransactionThread] as equations *)

Import transaction_handling.

Lemma tracker_set_tracker_eq id heaps self :
  tracker id (set_tracker id heaps self) = Some heaps.
Proof. apply dict_get_set_eq. Qed.

Lemma tracker_set_tracker_neq id id' heaps self :
  id <> id' -> tracker id' (set_tracker id heaps self) = tracker id' self.
Proof. apply dict_get_set_neq. Qed.

Lemma set_tracker_twice id heaps heaps' self :
  set_tracker id heaps' (set_tracker id heaps self) = set_tracker id heaps' self.
Proof.
  unfold set_tracker, heaps_set. simpl. now rewrite dict_set_twice.
Qed.

Lemma heaps_get_run id self :
  heaps_get id self
  = match tracker id self with
    | Some heaps => Return heaps self
    | None => Throw Py.KeyError self
    end.
Proof. reflexivity. Qed.

Lemma heaps_set_run id heaps self :
  heaps_set id heaps self = Return tt (set_tracker id heaps self).
Proof. reflexivity. Qed.

Lemma push_run id h x self heaps :
  tracker id self = Some heaps ->
  push id h (Some x) self
  = Return tt (set_tracker id
                 match h with
                 | lower_heap => (heap.MaxHeap.push (fst heaps) x, snd heaps)
                 | higher_heap => (fst heaps, heap.MinHeap.push (snd heaps) x)
                 end self).
Proof.
  intros H. unfold push, bind. rewrite heaps_get_run, H. now destruct h.
Qed.

(** [transaction_heaps_add_number] always returns; it creates the pair of
    heaps of a new key and pushes the number on one of the two. *)
Lemma add_number_run v id x self :
  transaction_heaps_add_number v id x self
  = Return tt (set_tracker id (added x (tracker_or_new id self)) self).
Proof.
  unfold transaction_heaps_add_number, tracker_or_new.
  unfold bind at 1. unfold heaps_mem. rewrite dict_mem_get.
  fold (tracker id self).
  destruct (tracker id self) as [[lo hi]|] eqn:E; simpl negb; cbv iota.
  - unfold bind at 1. unfold ret at 1.
    unfold bind at 1. rewrite heaps_get_run, E. simpl fst.
    unfold added. simpl fst. simpl snd.
    destruct lo as [|r t]; simpl heap.MaxHeap.empty; simpl heap.MaxHeap.peek;
      cbv iota; unfold bind, ret; simpl orb.
    + now rewrite (@push_run id lower_heap x self _ E).
    + destruct (Py.lt x (- r)%Q);
        [now rewrite (@push_run id lower_heap x self _ E)
        | now rewrite (@push_run id higher_heap x self _ E)].
  - unfold bind at 1. rewrite heaps_set_run.
    unfold bind at 1. rewrite heaps_get_run, tracker_set_tracker_eq.
    unfold added. simpl. unfold bind, ret.
    erewrite push_run by apply tracker_set_tracker_eq.
    now rewrite set_tracker_twice.
Qed.

Lemma rebalance_missing id self :
  tracker id self = None ->
  transaction_heaps_rebalance id self = Throw Py.KeyError self.
Proof.
  intros H. unfold transaction_heaps_rebalance, try_except, bind.
  now rewrite heaps_get_run, H.
Qed.

Lemma pop_run id h self heaps :
  tracker id self = Some heaps ->
  pop id h self
  = match h with
    | lower_heap =>
        match heap.MaxHeap.pop (fst heaps) with
        | Py.Ok r => Return (fst r) (set_tracker id (snd r, snd heaps) self)
        | Py.Raise e => Throw e self
        end
    | higher_heap =>
        match heap.MinHeap.pop (snd heaps) with
        | Py.Ok r => Return (fst r) (set_tracker id (fst heaps, snd r) self)
        | Py.Raise e => Throw e self
        end
    end.
Proof.
  intros H. unfold pop, bind. rewrite heaps_get_run, H.
  destruct h.
  - now destruct (heap.MaxHeap.pop (fst heaps)).
  - now destruct (heap.MinHeap.pop (snd heaps)).
Qed.

(** [transaction_heaps_rebalance] on a key that has its heaps always
    returns, and writes the pair only when one item moves. *)
Lemma rebalance_run id self heaps :
  tracker id self = Some heaps ->
  transaction_heaps_rebalance id self
  = Return tt (if unbalanced heaps
               then set_tracker id (rebalanced heaps) self else self).
Proof.
  intros H. destruct heaps as [lo hi].
  unfold transaction_heaps_rebalance, try_except.
  unfold bind at 1. rewrite heaps_get_run, H.
  unfold bigger_smaller, unbalanced, rebalanced, size,
    heap.MaxHeap.size, heap.MinHeap.size.
  cbn [fst snd].
  destruct (Nat.ltb_spec (length hi) (length lo)) as [Hlt|Hge].
  - destruct (Nat.leb_spec (length hi + 2) (length lo)) as [H2|H2].
    + replace (2 <=? Z.of_nat (length lo) - Z.of_nat (length hi))%Z
        with true by (symmetry; apply Z.leb_le; lia).
      cbn [orb].
      assert (Hne : lo <> []) by (apply length_nonempty; lia).
      destruct (MaxHeap_pop_run Hne) as (lo' & E & Ep & Hl).
      unfold bind. rewrite (@pop_run id lower_heap self _ H). cbn [fst snd].
      rewrite E, Ep. cbn [fst snd].
      erewrite push_run by apply tracker_set_tracker_eq.
      rewrite set_tracker_twice. unfold lower_to_higher. cbn [fst snd].
      now rewrite E, Ep.
    + replace (2 <=? Z.of_nat (length lo) - Z.of_nat (length hi))%Z
        with false by (symmetry; apply Z.leb_gt; lia).
      replace (length lo + 2 <=? length hi) with false
        by (symmetry; apply Nat.leb_gt; lia).
      reflexivity.
  - replace (length hi + 2 <=? length lo) with false
      by (symmetry; apply Nat.leb_gt; lia).
    cbn [orb].
    destruct (Nat.leb_spec (length lo + 2) (length hi)) as [H2|H2].
    + replace (2 <=? Z.of_nat (length hi) - Z.of_nat (length lo))%Z
        with true by (symmetry; apply Z.leb_le; lia).
      assert (Hne : hi <> []) by (apply length_nonempty; lia).
      destruct (MinHeap_pop_run Hne) as (hi' & E & Ep & Hl).
      unfold bind. rewrite (@pop_run id higher_heap self _ H). cbn [fst snd].
      rewrite E, Ep. cbn [fst snd].
      erewrite push_run by apply tracker_set_tracker_eq.
      rewrite set_tracker_twice. unfold higher_to_lower. cbn [fst snd].
      now rewrite E, Ep.
    + replace (2 <=? Z.of_nat (length hi) - Z.of_nat (length lo))%Z
        with false by (symmetry; apply Z.leb_gt; lia).
      reflexivity.
Qed.

Lemma get_median_missing v id self :
  tracker id self = None ->
  transaction_heaps_get_median v id self = Throw Py.KeyError self.
Proof.
  intros H. unfold transaction_heaps_get_median, try_except, bind.
  now rewrite heaps_get_run, H.
Qed.

(** [transaction_heaps_get_median] on a key that has its heaps: it leaves
    the state as it is, returns the rounded [median_value], and raises
    [TypeError] when a root is [None]. *)
Lemma get_median_run v id self heaps :
  tracker id self = Some heaps ->
  transaction_heaps_get_median v id self
  = match median_value heaps with
    | Some m => Return (Some (Py.int (Py.round v m))) self
    | None => Throw Py.TypeError self
    end.
Proof.
  intros H.
  unfold transaction_heaps_get_median, try_except.
  unfold bind at 1. rewrite heaps_get_run, H.
  unfold median_value.
  destruct (bigger_smaller heaps) as [bigger smaller].
  destruct (size bigger heaps =? size smaller heaps).
  - destruct (peek bigger heaps) as [a|], (peek smaller heaps) as [b|];
      reflexivity.
  - destruct (peek bigger heaps) as [a|]; reflexivity.
Qed.

(** The two calls on one key leave the heaps of every other key as they
    are. *)
Lemma add_number_other_key v id id' x self :
  id <> id' ->
  tracker id' (state_of (transaction_heaps_add_number v id x self))
  = tracker id' self.
Proof.
  intros H. rewrite add_number_run. simpl state_of.
  now apply tracker_set_tracker_neq.
Qed.

Lemma rebalance_other_key id id' self :
  id <> id' ->
  tracker id' (state_of (transaction_heaps_rebalance id self))
  = tracker id' self.
Proof.
  intros H. destruct (tracker id self) as [heaps|] eqn:E.
  - rewrite (@rebalance_run id self heaps E). simpl state_of.
    destruct (unbalanced heaps); auto.
    now apply tracker_set_tracker_neq.
  - now rewrite (@rebalance_missing id self E).
Qed.
(* ================================================================= *)
(** ** Rounding *)

Lemma int_inject_Z z : Py.int (inject_Z z) = z.
Proof. unfold Py.int. simpl. apply Z.quot_1_r. Qed.

Lemma round_half_away_comp x y :
  (x == y)%Q -> Py.round_half_away x = Py.round_half_away y.
Proof.
  intros H. unfold Py.round_half_away.
  rewrite (Qleb_comp _ _ (Qeq_refl 0) _ _ H).
  assert (E1 : (x + (1 # 2) == y + (1 # 2))%Q) by now rewrite H.
  assert (E2 : (x - (1 # 2) == y - (1 # 2))%Q) by now rewrite H.
  now rewrite (Qfloor_comp _ _ E1), (Qceiling_comp _ _ E2).
Qed.

Lemma round_half_even_comp x y :
  (x == y)%Q -> Py.round_half_even x = Py.round_half_even y.
Proof.
  intros H. unfold Py.round_half_even.
  rewrite (Qfloor_comp _ _ H).
  assert (E : (x - inject_Z (Qfloor y) == y - inject_Z (Qfloor y))%Q)
    by now rewrite H.
  now rewrite (Qcompare_comp _ _ E _ _ (Qeq_refl (1 # 2))).
Qed.

Lemma round_comp v x y : (x == y)%Q -> Py.round v x = Py.round v y.
Proof.
  intros H. destruct v; simpl.
  - now rewrite (round_half_away_comp H).
  - now rewrite (round_half_even_comp H).
Qed.

Lemma floor_bounds x :
  (inject_Z (Qfloor x) <= x /\ x < inject_Z (Qfloor x) + 1)%Q.
Proof.
  split; [apply Qfloor_le|].
  pose proof (Qlt_floor x) as H. now rewrite inject_Z_plus in H.
Qed.

Lemma ceiling_bounds x :
  (inject_Z (Qceiling x) - 1 < x /\ x <= inject_Z (Qceiling x))%Q.
Proof.
  split; [|apply Qle_ceiling].
  pose proof (Qceiling_lt x) as H.
  unfold Z.sub in H. now rewrite inject_Z_plus in H.
Qed.

Lemma floor_unique x k :
  (inject_Z k <= x)%Q -> (x < inject_Z k + 1)%Q -> Qfloor x = k.
Proof.
  intros H1 H2. destruct (floor_bounds x) as [H3 H4].
  assert (H5 : (inject_Z (Qfloor x) < inject_Z k + 1)%Q) by lra.
  assert (H6 : (inject_Z k < inject_Z (Qfloor x) + 1)%Q) by lra.
  change 1%Q with (inject_Z 1) in H5, H6.
  rewrite <- inject_Z_plus in H5, H6.
  rewrite <- Zlt_Qlt in H5, H6. lia.
Qed.

Lemma ceiling_unique x k :
  (inject_Z k - 1 < x)%Q -> (x <= inject_Z k)%Q -> Qceiling x = k.
Proof.
  intros H1 H2. unfold Qceiling.
  rewrite (@floor_unique (- x)%Q (- k)%Z); [lia| |];
    rewrite inject_Z_opp; lra.
Qed.

Lemma round_half_away_nearest x : nearest_integer (Py.round_half_away x) x.
Proof.
  unfold nearest_integer, Py.round_half_away.
  apply Qabs_Qle_condition.
  destruct (Qle_bool 0 x).
  - destruct (floor_bounds (x + (1 # 2))%Q). lra.
  - destruct (ceiling_bounds (x - (1 # 2))%Q). lra.
Qed.

Lemma round_half_even_nearest x : nearest_integer (Py.round_half_even x) x.
Proof.
  unfold nearest_integer, Py.round_half_even.
  apply Qabs_Qle_condition.
  destruct (floor_bounds x).
  destruct (Qcompare_spec (x - inject_Z (Qfloor x)) (1 # 2)) as [E|E|E].
  - destruct (Z.even (Qfloor x)); rewrite ?inject_Z_plus;
      change (inject_Z 1) with 1%Q; lra.
  - lra.
  - rewrite inject_Z_plus. change (inject_Z 1) with 1%Q. lra.
Qed.

(** A tie goes away from zero under Python 2. *)
Lemma round_half_away_tie x k :
  (x == inject_Z k + (1 # 2))%Q ->
  Py.round_half_away x = if (0 <=? k)%Z then (k + 1)%Z else k.
Proof.
  intros H. unfold Py.round_half_away.
  destruct (Z.leb_spec 0 k) as [Hk|Hk].
  - rewrite Zle_Qle in Hk. change (inject_Z 0) with 0%Q in Hk.
    replace (Qle_bool 0 x) with true by (symmetry; apply Qle_bool_iff; lra).
    apply floor_unique; rewrite inject_Z_plus;
      change (inject_Z 1) with 1%Q; lra.
  - assert (Hk' : (k + 1 <= 0)%Z) by lia.
    rewrite Zle_Qle, inject_Z_plus in Hk'.
    change (inject_Z 1) with 1%Q in Hk'. change (inject_Z 0) with 0%Q in Hk'.
    destruct (Qle_bool 0 x) eqn:E; [apply Qle_bool_iff in E; lra|].
    apply ceiling_unique; lra.
Qed.

(** A tie goes to the even integer under Python 3. *)
Lemma round_half_even_tie x k :
  (x == inject_Z k + (1 # 2))%Q ->
  Py.round_half_even x = if Z.even k then k else (k + 1)%Z.
Proof.
  intros H. unfold Py.round_half_even.
  rewrite (@floor_unique x k) by lra.
  destruct (Qcompare_spec (x - inject_Z k) (1 # 2)) as [E|E|E];
    [reflexivity | lra | lra].
Qed.
(* ================================================================= *)
(** ** Float arithmetic *)

Lemma scale_pos : (0 < inject_Z Py.scale)%Q.
Proof. vm_compute. reflexivity. Qed.

Lemma spacing_pos y : (0 < Py.spacing y)%Z.
Proof. unfold Py.spacing. apply Z.pow_pos_nonneg; lia. Qed.

Lemma spacing_pos_Q y : (0 < inject_Z (Py.spacing y))%Q.
Proof.
  change 0%Q with (inject_Z 0). rewrite <- Zlt_Qlt. apply spacing_pos.
Qed.

Lemma spacing_comp x y : (x == y)%Q -> Py.spacing x = Py.spacing y.
Proof.
  intros H. unfold Py.spacing.
  now rewrite (Qfloor_comp _ _ (Qabs_wd _ _ H)).
Qed.

(** Rounding to the nearest double depends on the number alone, not on the
    fraction that stands for it. *)
Lemma to_double_comp x y : (x == y)%Q -> Py.to_double x = Py.to_double y.
Proof.
  intros H. unfold Py.to_double. cbv zeta.
  assert (E : (x * inject_Z Py.scale == y * inject_Z Py.scale)%Q)
    by now rewrite H.
  rewrite (@spacing_comp _ _ E).
  assert (E2 : (x * inject_Z Py.scale
                / inject_Z (Py.spacing (y * inject_Z Py.scale))
                == y * inject_Z Py.scale
                   / inject_Z (Py.spacing (y * inject_Z Py.scale)))%Q)
    by now rewrite E.
  now rewrite (@round_half_even_comp _ _ E2).
Qed.

Lemma float_div_comp x x' y :
  (x == x')%Q -> Py.float_div x y = Py.float_div x' y.
Proof.
  intros H. unfold Py.float_div. apply to_double_comp. now rewrite H.
Qed.

Lemma float_add_comp x x' y y' :
  (x == x')%Q -> (y == y')%Q -> (Py.float_add x y == Py.float_add x' y')%Q.
Proof.
  intros Hx Hy. unfold Py.float_add.
  rewrite (Qeqb_comp _ _ Hx _ _ (Qeq_refl 0)).
  rewrite (Qeqb_comp _ _ Hy _ _ (Qeq_refl 0)).
  destruct (Qeq_bool x' 0); auto.
  destruct (Qeq_bool y' 0); auto.
  assert (E : (x + y == x' + y')%Q) by now rewrite Hx, Hy.
  rewrite (@to_double_comp _ _ E). apply Qeq_refl.
Qed.

Lemma float_add_comm x y : (Py.float_add x y == Py.float_add y x)%Q.
Proof.
  unfold Py.float_add.
  destruct (Qeq_bool x 0) eqn:Ex; destruct (Qeq_bool y 0) eqn:Ey;
    try apply Qeq_refl.
  - apply Qeq_bool_eq in Ex, Ey. now rewrite Ex, Ey.
  - rewrite (@to_double_comp _ _ (Qplus_comm x y)). apply Qeq_refl.
Qed.

(** The double nearest to [q], counted in the smallest doubles, is a
    whole number of the spacing at [q]. *)
Lemma to_double_scaled q :
  (Py.to_double q * inject_Z Py.scale
   == inject_Z (Py.round_half_even
                  (q * inject_Z Py.scale
                   / inject_Z (Py.spacing (q * inject_Z Py.scale)))
                * Py.spacing (q * inject_Z Py.scale)))%Q.
Proof.
  unfold Py.to_double. cbv zeta. rewrite Qred_correct, inject_Z_mult.
  pose proof scale_pos as HS.
  set (S := inject_Z Py.scale) in *. clearbody S.
  field. lra.
Qed.

Lemma double_scaled d :
  Py.is_double d = true ->
  (d * inject_Z Py.scale
   == inject_Z (Py.round_half_even
                  (d * inject_Z Py.scale
                   / inject_Z (Py.spacing (d * inject_Z Py.scale)))
                * Py.spacing (d * inject_Z Py.scale)))%Q.
Proof.
  intros H. apply Qeq_bool_eq in H.
  rewrite <- to_double_scaled. now rewrite H.
Qed.

(* ----------------------------------------------------------------- *)
(** *** Rounding to an integer is monotone *)

Lemma round_half_even_inject k : Py.round_half_even (inject_Z k) = k.
Proof.
  unfold Py.round_half_even. rewrite Qfloor_Z.
  destruct (Qcompare_spec (inject_Z k - inject_Z k) (1 # 2)) as [E|E|E];
    [lra | reflexivity | lra].
Qed.

Lemma round_half_even_le x y :
  (x <= y)%Q -> (Py.round_half_even x <= Py.round_half_even y)%Z.
Proof.
  intros H.
  destruct (Z.le_gt_cases (Py.round_half_even x) (Py.round_half_even y))
    as [Hle|Hlt]; auto.
  exfalso.
  pose proof (round_half_even_nearest x) as Hx.
  pose proof (round_half_even_nearest y) as Hy.
  unfold nearest_integer in Hx, Hy.
  apply Qabs_Qle_condition in Hx. apply Qabs_Qle_condition in Hy.
  assert (H1 : (inject_Z (Py.round_half_even y) + 1
                <= inject_Z (Py.round_half_even x))%Q).
  { change 1%Q with (inject_Z 1). rewrite <- inject_Z_plus, <- Zle_Qle. lia. }
  assert (E : (x == y)%Q) by lra.
  rewrite (@round_half_even_comp _ _ E) in Hlt. lia.
Qed.

Lemma inject_Z_mult_le a b u :
  (0 < u)%Z -> (a <= b)%Z -> (inject_Z (a * u) <= inject_Z (b * u))%Q.
Proof.
  intros Hu H. rewrite <- Zle_Qle. apply Z.mul_le_mono_nonneg_r; lia.
Qed.

(** A multiple of the unit that is below [x] is below [x] rounded to a
    multiple of the unit, and likewise above. *)
Lemma grid_lower k u x y :
  (0 < u)%Z -> (y == inject_Z (k * u))%Q -> (y <= x)%Q ->
  (y <= inject_Z (Py.round_half_even (x / inject_Z u) * u))%Q.
Proof.
  intros Hu Hy H. rewrite Hy. apply inject_Z_mult_le; auto.
  rewrite <- (round_half_even_inject k) at 1. apply round_half_even_le.
  apply Qle_shift_div_l.
  - change 0%Q with (inject_Z 0). now rewrite <- Zlt_Qlt.
  - rewrite <- inject_Z_mult, <- Hy. exact H.
Qed.

Lemma grid_upper k u x y :
  (0 < u)%Z -> (y == inject_Z (k * u))%Q -> (x <= y)%Q ->
  (inject_Z (Py.round_half_even (x / inject_Z u) * u) <= y)%Q.
Proof.
  intros Hu Hy H. rewrite Hy. apply inject_Z_mult_le; auto.
  rewrite <- (round_half_even_inject k) at 1. apply round_half_even_le.
  apply Qle_shift_div_r.
  - change 0%Q with (inject_Z 0). now rewrite <- Zlt_Qlt.
  - rewrite <- inject_Z_mult, <- Hy. exact H.
Qed.

(* ----------------------------------------------------------------- *)
(** *** The spacing of the doubles *)

Lemma floor_abs_nonneg y : (0 <= Qfloor (Qabs y))%Z.
Proof.
  change 0%Z with (Qfloor 0). apply Qfloor_resp_le, Qabs_nonneg.
Qed.

(** The spacing grows with the magnitude, by a whole factor. *)
Lemma spacing_divide x y :
  (Qabs y <= Qabs x)%Q ->
  exists c, (0 < c)%Z /\ Py.spacing x = (c * Py.spacing y)%Z.
Proof.
  intros H. unfold Py.spacing.
  set (ex := Z.max 0 (Z.log2 (Qfloor (Qabs x)) - 52)).
  set (ey := Z.max 0 (Z.log2 (Qfloor (Qabs y)) - 52)).
  assert (Hle : (Z.log2 (Qfloor (Qabs y)) <= Z.log2 (Qfloor (Qabs x)))%Z)
    by now apply Z.log2_le_mono, Qfloor_resp_le.
  assert (He : (0 <= ey <= ex)%Z) by (subst ex ey; lia).
  exists (2 ^ (ex - ey))%Z. split.
  - apply Z.pow_pos_nonneg; lia.
  - rewrite <- Z.pow_add_r by lia. f_equal. lia.
Qed.

(** Where the spacing is larger, the numbers are apart: a power of two
    lies between them. *)
Lemma spacing_lt x y :
  (Py.spacing y < Py.spacing x)%Z ->
  (Qabs y < inject_Z (2 ^ 52 * Py.spacing x)
   /\ inject_Z (2 ^ 52 * Py.spacing x) <= Qabs x)%Q.
Proof.
  unfold Py.spacing.
  pose proof (floor_abs_nonneg x) as Hx0.
  pose proof (floor_abs_nonneg y) as Hy0.
  pose proof (Qfloor_le (Qabs x)) as Hfx.
  pose proof (Qlt_floor (Qabs y)) as Hfy.
  set (Nx := Qfloor (Qabs x)) in *. set (Ny := Qfloor (Qabs y)) in *.
  intros H.
  apply Z.pow_lt_mono_r_iff in H; [|lia|lia].
  assert (Hex : (52 < Z.log2 Nx)%Z) by lia.
  assert (Hlog : (Z.log2 Ny < Z.log2 Nx)%Z) by lia.
  rewrite (Z.max_r 0 (Z.log2 Nx - 52)) by lia.
  assert (E : (2 ^ 52 * 2 ^ (Z.log2 Nx - 52) = 2 ^ Z.log2 Nx)%Z).
  { rewrite <- Z.pow_add_r by lia. f_equal. lia. }
  rewrite E.
  assert (HNx : (0 < Nx)%Z).
  { destruct (Z.lt_ge_cases 0 Nx) as [|Hn]; auto.
    rewrite (Z.log2_nonpos Nx) in Hex by lia. lia. }
  destruct (Z.log2_spec Nx HNx) as [L1 L2].
  assert (HNy : (Ny + 1 <= 2 ^ Z.log2 Nx)%Z).
  { destruct (Z.eq_dec Ny 0) as [->|Hne].
    - assert (0 < 2 ^ Z.log2 Nx)%Z by (apply Z.pow_pos_nonneg; lia). lia.
    - assert (HNy : (0 < Ny)%Z) by lia.
      destruct (Z.log2_spec Ny HNy) as [_ L3].
      assert (2 ^ Z.succ (Z.log2 Ny) <= 2 ^ Z.log2 Nx)%Z
        by (apply Z.pow_le_mono_r; lia).
      lia. }
  split.
  - apply Qlt_le_trans with (1 := Hfy). now rewrite <- Zle_Qle.
  - apply Qle_trans with (2 := Hfx). now rewrite <- Zle_Qle.
Qed.

(* ----------------------------------------------------------------- *)
(** *** Rounding to a double never crosses a double *)

Lemma sandwich_lower x y m :
  (y == inject_Z (m * Py.spacing y))%Q -> (y <= x)%Q ->
  (y <= inject_Z (Py.round_half_even (x / inject_Z (Py.spacing x))
                  * Py.spacing x))%Q.
Proof.
  intros Hy Hle.
  pose proof (spacing_pos x) as Hux. pose proof (spacing_pos y) as Huy.
  destruct (Qlt_le_dec (Qabs y) (Qabs x)) as [Hlt|Hge].
  - destruct (@spacing_divide _ _ (Qlt_le_weak _ _ Hlt)) as (c & Hc & Ec).
    destruct (Z.lt_ge_cases (Py.spacing y) (Py.spacing x)) as [Hs|Hs].
    + destruct (@spacing_lt x y Hs) as [B1 B2].
      destruct (Qlt_le_dec x 0) as [Hneg|Hpos].
      * exfalso.
        rewrite (Qabs_neg x) in Hlt by lra.
        rewrite (Qabs_neg y) in Hlt by lra. lra.
      * rewrite (Qabs_pos x) in B2 by assumption.
        assert (Hm : (2 ^ 52
                      <= Py.round_half_even (x / inject_Z (Py.spacing x)))%Z).
        { rewrite <- (round_half_even_inject (2 ^ 52)) at 1.
          apply round_half_even_le. apply Qle_shift_div_l.
          - apply spacing_pos_Q.
          - now rewrite <- inject_Z_mult. }
        apply Qle_trans with (Qabs y); [apply Qle_Qabs|].
        apply Qlt_le_weak. apply Qlt_le_trans with (1 := B1).
        now apply inject_Z_mult_le.
    + assert (c = 1%Z) by nia. subst c.
      rewrite Z.mul_1_l in Ec. rewrite <- Ec in Hy.
      now apply grid_lower with m.
  - destruct (@spacing_divide _ _ Hge) as (c & Hc & Ec).
    rewrite Ec, Z.mul_assoc in Hy.
    now apply grid_lower with (m * c)%Z.
Qed.

Lemma sandwich_upper x y m :
  (y == inject_Z (m * Py.spacing y))%Q -> (x <= y)%Q ->
  (inject_Z (Py.round_half_even (x / inject_Z (Py.spacing x))
             * Py.spacing x) <= y)%Q.
Proof.
  intros Hy Hle.
  pose proof (spacing_pos x) as Hux. pose proof (spacing_pos y) as Huy.
  destruct (Qlt_le_dec (Qabs y) (Qabs x)) as [Hlt|Hge].
  - destruct (@spacing_divide _ _ (Qlt_le_weak _ _ Hlt)) as (c & Hc & Ec).
    destruct (Z.lt_ge_cases (Py.spacing y) (Py.spacing x)) as [Hs|Hs].
    + destruct (@spacing_lt x y Hs) as [B1 B2].
      destruct (Qlt_le_dec 0 x) as [Hpos|Hneg].
      * exfalso.
        rewrite (Qabs_pos x) in Hlt by lra.
        rewrite (Qabs_pos y) in Hlt by lra. lra.
      * rewrite (Qabs_neg x) in B2 by assumption.
        assert (Hm : (Py.round_half_even (x / inject_Z (Py.spacing x))
                      <= - 2 ^ 52)%Z).
        { rewrite <- (round_half_even_inject (- 2 ^ 52)) at 1.
          apply round_half_even_le. apply Qle_shift_div_r.
          - apply spacing_pos_Q.
          - rewrite <- inject_Z_mult, Z.mul_opp_l, inject_Z_opp. lra. }
        apply Qle_trans with (- Qabs y)%Q.
        -- apply Qle_trans
             with (inject_Z (- 2 ^ 52 * Py.spacing x)).
           ++ now apply inject_Z_mult_le.
           ++ rewrite Z.mul_opp_l, inject_Z_opp. lra.
        -- pose proof (Qle_Qabs (- y)) as Ha. rewrite Qabs_opp in Ha. lra.
    + assert (c = 1%Z) by nia. subst c.
      rewrite Z.mul_1_l in Ec. rewrite <- Ec in Hy.
      now apply grid_upper with m.
  - destruct (@spacing_divide _ _ Hge) as (c & Hc & Ec).
    rewrite Ec, Z.mul_assoc in Hy.
    now apply grid_upper with (m * c)%Z.
Qed.

(** A double that is at most [q] is at most [q] rounded, and likewise for
    at least: rounding keeps the order with every double. *)
Lemma to_double_ge d q :
  Py.is_double d = true -> (d <= q)%Q -> (d <= Py.to_double q)%Q.
Proof.
  intros Hd Hle. pose proof scale_pos as HS.
  apply (Qmult_le_r _ _ (inject_Z Py.scale) HS).
  rewrite to_double_scaled.
  apply sandwich_lower
    with (Py.round_half_even
            (d * inject_Z Py.scale
             / inject_Z (Py.spacing (d * inject_Z Py.scale)))).
  - now apply double_scaled.
  - now apply Qmult_le_r.
Qed.

Lemma to_double_le d q :
  Py.is_double d = true -> (q <= d)%Q -> (Py.to_double q <= d)%Q.
Proof.
  intros Hd Hle. pose proof scale_pos as HS.
  apply (Qmult_le_r _ _ (inject_Z Py.scale) HS).
  rewrite to_double_scaled.
  apply sandwich_upper
    with (Py.round_half_even
            (d * inject_Z Py.scale
             / inject_Z (Py.spacing (d * inject_Z Py.scale)))).
  - now apply double_scaled.
  - now apply Qmult_le_r.
Qed.

(** Adding an amount that is not negative to a double never gives less,
    and adding one that is not positive never gives more. *)
Lemma float_add_ge x a :
  Py.is_double x = true -> (0 <= a)%Q -> (x <= Py.float_add x a)%Q.
Proof.
  intros Hx Ha. unfold Py.float_add.
  destruct (Qeq_bool x 0) eqn:Ex.
  - apply Qeq_bool_eq in Ex. lra.
  - destruct (Qeq_bool a 0) eqn:Ea; [apply Qle_refl|].
    apply to_double_ge; auto. lra.
Qed.

Lemma float_add_le x a :
  Py.is_double x = true -> (a <= 0)%Q -> (Py.float_add x a <= x)%Q.
Proof.
  intros Hx Ha. unfold Py.float_add.
  destruct (Qeq_bool x 0) eqn:Ex.
  - apply Qeq_bool_eq in Ex. lra.
  - destruct (Qeq_bool a 0) eqn:Ea; [apply Qle_refl|].
    apply to_double_le; auto. lra.
Qed.

(** A sum and a quotient that are doubles are exact. *)
Lemma float_add_exact x y :
  Py.is_double (x + y) = true -> (Py.float_add x y == x + y)%Q.
Proof.
  intros H. apply Qeq_bool_eq in H. unfold Py.float_add.
  destruct (Qeq_bool x 0) eqn:Ex.
  - apply Qeq_bool_eq in Ex. lra.
  - destruct (Qeq_bool y 0) eqn:Ey; auto.
    apply Qeq_bool_eq in Ey. lra.
Qed.

Lemma float_div_exact x y :
  Py.is_double (x / y) = true -> (Py.float_div x y == x / y)%Q.
Proof. intros H. now apply Qeq_bool_eq in H. Qed.

(* ----------------------------------------------------------------- *)
(** *** The result of a rounding is a double *)

Lemma grid_fix k u y :
  (0 < u)%Z -> (y == inject_Z (k * u))%Q ->
  (inject_Z (Py.round_half_even (y / inject_Z u) * u) == y)%Q.
Proof.
  intros Hu Hy. apply Qle_antisym.
  - apply grid_upper with k; auto. apply Qle_refl.
  - apply grid_lower with k; auto. apply Qle_refl.
Qed.

Lemma round_half_even_nonneg x :
  (0 <= x)%Q -> (0 <= Py.round_half_even x)%Z.
Proof.
  intros H. pose proof (@round_half_even_le (inject_Z 0) x H) as H'.
  now rewrite round_half_even_inject in H'.
Qed.

Lemma round_half_even_nonpos x :
  (x <= 0)%Q -> (Py.round_half_even x <= 0)%Z.
Proof.
  intros H. pose proof (@round_half_even_le x (inject_Z 0) H) as H'.
  now rewrite round_half_even_inject in H'.
Qed.

(** A number rounded to a multiple of the spacing at the number is a
    multiple of the spacing at the result, also when the result is the
    power of two above. *)
Lemma rounded_on_grid y :
  exists k,
    (inject_Z (Py.round_half_even (y / inject_Z (Py.spacing y))
               * Py.spacing y)
     == inject_Z
          (k * Py.spacing
                 (inject_Z (Py.round_half_even (y / inject_Z (Py.spacing y))
                            * Py.spacing y))))%Q.
Proof.
  pose proof (spacing_pos y) as Hu. pose proof (spacing_pos_Q y) as HuQ.
  set (u := Py.spacing y) in *.
  set (M := Py.round_half_even (y / inject_Z u)).
  set (y' := inject_Z (M * u)).
  pose proof (spacing_pos y') as Hu'.
  destruct (Qlt_le_dec (Qabs y) (Qabs y')) as [Hlt|Hge].
  - destruct (@spacing_divide _ _ (Qlt_le_weak _ _ Hlt)) as (c & Hc & Ec).
    fold u in Ec.
    destruct (Z.lt_ge_cases u (Py.spacing y')) as [Hs|Hs].
    + destruct (@spacing_lt y' y Hs) as [B1 B2].
      assert (EB : (2 ^ 52 * Py.spacing y' = 2 ^ 52 * c * u)%Z)
        by (rewrite Ec; ring).
      destruct (Qlt_le_dec y 0) as [Hneg|Hpos].
      * exists (- 2 ^ 52)%Z.
        rewrite (Qabs_neg y) in B1 by lra.
        assert (HM : (M <= 0)%Z).
        { apply round_half_even_nonpos.
          apply Qle_shift_div_r; auto; lra. }
        assert (Hy' : (y' <= 0)%Q).
        { unfold y'. change 0%Q with (inject_Z 0). rewrite <- Zle_Qle. nia. }
        rewrite (Qabs_neg y') in B2 by assumption.
        assert (Hlow : (inject_Z (- (2 ^ 52 * c) * u) <= y')%Q).
        { apply grid_lower with (- (2 ^ 52 * c))%Z; auto; [apply Qeq_refl|].
          rewrite Z.mul_opp_l, inject_Z_opp, <- EB. lra. }
        rewrite Z.mul_opp_l, inject_Z_opp, <- EB in Hlow.
        rewrite Z.mul_opp_l, inject_Z_opp. lra.
      * exists (2 ^ 52)%Z.
        rewrite (Qabs_pos y) in B1 by assumption.
        assert (HM : (0 <= M)%Z).
        { apply round_half_even_nonneg.
          apply Qle_shift_div_l; auto; lra. }
        assert (Hy' : (0 <= y')%Q).
        { unfold y'. change 0%Q with (inject_Z 0). rewrite <- Zle_Qle. nia. }
        rewrite (Qabs_pos y') in B2 by assumption.
        assert (Hup : (y' <= inject_Z (2 ^ 52 * c * u))%Q).
        { apply grid_upper with (2 ^ 52 * c)%Z; auto; [apply Qeq_refl|].
          rewrite <- EB. lra. }
        rewrite <- EB in Hup. lra.
    + assert (c = 1%Z) by nia. subst c. rewrite Z.mul_1_l in Ec.
      exists M. rewrite Ec. apply Qeq_refl.
  - destruct (@spacing_divide _ _ Hge) as (c & Hc & Ec). fold u in Ec.
    exists (M * c)%Z. unfold y' at 1. rewrite Ec, Z.mul_assoc.
    apply Qeq_refl.
Qed.

(** The result of a sum or a quotient is a double. *)
Lemma to_double_is_double q : Py.is_double (Py.to_double q) = true.
Proof.
  unfold Py.is_double. apply Qeq_bool_iff.
  pose proof scale_pos as HS.
  apply (Qmult_inj_r _ _ (inject_Z Py.scale)); [lra|].
  rewrite (to_double_scaled (Py.to_double q)).
  pose proof (to_double_scaled q) as Hd.
  destruct (rounded_on_grid (q * inject_Z Py.scale)) as [k Hk].
  set (y' := inject_Z
               (Py.round_half_even
                  (q * inject_Z Py.scale
                   / inject_Z (Py.spacing (q * inject_Z Py.scale)))
                * Py.spacing (q * inject_Z Py.scale))) in *.
  rewrite (@spacing_comp _ _ Hd).
  assert (E : (Py.to_double q * inject_Z Py.scale
               / inject_Z (Py.spacing y')
               == y' / inject_Z (Py.spacing y'))%Q) by now rewrite Hd.
  rewrite (@round_half_even_comp _ _ E), Hd.
  apply grid_fix with k; auto. apply spacing_pos.
Qed.

Lemma float_add_is_double x y :
  Py.is_double x = true -> Py.is_double y = true ->
  Py.is_double (Py.float_add x y) = true.
Proof.
  intros Hx Hy. unfold Py.float_add.
  destruct (Qeq_bool x 0); auto.
  destruct (Qeq_bool y 0); auto.
  apply to_double_is_double.
Qed.

Lemma float_div_is_double x y : Py.is_double (Py.float_div x y) = true.
Proof. apply to_double_is_double. Qed.
(* ================================================================= *)
(** ** Sorting and ranks *)

Lemma Qle_bool_false x y : Qle_bool x y = false -> (y <= x)%Q.
Proof.
  intros H. apply Qlt_le_weak, Qnot_le_lt. intros Hle.
  apply Qle_bool_iff in Hle. congruence.
Qed.

Lemma insert_sorted_perm x l : Permutation (insert_sorted x l) (x :: l).
Proof.
  induction l as [|y l IH]; simpl; auto.
  destruct (Qle_bool x y); auto.
  rewrite IH. apply perm_swap.
Qed.

Lemma sort_perm l : Permutation (sort l) l.
Proof.
  induction l as [|x l IH]; simpl; auto.
  rewrite insert_sorted_perm. now apply perm_skip.
Qed.

Lemma sort_length l : length (sort l) = length l.
Proof. apply Permutation_length, sort_perm. Qed.

Lemma insert_sorted_sorted x l :
  StronglySorted Qle l -> StronglySorted Qle (insert_sorted x l).
Proof.
  induction 1 as [|y l Hs IH Hall]; simpl.
  - repeat constructor.
  - destruct (Qle_bool x y) eqn:E.
    + apply Qle_bool_iff in E. constructor; [now constructor|].
      constructor; auto.
      eapply Forall_impl; [|exact Hall].
      intros z Hz. now apply Qle_trans with y.
    + apply Qle_bool_false in E. constructor; auto.
      apply Permutation_Forall with (x :: l).
      * symmetry. apply insert_sorted_perm.
      * now constructor.
Qed.

Lemma sort_sorted l : StronglySorted Qle (sort l).
Proof.
  induction l as [|x l IH]; simpl; [constructor|].
  now apply insert_sorted_sorted.
Qed.

Section Filter.
Context {A : Type}.
Implicit Types (p q : A -> bool) (l : list A).

Lemma filter_length_le p l : length (filter p l) <= length l.
Proof. induction l as [|x l IH]; simpl; [|destruct (p x); simpl]; lia. Qed.

Lemma filter_length_all p l :
  (forall x, In x l -> p x = true) -> length (filter p l) = length l.
Proof.
  induction l as [|x l IH]; simpl; auto. intros H.
  rewrite (H x) by auto. simpl. rewrite IH; auto.
Qed.

Lemma filter_length_none p l :
  (forall x, In x l -> p x = false) -> length (filter p l) = 0.
Proof.
  induction l as [|x l IH]; simpl; auto. intros H.
  rewrite (H x) by auto. apply IH; auto.
Qed.

Lemma filter_length_lt p l y :
  In y l -> p y = false -> length (filter p l) < length l.
Proof.
  induction l as [|x l IH]; simpl; [intros []|].
  intros [->|Hin] Hy.
  - rewrite Hy. pose proof (filter_length_le p l). lia.
  - specialize (IH Hin Hy). destruct (p x); simpl; lia.
Qed.

Lemma filter_length_pos p l y :
  In y l -> p y = true -> 0 < length (filter p l).
Proof.
  induction l as [|x l IH]; simpl; [intros []|].
  intros [->|Hin] Hy.
  - rewrite Hy. simpl. lia.
  - specialize (IH Hin Hy). destruct (p x); simpl; lia.
Qed.

Lemma filter_length_mono p q l :
  (forall x, p x = true -> q x = true) ->
  length (filter p l) <= length (filter q l).
Proof.
  intros H. induction l as [|x l IH]; simpl; auto.
  destruct (p x) eqn:E.
  - rewrite (H x E). simpl. lia.
  - destruct (q x); simpl; lia.
Qed.

Lemma filter_length_perm p l l' :
  Permutation l l' -> length (filter p l) = length (filter p l').
Proof.
  induction 1 as [|x l l' _ IH|x y l|l l' l'' _ IH1 _ IH2]; simpl; auto.
  - destruct (p x); simpl; lia.
  - destruct (p x), (p y); simpl; lia.
  - lia.
Qed.
End Filter.

Lemma has_rank_perm k m l l' :
  Permutation l l' -> has_rank k m l -> has_rank k m l'.
Proof.
  unfold has_rank, count_lt, count_le. intros H.
  now rewrite !(filter_length_perm _ H).
Qed.

(** Two values of the same rank in the same list are equal. *)
Lemma has_rank_unique k m m' l :
  has_rank k m l -> has_rank k m' l -> (m == m')%Q.
Proof.
  assert (Hlt : forall a b, (a < b)%Q -> has_rank k a l -> has_rank k b l ->
                            False).
  { unfold has_rank, count_lt, count_le. intros a b Hab [_ Ha] [Hb _].
    assert (length (filter (fun x => Qle_bool x a) l)
            <= length (filter (fun x => Py.lt x b) l)); [|lia].
    apply filter_length_mono. intros x Hx.
    apply Qle_bool_iff in Hx. apply lt_spec.
    now apply Qle_lt_trans with a. }
  intros H H'. destruct (Q_dec m m') as [[Hc|Hc]|Hc]; auto.
  - destruct (Hlt _ _ Hc H H').
  - destruct (Hlt _ _ Hc H' H).
Qed.

(** The item at index [k] of a sorted list has rank [k]. *)
Lemma sorted_has_rank s :
  StronglySorted Qle s ->
  forall k, k < length s -> has_rank k (nth k s 0%Q) s.
Proof.
  unfold has_rank, count_lt, count_le.
  induction 1 as [|a s Hs IH Hall]; intros k Hk; simpl in Hk; [lia|].
  rewrite Forall_forall in Hall.
  destruct k as [|k]; simpl nth.
  - simpl filter.
    replace (Py.lt a a) with false
      by (symmetry; apply lt_false, Qle_refl).
    replace (Qle_bool a a) with true
      by (symmetry; apply Qle_bool_iff, Qle_refl).
    rewrite filter_length_none; simpl; try lia.
    intros x Hx. apply lt_false. now apply Hall.
  - assert (Hk' : k < length s) by lia.
    specialize (IH k Hk').
    assert (Ha : (a <= nth k s 0)%Q) by (apply Hall, nth_In; lia).
    simpl filter.
    replace (Qle_bool a (nth k s 0%Q)) with true
      by (symmetry; now apply Qle_bool_iff).
    destruct (Py.lt a (nth k s 0%Q)); simpl; lia.
Qed.

Lemma sort_has_rank l k :
  k < length l -> has_rank k (nth k (sort l) 0%Q) l.
Proof.
  intros Hk. apply has_rank_perm with (sort l); [apply sort_perm|].
  apply sorted_has_rank; [apply sort_sorted|]. now rewrite sort_length.
Qed.

Lemma count_lt_app m l l' : count_lt m (l ++ l') = count_lt m l + count_lt m l'.
Proof. unfold count_lt. now rewrite filter_app, length_app. Qed.

Lemma count_le_app m l l' : count_le m (l ++ l') = count_le m l + count_le m l'.
Proof. unfold count_le. now rewrite filter_app, length_app. Qed.

(* ================================================================= *)
(** ** The roots of a partitioned pair are the middle values *)

Lemma values_length heaps :
  length (values heaps) = length (fst heaps) + length (snd heaps).
Proof.
  unfold values, lower_values, higher_values.
  now rewrite length_app, length_map.
Qed.

(** The root of the lower heap has rank [length lower - 1]. *)
Lemma lower_root_rank heaps top :
  partitioned heaps -> heap.MaxHeap.peek (fst heaps) = Some top ->
  has_rank (length (fst heaps) - 1) top (values heaps).
Proof.
  destruct heaps as [lo hi]. intros [Hlo Hhi Hord _] Hp.
  unfold values, lower_values, higher_values in *. cbn [fst snd] in *.
  destruct (MaxHeap_peek_max Hlo Hp) as [Hin Hmax].
  unfold has_rank. rewrite count_lt_app, count_le_app.
  assert (H1 : count_lt top hi = 0).
  { apply filter_length_none. intros b Hb. apply lt_false. auto. }
  assert (H2 : count_lt top (map Qopp lo) < length lo).
  { rewrite <- (length_map Qopp lo).
    apply filter_length_lt with top; auto. apply lt_false, Qle_refl. }
  assert (H3 : count_le top (map Qopp lo) = length lo).
  { rewrite <- (length_map Qopp lo). apply filter_length_all.
    intros a Ha. apply Qle_bool_iff. auto. }
  lia.
Qed.

(** The root of the higher heap has rank [length lower]. *)
Lemma higher_root_rank heaps bot :
  partitioned heaps -> heap.MinHeap.peek (snd heaps) = Some bot ->
  has_rank (length (fst heaps)) bot (values heaps).
Proof.
  destruct heaps as [lo hi]. intros [Hlo Hhi Hord _] Hp.
  unfold values, lower_values, higher_values in *. cbn [fst snd] in *.
  destruct (MinHeap_peek_min Hhi Hp) as [Hin Hmin].
  unfold has_rank. rewrite count_lt_app, count_le_app.
  assert (H1 : count_lt bot hi = 0).
  { apply filter_length_none. intros b Hb. apply lt_false. auto. }
  assert (H2 : count_lt bot (map Qopp lo) <= length lo).
  { rewrite <- (length_map Qopp lo). apply filter_length_le. }
  assert (H3 : count_le bot (map Qopp lo) = length lo).
  { rewrite <- (length_map Qopp lo). apply filter_length_all.
    intros a Ha. apply Qle_bool_iff. auto. }
  assert (H4 : 0 < count_le bot hi).
  { apply filter_length_pos with bot; auto. apply Qle_bool_iff, Qle_refl. }
  lia.
Qed.

Lemma peek_lower_some (lo : heap.MaxHeap.t) :
  0 < length lo -> exists top, heap.MaxHeap.peek lo = Some top.
Proof. destruct lo; simpl; [lia | eauto]. Qed.

Lemma peek_higher_some (hi : heap.MinHeap.t) :
  0 < length hi -> exists bot, heap.MinHeap.peek hi = Some bot.
Proof. destruct hi; simpl; [lia | eauto]. Qed.

Lemma half_odd n : (2 * n + 1) / 2 = n /\ Nat.odd (2 * n + 1) = true.
Proof.
  split.
  - symmetry. apply (Nat.div_unique (2 * n + 1) 2 n 1); lia.
  - rewrite Nat.add_comm, Nat.odd_add_mul_2. reflexivity.
Qed.

Lemma half_even n : (2 * n) / 2 = n /\ Nat.odd (2 * n) = false.
Proof.
  split.
  - symmetry. apply (Nat.div_unique (2 * n) 2 n 0); lia.
  - replace (2 * n) with (0 + 2 * n) by lia.
    rewrite Nat.odd_add_mul_2. reflexivity.
Qed.

(** For a partitioned and balanced pair of heaps that holds the values
    [l], the value that [transaction_heaps_get_median] rounds is the median
    of [l] as the floats give it. *)
Lemma median_value_float_median heaps l :
  partitioned heaps -> balanced heaps -> l <> [] ->
  Permutation (values heaps) l ->
  exists m, median_value heaps = Some m /\ (m == float_median l)%Q.
Proof.
  intros Hp [Hb1 Hb2] Hne Hperm.
  pose proof (Permutation_length Hperm) as Hlen.
  rewrite values_length in Hlen.
  assert (Hpos : 0 < length l) by (destruct l; simpl; [congruence | lia]).
  assert (Hrank : forall k m, has_rank k m (values heaps) -> k < length l ->
                              (m == nth k (sort l) 0)%Q).
  { intros k m Hm Hk. apply has_rank_unique with k l.
    - now apply has_rank_perm with (values heaps).
    - now apply sort_has_rank. }
  pose proof (@lower_root_rank heaps) as Hlow.
  pose proof (@higher_root_rank heaps) as Hhigh.
  destruct heaps as [lo hi]. cbn [fst snd] in *.
  unfold median_value, transaction_handling.bigger_smaller,
    transaction_handling.size, transaction_handling.peek,
    heap.MaxHeap.size, heap.MinHeap.size, float_median.
  cbn [fst snd].
  destruct (Nat.ltb_spec (length hi) (length lo)) as [Hlt|Hge].
  - (* the lower heap has one item more *)
    assert (El : length lo = S (length hi)) by lia.
    replace (length lo =? length hi) with false
      by (symmetry; apply Nat.eqb_neq; lia).
    destruct (@peek_lower_some lo) as [top Ht]; [lia|].
    exists top. split; auto.
    replace (length l) with (2 * length hi + 1) by lia.
    destruct (half_odd (length hi)) as [-> ->].
    apply Hrank; [|lia].
    replace (length hi) with (length lo - 1) by lia. auto.
  - destruct (Nat.eqb_spec (length hi) (length lo)) as [Heq|Hneq].
    + (* equal sizes *)
      destruct (@peek_lower_some lo) as [top Ht]; [lia|].
      destruct (@peek_higher_some hi) as [bot Hbt]; [lia|].
      rewrite Ht, Hbt. eexists; split; [reflexivity|].
      replace (length l) with (2 * length lo) by lia.
      destruct (half_even (length lo)) as [-> ->].
      assert (E : (Py.float_add bot top
                   == Py.float_add (nth (length lo - 1) (sort l) 0)
                                   (nth (length lo) (sort l) 0))%Q).
      { apply Qeq_trans with (Py.float_add top bot);
          [apply float_add_comm|].
        apply float_add_comp; apply Hrank; auto; lia. }
      rewrite (@float_div_comp _ _ 2 E). apply Qeq_refl.
    + (* the higher heap has one item more *)
      destruct (@peek_higher_some hi) as [bot Hbt]; [lia|].
      exists bot. split; auto.
      replace (length l) with (2 * length lo + 1) by lia.
      destruct (half_odd (length lo)) as [-> ->].
      apply Hrank; [auto | lia].
Qed.

(** The median of the floats is the statistical median for an odd count, and
    for an even count when the sum of the two middle values and its half
    are doubles, so that neither is rounded. *)
Lemma float_median_odd l :
  Nat.odd (length l) = true -> float_median l = true_median l.
Proof. intros H. unfold float_median, true_median. now rewrite H. Qed.

Lemma float_median_exact l :
  let a := nth (length l / 2 - 1) (sort l) 0%Q in
  let b := nth (length l / 2) (sort l) 0%Q in
  Py.is_double (a + b) = true -> Py.is_double ((a + b) / 2) = true ->
  (float_median l == true_median l)%Q.
Proof.
  cbv zeta. intros H1 H2. unfold float_median, true_median.
  destruct (Nat.odd (length l)); [apply Qeq_refl|].
  rewrite (@float_div_comp _ _ 2 (@float_add_exact _ _ H1)).
  now apply float_div_exact.
Qed.
(* ================================================================= *)
(** ** Sequences of insertions *)

Lemma rebalanced_not_unbalanced heaps :
  unbalanced heaps = false -> rebalanced heaps = heaps.
Proof.
  unfold unbalanced, rebalanced. intros H.
  apply orb_false_iff in H. destruct H as [-> ->]. reflexivity.
Qed.

Lemma tracker_or_new_set id heaps self :
  tracker_or_new id (set_tracker id heaps self) = heaps.
Proof. unfold tracker_or_new. now rewrite tracker_set_tracker_eq. Qed.

(** One insertion followed by one rebalancing, as one step on the state. *)
Lemma insert_step v id x self :
  bind (transaction_heaps_add_number v id x)
       (fun _ => transaction_heaps_rebalance id) self
  = Return tt (set_tracker id (rebalanced (added x (tracker_or_new id self)))
                           self).
Proof.
  unfold bind. rewrite add_number_run.
  set (A := added x (tracker_or_new id self)).
  rewrite (@rebalance_run id _ A) by apply tracker_set_tracker_eq.
  destruct (unbalanced A) eqn:E.
  - now rewrite set_tracker_twice.
  - now rewrite rebalanced_not_unbalanced.
Qed.

Lemma insert_all_cons v id x xs self :
  insert_all v id (x :: xs) self
  = insert_all v id xs
      (set_tracker id (rebalanced (added x (tracker_or_new id self))) self).
Proof.
  unfold insert_all at 1. simpl for_each.
  unfold bind at 1. now rewrite insert_step.
Qed.

Lemma holds_new id self : tracker id self = None -> holds id self [].
Proof.
  intros H. unfold holds, tracker_or_new. rewrite H.
  split; [|split; [|split]]; auto using partitioned_new.
  - split; simpl; lia.
  - congruence.
Qed.

Lemma holds_step id self l x :
  holds id self l ->
  holds id (set_tracker id (rebalanced (added x (tracker_or_new id self))) self)
        (x :: l).
Proof.
  intros (Hp & Hb & Hv & _). unfold holds.
  rewrite tracker_or_new_set, tracker_set_tracker_eq.
  destruct (added_partitioned x Hp) as [Hp1 Hv1].
  destruct (rebalanced_partitioned Hp1) as [Hp2 Hv2].
  split; [|split; [|split]]; auto.
  - now apply rebalanced_added_balanced.
  - now rewrite Hv2, Hv1, Hv.
Qed.

(** Inserting a sequence always returns, and the heaps of the key hold the
    values inserted. *)
Lemma insert_all_holds v id xs : forall self l,
  holds id self l ->
  exists self', insert_all v id xs self = Return tt self'
                /\ holds id self' (rev xs ++ l).
Proof.
  induction xs as [|x xs IH]; intros self l H.
  - exists self. auto.
  - rewrite insert_all_cons.
    destruct (IH _ _ (@holds_step id self l x H)) as (self' & E & H').
    exists self'. split; auto.
    simpl rev. now rewrite <- app_assoc.
Qed.

Lemma insert_all_from_new v id xs self :
  tracker id self = None ->
  exists self', insert_all v id xs self = Return tt self'
                /\ holds id self' xs.
Proof.
  intros H.
  destruct (insert_all_holds v xs (@holds_new id self H)) as (self' & E & Hh).
  exists self'. split; auto.
  destruct Hh as (Hp & Hb & Hv & Ht).
  rewrite app_nil_r in *.
  split; [|split; [|split]]; auto.
  - now rewrite Hv, <- Permutation_rev.
  - intros Hne. apply Ht. intros E'.
    apply (f_equal (@rev Q)) in E'. rewrite rev_involutive in E'. auto.
Qed.
(* ================================================================= *)
(** ** The median of the values inserted *)

(** C1, as amended.  After the values of any non-empty finite sequence have
    been inserted one at a time for a key not seen before, each insertion
    followed by one [transaction_heaps_rebalance], the insertions have all
    returned and [transaction_heaps_get_median] returns, not the median
    itself, but the median rounded to an integer by [int(round(.))], where
    the median is the one the floats give: the middle value for an odd
    count, and for an even count the sum of the two middle values, rounded
    to a double, halved and rounded to a double again.  This is the
    statistical median for an odd count, and for an even count when the sum
    and its half are doubles.  The sum of the two middle values is taken to
    stay in the range of the doubles. *)
Theorem get_median_rounds_true_median
        (v : Py.version) (id : string) (xs : list Q) (self : TransactionThread) :
  tracker id self = None -> xs <> [] -> median_finite xs = true ->
  exists self',
    insert_all v id xs self = Return tt self'
    /\ transaction_heaps_get_median v id self'
       = Return (Some (Py.int (Py.round v (float_median xs)))) self'
    /\ (Nat.odd (length xs) = true -> float_median xs = true_median xs)
    /\ (let a := nth (length xs / 2 - 1) (sort xs) 0%Q in
        let b := nth (length xs / 2) (sort xs) 0%Q in
        Py.is_double (a + b) = true -> Py.is_double ((a + b) / 2) = true ->
        (float_median xs == true_median xs)%Q).
Proof.
  intros Hnew Hne _.
  destruct (@insert_all_from_new v id xs self Hnew) as (self' & E & Hp & Hb & Hv & Ht).
  exists self'. split; auto. split; [|split].
  - rewrite (@get_median_run v id self' _ (Ht Hne)).
    destruct (median_value_float_median Hp Hb Hne Hv) as (m & -> & Hm).
    now rewrite (@round_comp v _ _ Hm).
  - apply float_median_odd.
  - apply float_median_exact.
Qed.

Lemma get_median_rounds_true_median_witness :
  exists self',
    insert_all Py.Py3 "C00177436|30004" [5; 2; 8; 3]%Q init = Return tt self'
    /\ transaction_heaps_get_median Py.Py3 "C00177436|30004" self'
       = Return (Some (Py.int (Py.round Py.Py3 (float_median [5; 2; 8; 3]%Q))))
                self'
    /\ (Nat.odd (length [5; 2; 8; 3]%Q) = true ->
        float_median [5; 2; 8; 3]%Q = true_median [5; 2; 8; 3]%Q)
    /\ (let a := nth (length [5; 2; 8; 3]%Q / 2 - 1) (sort [5; 2; 8; 3]%Q) 0%Q in
        let b := nth (length [5; 2; 8; 3]%Q / 2) (sort [5; 2; 8; 3]%Q) 0%Q in
        Py.is_double (a + b) = true -> Py.is_double ((a + b) / 2) = true ->
        (float_median [5; 2; 8; 3]%Q == true_median [5; 2; 8; 3]%Q)%Q).
Proof.
  apply (@get_median_rounds_true_median Py.Py3 "C00177436|30004"
           [5; 2; 8; 3]%Q init).
  - reflexivity.
  - discriminate.
  - vm_compute. reflexivity.
Defined.

(** C1, as stated, fails: after 1 and 2 have been inserted the median is
    3/2 and [transaction_heaps_get_median] returns 2. *)
Lemma get_median_not_true_median :
  let self := state_of (insert_all Py.Py3 "C00177436|30004" [1; 2]%Q init) in
  insert_all Py.Py3 "C00177436|30004" [1; 2]%Q init = Return tt self
  /\ transaction_heaps_get_median Py.Py3 "C00177436|30004" self
     = Return (Some 2%Z) self
  /\ (true_median [1; 2] == 3 # 2)%Q
  /\ ~ (inject_Z 2 == true_median [1; 2])%Q.
Proof.
  cbv zeta. split; [|split; [|split]].
  - vm_compute. reflexivity.
  - vm_compute. reflexivity.
  - vm_compute. reflexivity.
  - vm_compute. discriminate.
Qed.

(* ================================================================= *)
(** ** The integer median for equal sizes *)

(** C2, as amended.  When the two heaps of a key have the same size, not
    zero, [transaction_heaps_get_median] returns an integer nearest to the
    average of the two roots as the floats give it, [(b + a) / 2.0]: the
    sum rounded to a double, halved and rounded to a double again, which is
    the exact average when the sum and its half are doubles.  A tie (an
    average of [k + 1/2]) goes the way the [round] of the running Python
    goes: away from zero under Python 2 and to the even integer under
    Python 3.  The sum of the two roots is taken to stay in the range of
    the doubles. *)
Theorem equal_sizes_median_rounding
        (v : Py.version) (id : string) (self : TransactionThread)
        (heaps : heap.MaxHeap.t * heap.MinHeap.t) :
  tracker id self = Some heaps ->
  size lower_heap heaps = size higher_heap heaps ->
  0 < size lower_heap heaps ->
  exists a b z,
    peek lower_heap heaps = Some a
    /\ peek higher_heap heaps = Some b
    /\ (Py.finite (Py.float_add b a) = true ->
        transaction_heaps_get_median v id self = Return (Some z) self)
    /\ nearest_integer z (Py.float_div (Py.float_add b a) 2)
    /\ (forall k : Z,
          (Py.float_div (Py.float_add b a) 2 == inject_Z k + (1 # 2))%Q ->
          z = match v with
              | Py.Py2 => if (0 <=? k)%Z then (k + 1)%Z else k
              | Py.Py3 => if Z.even k then k else (k + 1)%Z
              end)
    /\ (Py.is_double (b + a) = true -> Py.is_double ((b + a) / 2) = true ->
        (Py.float_div (Py.float_add b a) 2 == (a + b) / 2)%Q).
Proof.
  intros Ht Heq Hpos. destruct heaps as [lo hi].
  unfold size, heap.MaxHeap.size, heap.MinHeap.size in *. cbn [fst snd] in *.
  destruct (@peek_lower_some lo Hpos) as [a Ha].
  destruct (@peek_higher_some hi) as [b Hb]; [lia|].
  exists a, b, (Py.int (Py.round v (Py.float_div (Py.float_add b a) 2))).
  split; [exact Ha|]. split; [exact Hb|].
  split; [|split; [|split]].
  - intros _. rewrite (@get_median_run v id self _ Ht).
    unfold median_value, bigger_smaller, size, peek,
      heap.MaxHeap.size, heap.MinHeap.size. cbn [fst snd].
    replace (length hi <? length lo) with false
      by (symmetry; apply Nat.ltb_ge; lia).
    replace (length hi =? length lo) with true
      by (symmetry; apply Nat.eqb_eq; lia).
    now rewrite Ha, Hb.
  - destruct v; simpl Py.round; rewrite int_inject_Z.
    + apply round_half_away_nearest.
    + apply round_half_even_nearest.
  - intros k Hk. destruct v; simpl Py.round; rewrite int_inject_Z.
    + now apply round_half_away_tie.
    + now apply round_half_even_tie.
  - intros H1 H2.
    rewrite (@float_div_comp _ _ 2 (@float_add_exact _ _ H1)).
    rewrite (@float_div_exact _ _ H2). now rewrite Qplus_comm.
Qed.

Lemma equal_sizes_median_rounding_witness :
  exists a b z,
    peek lower_heap ([(- (5 # 1))%Q], [8%Q]) = Some a
    /\ peek higher_heap ([(- (5 # 1))%Q], [8%Q]) = Some b
    /\ (Py.finite (Py.float_add b a) = true ->
        transaction_heaps_get_median Py.Py2 "C00177436|30004"
          (set_tracker "C00177436|30004" ([(- (5 # 1))%Q], [8%Q]) init)
        = Return (Some z)
                 (set_tracker "C00177436|30004" ([(- (5 # 1))%Q], [8%Q]) init))
    /\ nearest_integer z (Py.float_div (Py.float_add b a) 2)
    /\ (forall k : Z,
          (Py.float_div (Py.float_add b a) 2 == inject_Z k + (1 # 2))%Q ->
          z = if (0 <=? k)%Z then (k + 1)%Z else k)
    /\ (Py.is_double (b + a) = true -> Py.is_double ((b + a) / 2) = true ->
        (Py.float_div (Py.float_add b a) 2 == (a + b) / 2)%Q).
Proof.
  apply (@equal_sizes_median_rounding Py.Py2 "C00177436|30004"
           (set_tracker "C00177436|30004" ([(- (5 # 1))%Q], [8%Q]) init)
           ([(- (5 # 1))%Q], [8%Q])).
  - reflexivity.
  - reflexivity.
  - simpl. lia.
Defined.

(** The average of the floats is not the exact average: with the roots 2
    and 2^54 the sum is rounded to 2^54 and the median returned is 2^53,
    while the exact average is 2^53 + 1; with the doubles nearest to 0.1 and
    0.9 the sum is rounded to 1 and Python 3 rounds its half to 0, while the
    exact average is above 1/2. *)
Example equal_sizes_median_of_doubles :
  transaction_heaps_get_median Py.Py3 "C00177436|30004"
    (state_of (insert_all Py.Py3 "C00177436|30004"
                 [2; inject_Z (2 ^ 54)]%Q init))
  = Return (Some (2 ^ 53)%Z)
           (state_of (insert_all Py.Py3 "C00177436|30004"
                        [2; inject_Z (2 ^ 54)]%Q init))
  /\ ((2 + inject_Z (2 ^ 54)) / 2 == inject_Z (2 ^ 53 + 1))%Q
  /\ Py.is_double (Py.to_double (1 # 10)) = true
  /\ Py.is_double (Py.to_double (9 # 10)) = true
  /\ transaction_heaps_get_median Py.Py3 "C00177436|30004"
       (state_of (insert_all Py.Py3 "C00177436|30004"
                    [Py.to_double (1 # 10); Py.to_double (9 # 10)] init))
     = Return (Some 0%Z)
              (state_of (insert_all Py.Py3 "C00177436|30004"
                           [Py.to_double (1 # 10); Py.to_double (9 # 10)]
                           init))
  /\ (1 # 2 < (Py.to_double (1 # 10) + Py.to_double (9 # 10)) / 2)%Q.
Proof.
  repeat split; vm_compute; reflexivity.
Qed.

(** C2, as stated, fails under Python 3: with the roots 2 and 3 the average
    is 5/2, rounding a tie away from zero gives 3, and
    [transaction_heaps_get_median] returns 2. *)
Lemma equal_sizes_tie_not_away_from_zero :
  let self := state_of (insert_all Py.Py3 "C00177436|30004" [2; 3]%Q init) in
  exists heaps,
    tracker "C00177436|30004" self = Some heaps
    /\ size lower_heap heaps = 1 /\ size higher_heap heaps = 1
    /\ peek lower_heap heaps = Some 2%Q
    /\ peek higher_heap heaps = Some 3%Q
    /\ ((2 + 3) / 2 == 5 # 2)%Q
    /\ Py.round_half_away ((2 + 3) / 2)%Q = 3%Z
    /\ transaction_heaps_get_median Py.Py3 "C00177436|30004" self
       = Return (Some 2%Z) self.
Proof.
  cbv zeta. eexists. split; [vm_compute; reflexivity|].
  repeat split; vm_compute; reflexivity.
Qed.

(* ================================================================= *)
(** ** Balance *)

(** C5.  For a key not seen before and any sequence of values, each
    inserted with [transaction_heaps_add_number] and followed by one
    [transaction_heaps_rebalance], all calls return and the sizes of the
    lower and the higher heap differ by one at most.  Whatever the heaps of
    a key are, a call of [transaction_heaps_rebalance] returns, and either
    changes nothing or moves exactly one item from one heap to the other
    (keeping the values of a partitioned pair); it changes nothing when
    the sizes are equal. *)
Theorem balance_invariant
        (v : Py.version) (id : string) (xs : list Q) (self : TransactionThread) :
  tracker id self = None ->
  (exists self',
     insert_all v id xs self = Return tt self'
     /\ size lower_heap (tracker_or_new id self')
        <= size higher_heap (tracker_or_new id self') + 1
     /\ size higher_heap (tracker_or_new id self')
        <= size lower_heap (tracker_or_new id self') + 1)
  /\ forall (state : TransactionThread) heaps,
       tracker id state = Some heaps ->
       (transaction_heaps_rebalance id state = Return tt state
        \/ exists heaps',
             transaction_heaps_rebalance id state
             = Return tt (set_tracker id heaps' state)
             /\ ((S (size lower_heap heaps') = size lower_heap heaps
                  /\ size higher_heap heaps' = S (size higher_heap heaps))
                 \/ (size lower_heap heaps' = S (size lower_heap heaps)
                     /\ S (size higher_heap heaps') = size higher_heap heaps))
             /\ (partitioned heaps ->
                 Permutation (values heaps') (values heaps)))
       /\ (size lower_heap heaps = size higher_heap heaps ->
           transaction_heaps_rebalance id state = Return tt state).
Proof.
  intros Hnew. split.
  - destruct (@insert_all_from_new v id xs self Hnew)
      as (self' & E & Hp & [Hb1 Hb2] & _).
    exists self'. auto.
  - intros state heaps Ht.
    rewrite (@rebalance_run id state heaps Ht).
    pose proof (rebalanced_length heaps) as Hl. cbv zeta in Hl.
    unfold size, heap.MaxHeap.size, heap.MinHeap.size.
    destruct (unbalanced heaps) eqn:Hu.
    + split.
      * right. exists (rebalanced heaps). split; [reflexivity|].
        split; [|intros Hp; now apply rebalanced_partitioned].
        unfold unbalanced in Hu. apply orb_true_iff in Hu.
        rewrite !Nat.leb_le in Hu.
        destruct heaps as [lo hi]. destruct (rebalanced (lo, hi)) as [lo' hi'].
        cbn [fst snd] in *.
        destruct Hl as [Hl|[Hl|Hl]]; [left|right|]; lia.
      * intros Heq. unfold unbalanced in Hu. apply orb_true_iff in Hu.
        rewrite !Nat.leb_le in Hu. destruct heaps as [lo hi].
        cbn [fst snd] in *. lia.
    + split; auto.
Qed.

Lemma balance_invariant_witness :
  (exists self',
     insert_all Py.Py3 "C00177436|30004" [5; 2; 8; 1]%Q init = Return tt self'
     /\ size lower_heap (tracker_or_new "C00177436|30004" self')
        <= size higher_heap (tracker_or_new "C00177436|30004" self') + 1
     /\ size higher_heap (tracker_or_new "C00177436|30004" self')
        <= size lower_heap (tracker_or_new "C00177436|30004" self') + 1)
  /\ forall (state : TransactionThread) heaps,
       tracker "C00177436|30004" state = Some heaps ->
       (transaction_heaps_rebalance "C00177436|30004" state = Return tt state
        \/ exists heaps',
             transaction_heaps_rebalance "C00177436|30004" state
             = Return tt (set_tracker "C00177436|30004" heaps' state)
             /\ ((S (size lower_heap heaps') = size lower_heap heaps
                  /\ size higher_heap heaps' = S (size higher_heap heaps))
                 \/ (size lower_heap heaps' = S (size lower_heap heaps)
                     /\ S (size higher_heap heaps') = size higher_heap heaps))
             /\ (partitioned heaps ->
                 Permutation (values heaps') (values heaps)))
       /\ (size lower_heap heaps = size higher_heap heaps ->
           transaction_heaps_rebalance "C00177436|30004" state
           = Return tt state).
Proof.
  apply (@balance_invariant Py.Py3 "C00177436|30004" [5; 2; 8; 1]%Q init).
  reflexivity.
Defined.

(* ================================================================= *)
(** ** Conservation of the values *)

Lemma tracker_size_values id self :
  tracker_size id self = length (values (tracker_or_new id self)).
Proof.
  unfold tracker_size, tracker_or_new.
  destruct (tracker id self) as [heaps|]; [|reflexivity].
  now rewrite values_length.
Qed.

Lemma perform_keeps v id c self l :
  partitioned (tracker_or_new id self) ->
  Permutation (values (tracker_or_new id self)) l ->
  partitioned (tracker_or_new id (state_of (perform v id c self)))
  /\ Permutation (values (tracker_or_new id (state_of (perform v id c self))))
                 (inserted [c] ++ l).
Proof.
  intros Hp Hv. destruct c as [x|]; simpl perform; simpl inserted.
  - rewrite add_number_run. simpl state_of. rewrite tracker_or_new_set.
    destruct (added_partitioned x Hp) as [Hp1 Hv1]. split; auto.
    rewrite Hv1. simpl. now apply perm_skip.
  - destruct (tracker id self) as [heaps|] eqn:Ht.
    + rewrite (@rebalance_run id self heaps Ht). simpl state_of.
      assert (E : tracker_or_new id self = heaps)
        by (unfold tracker_or_new; now rewrite Ht).
      rewrite E in *.
      destruct (unbalanced heaps).
      * rewrite tracker_or_new_set.
        destruct (rebalanced_partitioned Hp) as [Hp1 Hv1]. split; auto.
        simpl. now rewrite Hv1.
      * rewrite E. auto.
    + rewrite (@rebalance_missing id self Ht). simpl state_of. auto.
Qed.

Lemma perform_all_keeps v id calls : forall self l,
  partitioned (tracker_or_new id self) ->
  Permutation (values (tracker_or_new id self)) l ->
  partitioned (tracker_or_new id (perform_all v id calls self))
  /\ Permutation (values (tracker_or_new id (perform_all v id calls self)))
                 (inserted calls ++ l).
Proof.
  induction calls as [|c calls IH]; intros self l Hp Hv; simpl; auto.
  destruct (@perform_keeps v id c self l Hp Hv) as [Hp1 Hv1].
  destruct (IH _ _ Hp1 Hv1) as [Hp2 Hv2]. split; auto.
  rewrite Hv2. destruct c; simpl; auto.
  symmetry. apply Permutation_middle.
Qed.

(** C6.  After any sequence of calls of [transaction_heaps_add_number] and
    [transaction_heaps_rebalance] for a key not seen before, in any order,
    the sizes of the two heaps of the key add up to the number of values
    inserted, and the two heaps hold exactly the values inserted. *)
Theorem size_conservation
        (v : Py.version) (id : string) (calls : list call)
        (self : TransactionThread) :
  tracker id self = None ->
  tracker_size id (perform_all v id calls self) = length (inserted calls)
  /\ Permutation (values (tracker_or_new id (perform_all v id calls self)))
                 (inserted calls).
Proof.
  intros Hnew.
  assert (E : tracker_or_new id self = (heap.MaxHeap.init, heap.MinHeap.init))
    by (unfold tracker_or_new; now rewrite Hnew).
  destruct (@perform_all_keeps v id calls self []) as [Hp Hv].
  - rewrite E. apply partitioned_new.
  - rewrite E. reflexivity.
  - rewrite app_nil_r in Hv. split; auto.
    rewrite tracker_size_values. now apply Permutation_length.
Qed.

Lemma size_conservation_witness :
  tracker_size "C00177436|30004"
    (perform_all Py.Py3 "C00177436|30004"
       [rebalance; add_number 5; add_number 2; add_number 1; rebalance;
        rebalance; add_number 8]%Q init)
  = length (inserted [rebalance; add_number 5; add_number 2; add_number 1;
                      rebalance; rebalance; add_number 8]%Q)
  /\ Permutation
       (values (tracker_or_new "C00177436|30004"
          (perform_all Py.Py3 "C00177436|30004"
             [rebalance; add_number 5; add_number 2; add_number 1; rebalance;
              rebalance; add_number 8]%Q init)))
       (inserted [rebalance; add_number 5; add_number 2; add_number 1;
                  rebalance; rebalance; add_number 8]%Q).
Proof.
  apply (@size_conservation Py.Py3 "C00177436|30004"
           [rebalance; add_number 5; add_number 2; add_number 1; rebalance;
            rebalance; add_number 8]%Q init).
  reflexivity.
Defined.

(* ================================================================= *)
(** ** A key without heaps *)

(** C7.  For a key that was never inserted into, the calls of
    [transaction_heaps_rebalance] and of [transaction_heaps_get_median]
    raise [KeyError], which the handler of [IndexError] does not catch: the
    exception leaves the call, nothing is printed or changed, and no number
    is returned. *)
Theorem missing_key_raises
        (v : Py.version) (id : string) (self : TransactionThread) :
  tracker id self = None ->
  transaction_heaps_rebalance id self = Throw Py.KeyError self
  /\ transaction_heaps_get_median v id self = Throw Py.KeyError self.
Proof.
  intros H. split.
  - now apply rebalance_missing.
  - now apply get_median_missing.
Qed.

Lemma missing_key_raises_witness :
  transaction_heaps_rebalance "C00177436|30004" init
  = Throw Py.KeyError init
  /\ transaction_heaps_get_median Py.Py2 "C00177436|30004" init
     = Throw Py.KeyError init.
Proof.
  apply (@missing_key_raises Py.Py2 "C00177436|30004" init).
  reflexivity.
Defined.

(* ================================================================= *)
(** ** Empty heaps *)

(** C10.  On an empty heap of either class, [pop] returns [None] and leaves
    the heap as it is, and [peek] returns [None]; neither raises.  For a
    key whose two heaps are both empty, the roots that
    [transaction_heaps_get_median] reads are [None], and the call raises the
    [TypeError] of adding them, not an [IndexError]. *)
Theorem empty_heap_returns_None
        (v : Py.version) (id : string) (self : TransactionThread)
        (lower : heap.MaxHeap.t) (higher : heap.MinHeap.t) :
  heap.MaxHeap.size lower = 0 -> heap.MinHeap.size higher = 0 ->
  tracker id self = Some (lower, higher) ->
  heap.MinHeap.pop higher = Py.Ok (None, higher)
  /\ heap.MinHeap.peek higher = None
  /\ heap.MaxHeap.pop lower = Py.Ok (None, lower)
  /\ heap.MaxHeap.peek lower = None
  /\ peek lower_heap (lower, higher) = None
  /\ peek higher_heap (lower, higher) = None
  /\ transaction_heaps_get_median v id self = Throw Py.TypeError self.
Proof.
  intros Hl Hh Ht.
  destruct lower; [|discriminate]. destruct higher; [|discriminate].
  repeat split.
  now rewrite (@get_median_run v id self _ Ht).
Qed.

Lemma empty_heap_returns_None_witness :
  heap.MinHeap.pop heap.MinHeap.init = Py.Ok (None, heap.MinHeap.init)
  /\ heap.MinHeap.peek heap.MinHeap.init = None
  /\ heap.MaxHeap.pop heap.MaxHeap.init = Py.Ok (None, heap.MaxHeap.init)
  /\ heap.MaxHeap.peek heap.MaxHeap.init = None
  /\ peek lower_heap (heap.MaxHeap.init, heap.MinHeap.init) = None
  /\ peek higher_heap (heap.MaxHeap.init, heap.MinHeap.init) = None
  /\ transaction_heaps_get_median Py.Py3 "C00177436|30004"
       (set_tracker "C00177436|30004"
          (heap.MaxHeap.init, heap.MinHeap.init) init)
     = Throw Py.TypeError
         (set_tracker "C00177436|30004"
            (heap.MaxHeap.init, heap.MinHeap.init) init).
Proof.
  apply (@empty_heap_returns_None Py.Py3 "C00177436|30004"
           (set_tracker "C00177436|30004"
              (heap.MaxHeap.init, heap.MinHeap.init) init)
           heap.MaxHeap.init heap.MinHeap.init); reflexivity.
Defined.
(* ================================================================= *)
(** ** The two handlers *)

Lemma running_sum_set_total_eq id total self :
  running_sum id (set_total id total self) = Some total.
Proof. apply dict_get_set_eq. Qed.

Lemma running_sum_set_total_neq id id' total self :
  id <> id' -> running_sum id' (set_total id total self) = running_sum id' self.
Proof. apply dict_get_set_neq. Qed.

Lemma set_total_twice id total total' self :
  set_total id total' (set_total id total self) = set_total id total' self.
Proof.
  unfold set_total, total_amt_set. simpl. now rewrite dict_set_twice.
Qed.

Lemma running_sum_set_tracker id heaps k self :
  running_sum k (set_tracker id heaps self) = running_sum k self.
Proof. reflexivity. Qed.

(** The first statements of both handlers for a record: the running sum,
    the insertion and the rebalancing. *)
Lemma store_run v id amount self :
  bind (total_amt_mem id) (fun present =>
  bind (if negb present then total_amt_set id 0%Q else ret tt) (fun _ =>
  bind (total_amt_get id) (fun total =>
  bind (total_amt_set id (Py.float_add total amount)) (fun _ =>
  bind (transaction_heaps_add_number v id amount) (fun _ =>
  transaction_heaps_rebalance id))))) self
  = Return tt (recorded id amount self).
Proof.
  unfold recorded, running_sum_or_zero.
  unfold bind at 1. unfold total_amt_mem. rewrite dict_mem_get.
  fold (running_sum id self).
  destruct (running_sum id self) as [t|] eqn:E; simpl negb; cbv iota.
  - unfold bind at 1. unfold ret at 1.
    unfold bind at 1. unfold total_amt_get. fold (running_sum id self).
    rewrite E. unfold bind at 1.
    change (total_amt_set id (Py.float_add t amount) self)
      with (Return tt (set_total id (Py.float_add t amount) self)).
    cbv iota. rewrite insert_step. reflexivity.
  - unfold bind at 1.
    change (total_amt_set id 0%Q self)
      with (Return tt (set_total id 0%Q self)).
    cbv iota. unfold bind at 1. unfold total_amt_get.
    fold (running_sum id (set_total id 0%Q self)).
    rewrite running_sum_set_total_eq. unfold bind at 1.
    change (total_amt_set id (Py.float_add 0 amount) (set_total id 0%Q self))
      with (Return tt (set_total id (Py.float_add 0 amount) (set_total id 0%Q self))).
    cbv iota. rewrite insert_step, set_total_twice. reflexivity.
Qed.

(** [TransactionByDateThread.handler] on a record. *)
Lemma date_handler_record v data self :
  Py.truthy (cmte_id data) = true ->
  date_handler v data self
  = Return tt (recorded (make_identifier (cmte_id data) (transaction_dt data))
                        (transaction_amt data) self).
Proof.
  intros H. unfold date_handler. rewrite H. simpl negb. cbv iota zeta.
  apply store_run.
Qed.

Lemma rebalance_after_set id heaps self :
  transaction_heaps_rebalance id (set_tracker id heaps self)
  = Return tt (set_tracker id (rebalanced heaps) self).
Proof.
  rewrite (@rebalance_run id _ heaps) by apply tracker_set_tracker_eq.
  destruct (unbalanced heaps) eqn:E.
  - now rewrite set_tracker_twice.
  - now rewrite rebalanced_not_unbalanced.
Qed.

(** The same statements when more statements follow. *)
Lemma store_then_run {B} v id amount (rest : M B) self :
  bind (total_amt_mem id) (fun present =>
  bind (if negb present then total_amt_set id 0%Q else ret tt) (fun _ =>
  bind (total_amt_get id) (fun total =>
  bind (total_amt_set id (Py.float_add total amount)) (fun _ =>
  bind (transaction_heaps_add_number v id amount) (fun _ =>
  bind (transaction_heaps_rebalance id) (fun _ => rest)))))) self
  = rest (recorded id amount self).
Proof.
  unfold recorded, running_sum_or_zero.
  unfold bind at 1. unfold total_amt_mem. rewrite dict_mem_get.
  fold (running_sum id self).
  destruct (running_sum id self) as [t|] eqn:E; simpl negb; cbv iota.
  - unfold bind at 1. unfold ret at 1.
    unfold bind at 1. unfold total_amt_get. fold (running_sum id self).
    rewrite E. unfold bind at 1.
    change (total_amt_set id (Py.float_add t amount) self)
      with (Return tt (set_total id (Py.float_add t amount) self)).
    cbv iota. unfold bind at 1. rewrite add_number_run.
    unfold bind. now rewrite rebalance_after_set.
  - unfold bind at 1.
    change (total_amt_set id 0%Q self)
      with (Return tt (set_total id 0%Q self)).
    cbv iota. unfold bind at 1. unfold total_amt_get.
    fold (running_sum id (set_total id 0%Q self)).
    rewrite running_sum_set_total_eq. unfold bind at 1.
    change (total_amt_set id (Py.float_add 0 amount) (set_total id 0%Q self))
      with (Return tt (set_total id (Py.float_add 0 amount) (set_total id 0%Q self))).
    cbv iota. unfold bind at 1. rewrite add_number_run.
    unfold bind. rewrite rebalance_after_set, set_total_twice. reflexivity.
Qed.

Lemma recorded_tracker id amount self :
  tracker id (recorded id amount self)
  = Some (rebalanced (added amount (tracker_or_new id self))).
Proof. apply tracker_set_tracker_eq. Qed.

Lemma recorded_running_sum id amount self :
  running_sum id (recorded id amount self)
  = Some (Py.float_add (running_sum_or_zero id self) amount).
Proof.
  unfold recorded. rewrite running_sum_set_tracker.
  apply running_sum_set_total_eq.
Qed.

Lemma recorded_running_sum_other id id' amount self :
  id <> id' ->
  running_sum id' (recorded id amount self) = running_sum id' self.
Proof.
  intros H. unfold recorded. rewrite running_sum_set_tracker.
  now apply running_sum_set_total_neq.
Qed.

Lemma recorded_output id amount self :
  output_file (recorded id amount self) = output_file self.
Proof. reflexivity. Qed.

(** A pair of heaps that holds a value always has a median value. *)
Lemma median_value_some heaps :
  0 < length (fst heaps) + length (snd heaps) ->
  exists m, median_value heaps = Some m.
Proof.
  destruct heaps as [lo hi]. cbn [fst snd]. intros Hpos.
  unfold median_value, bigger_smaller, size, peek,
    heap.MaxHeap.size, heap.MinHeap.size. cbn [fst snd].
  destruct (Nat.ltb_spec (length hi) (length lo)) as [Hlt|Hge].
  - replace (length lo =? length hi) with false
      by (symmetry; apply Nat.eqb_neq; lia).
    apply peek_lower_some. lia.
  - destruct (Nat.eqb_spec (length hi) (length lo)) as [Heq|Hneq].
    + destruct (@peek_lower_some lo) as [a ->]; [lia|].
      destruct (@peek_higher_some hi) as [b ->]; [lia|]. eauto.
    + apply peek_higher_some. lia.
Qed.

Lemma recorded_size id amount self :
  tracker_size id (recorded id amount self) = S (tracker_size id self).
Proof.
  rewrite !tracker_size_values, !values_length.
  unfold tracker_or_new at 1 2. rewrite recorded_tracker.
  pose proof (added_length amount (tracker_or_new id self)) as Ha.
  pose proof (rebalanced_length (added amount (tracker_or_new id self))) as Hr.
  cbv zeta in Hr.
  destruct (tracker_or_new id self) as [lo hi].
  destruct (added amount (lo, hi)) as [lo1 hi1].
  destruct (rebalanced (lo1, hi1)) as [lo2 hi2].
  cbn [fst snd] in *.
  destruct Hr as [Hr|[Hr|(Hr1 & Hr2 & Hr3)]]; [lia|lia|].
  injection Hr3 as -> ->. lia.
Qed.

(** [TransactionByZipThread.handler] on a record: it stores the record and
    writes one line, unless the output file has been closed. *)
Lemma zip_handler_record v data self :
  Py.truthy (cmte_id data) = true ->
  let id := make_identifier (cmte_id data) (zipcode data) in
  let self' := recorded id (transaction_amt data) self in
  exists heaps m total line,
    tracker id self' = Some heaps
    /\ median_value heaps = Some m
    /\ running_sum id self' = Some total
    /\ format_line (cmte_id data) (zipcode data)
                   (Some (Py.int (Py.round v m)))
                   (size lower_heap heaps + size higher_heap heaps)
                   (Py.int total) self'
       = Return line self'
    /\ zip_handler v data self = write line self'.
Proof.
  intros H id self'.
  pose proof (recorded_tracker id (transaction_amt data) self) as Ht.
  fold self' in Ht.
  set (heaps := rebalanced _) in Ht.
  destruct (@median_value_some heaps) as [m Hm].
  { pose proof (recorded_size id (transaction_amt data) self) as Hs.
    fold self' in Hs. unfold tracker_size at 1 in Hs. rewrite Ht in Hs.
    unfold size, heap.MaxHeap.size, heap.MinHeap.size in Hs.
    destruct heaps as [lo hi]. cbn [fst snd] in *. lia. }
  pose proof (recorded_running_sum id (transaction_amt data) self) as Hr.
  fold self' in Hr.
  do 4 eexists. split; [exact Ht|]. split; [exact Hm|]. split; [exact Hr|].
  split; [reflexivity|].
  unfold zip_handler. rewrite H. cbn [negb]. cbv zeta.
  fold id. rewrite store_then_run. fold self'.
  unfold bind at 1. rewrite heaps_get_run, Ht.
  unfold bind at 1. rewrite (@get_median_run v id self' heaps Ht), Hm.
  unfold bind at 1. unfold total_amt_get. fold (running_sum id self').
  rewrite Hr. unfold bind. reflexivity.
Qed.
(* ================================================================= *)
(** ** Fields of a line *)





Lemma split_no_sep sep s : occurs sep s = false -> Py.split sep s = [s].
Proof.
  induction s as [|c s IH]; simpl; auto.
  intros H. apply orb_false_iff in H. destruct H as [H1 H2].
  now rewrite H1, IH.
Qed.

Lemma occurs_app c s1 s2 :
  occurs c (s1 ++ s2) = occurs c s1 || occurs c s2.
Proof.
  induction s1 as [|c1 s1 IH]; simpl; auto.
  now rewrite IH, orb_assoc.
Qed.

Lemma string_of_uint_no_bar (u : Decimal.uint) :
  occurs "|" (NilEmpty.string_of_uint u) = false.
Proof. induction u; simpl; auto. Qed.

Lemma format_d_no_bar z : occurs "|" (Py.format_d z) = false.
Proof.
  unfold Py.format_d, NilZero.string_of_int, NilZero.string_of_uint.
  destruct (Z.to_int z) as [u|u]; simpl.
  - destruct u; auto; apply (string_of_uint_no_bar (_ u)).
  - destruct u; auto; apply (string_of_uint_no_bar (_ u)).
Qed.



(* ================================================================= *)
(** ** The lines of the two reports *)

Lemma for_each_invariant {A} (P : TransactionThread -> Prop)
      (body : A -> M unit) (xs : list A) :
  (forall x s, In x xs -> P s -> P (state_of (body x s))) ->
  forall s, P s -> P (state_of (for_each xs body s)).
Proof.
  induction xs as [|x xs IH]; intros Hbody s Hs; simpl; auto.
  unfold bind.
  pose proof (Hbody x s (or_introl eq_refl) Hs) as Hx.
  destruct (body x s) as [[] s'|e s']; simpl in Hx; auto.
  apply IH; auto. intros y t Hy. apply Hbody. now right.
Qed.

Lemma appended_open line self :
  closed (output_file self) = false ->
  written (output_file (appended line self))
  = written (output_file self) ++ [line]
  /\ closed (output_file (appended line self)) = false
  /\ total_amt_dict (appended line self) = total_amt_dict self
  /\ transaction_amt_heaps (appended line self) = transaction_amt_heaps self.
Proof.
  intros H. unfold appended, write. rewrite H. simpl. auto.
Qed.

Lemma write_run line self :
  write line self
  = if closed (output_file self) then Throw Py.ValueError self
    else Return tt (appended line self).
Proof.
  unfold appended, write. now destruct (closed (output_file self)).
Qed.

(** One turn of the loop of the date handler at the end of the stream: it
    raises and leaves the state, or writes the line of one key. *)
Lemma date_flush_step v k s :
  let o :=
    bind (heaps_get k) (fun heaps =>
    bind (transaction_heaps_get_median v k) (fun median =>
    bind (total_amt_get k) (fun total =>
    bind (lift (Py.getitem (Py.split "|" k) 0)) (fun cmte_id =>
    bind (lift (Py.getitem (Py.split "|" k) 1)) (fun transaction_dt =>
    bind (format_line cmte_id transaction_dt median
                      (size lower_heap heaps + size higher_heap heaps)
                      (Py.int total)) (fun line =>
    write line)))))) s in
  state_of o = s
  \/ exists a b total line,
       closed (output_file s) = false
       /\ Py.getitem (Py.split "|" k) 0 = Py.Ok a
       /\ Py.getitem (Py.split "|" k) 1 = Py.Ok b
       /\ tracker k s <> None
       /\ running_sum k s = Some total
       /\ reports line a b (Py.int total)
       /\ o = Return tt (appended line s).
Proof.
  intros o. remember o as r eqn:Er. unfold o in Er. clear o.
  unfold bind at 1 in Er. rewrite heaps_get_run in Er.
  destruct (tracker k s) as [heaps|] eqn:Ht; [|subst r; now left].
  unfold bind at 1 in Er. rewrite (@get_median_run v k s heaps Ht) in Er.
  destruct (median_value heaps) as [m|]; [|subst r; now left].
  unfold bind at 1 in Er. unfold total_amt_get in Er.
  fold (running_sum k s) in Er.
  destruct (running_sum k s) as [total|] eqn:Hr; [|subst r; now left].
  unfold bind at 1 in Er.
  destruct (Py.getitem (Py.split "|" k) 0) as [a|e] eqn:Ea;
    [|subst r; now left].
  unfold bind at 1 in Er. simpl lift in Er.
  destruct (Py.getitem (Py.split "|" k) 1) as [b|e] eqn:Eb;
    [|subst r; now left].
  simpl lift in Er. unfold bind, ret, format_line in Er.
  unfold ret in Er. rewrite write_run in Er.
  destruct (closed (output_file s)) eqn:Hc; [subst r; now left|].
  right. do 4 eexists.
  split; [reflexivity|]. split; [reflexivity|]. split; [reflexivity|].
  split; [congruence|]. split; [reflexivity|]. split; [|exact Er].
  do 2 eexists. reflexivity.
Qed.

Lemma zip_handler_sentinel v data self :
  Py.truthy (cmte_id data) = false ->
  zip_handler v data self = close self.
Proof. intros H. unfold zip_handler. now rewrite H. Qed.

Lemma appended_totals line self :
  total_amt_dict (appended line self) = total_amt_dict self.
Proof.
  unfold appended, write. now destruct (closed (output_file self)).
Qed.

(** The lines that the date handler writes at the end of the stream. *)
Lemma date_handler_sentinel v data self :
  Py.truthy (cmte_id data) = false ->
  let self' := state_of (date_handler v data self) in
  total_amt_dict self' = total_amt_dict self
  /\ transaction_amt_heaps self' = transaction_amt_heaps self
  /\ exists lines,
       written (output_file self') = written (output_file self) ++ lines
       /\ forall line, In line lines ->
            exists k a b total,
              tracker k self <> None
              /\ Py.getitem (Py.split "|" k) 0 = Py.Ok a
              /\ Py.getitem (Py.split "|" k) 1 = Py.Ok b
              /\ running_sum k self = Some total
              /\ reports line a b (Py.int total).
Proof.
  intros H. cbv zeta. unfold date_handler. rewrite H. cbn [negb].
  unfold bind at 1. unfold heaps_keys.
  set (P := fun s : TransactionThread =>
    total_amt_dict s = total_amt_dict self
    /\ transaction_amt_heaps s = transaction_amt_heaps self
    /\ exists lines,
         written (output_file s) = written (output_file self) ++ lines
         /\ forall line, In line lines ->
              exists k a b total,
                tracker k self <> None
                /\ Py.getitem (Py.split "|" k) 0 = Py.Ok a
                /\ Py.getitem (Py.split "|" k) 1 = Py.Ok b
                /\ running_sum k self = Some total
                /\ reports line a b (Py.int total)).
  match goal with
  | |- context [state_of ?o] => set (r := state_of o)
  end.
  change (P r). subst r.
  match goal with
  | |- P (state_of (bind (for_each ?ks ?body) _ _)) =>
      pose proof (@for_each_invariant _ P body ks) as Hloop
  end.
  assert (Hself : P self).
  { unfold P. split; auto. split; auto. exists []. rewrite app_nil_r.
    split; auto. intros line []. }
  apply Hloop in Hself.
  - unfold bind. destruct (for_each _ _ self) as [[] s|e s]; exact Hself.
  - intros k s _ (H1 & H2 & lines & H3 & H4).
    destruct (date_flush_step v k s) as [E|(a & b & total & line & Hc & Ea
                                            & Eb & Ht & Hr & Hrep & E)].
    + rewrite E. unfold P. eauto 6.
    + rewrite E. simpl state_of.
      destruct (appended_open line s Hc) as (W1 & W2 & W3 & W4).
      unfold P. rewrite W3, W4. split; auto. split; auto.
      exists (lines ++ [line]). rewrite W1, H3, app_assoc. split; auto.
      intros l Hl. apply in_app_or in Hl. destruct Hl as [Hl|[<-|[]]]; auto.
      exists k, a, b, total.
      unfold tracker, running_sum in *. rewrite <- H1, <- H2. auto.
Qed.

(* ================================================================= *)
(** ** The last field of a line *)



(** The two reports on sample records: the totals 1150.5 and 3.5 are
    written as 1150 and 3. *)
Example zip_report_sample :
  written (output_file (state_of
    (run (zip_handler Py.Py2)
         [sample_record (2301 # 2); sample_record (7 # 2); main.end_data]
         init)))
  = [("C00177436|30004|1151|1|1150" ++ Py.newline)%string;
     ("C00177436|30004|577|2|1154" ++ Py.newline)%string].
Proof. vm_compute. reflexivity. Qed.

Example date_report_sample :
  written (output_file (state_of
    (run (date_handler Py.Py2)
         [sample_record (7 # 2); main.end_data] init)))
  = [("C00177436|01312017|4|1|3" ++ Py.newline)%string].
Proof. vm_compute. reflexivity. Qed.


(* ================================================================= *)
(** ** The running sum *)

Lemma zip_handler_totals v data self :
  Py.truthy (cmte_id data) = true ->
  total_amt_dict (state_of (zip_handler v data self))
  = total_amt_dict
      (recorded (make_identifier (cmte_id data) (zipcode data))
                (transaction_amt data) self).
Proof.
  intros H.
  destruct (zip_handler_record v data self H)
    as (heaps & m & total & line & _ & _ & _ & _ & E).
  rewrite E, write_run.
  destruct (closed _); simpl state_of; auto using appended_totals.
Qed.

(** C4, as amended.  When either handler processes a record, the running
    sum stored for the key of the record becomes the float sum of the sum
    before (zero for a new key) and the amount of the record, which is
    their exact sum rounded to the nearest double, and the sums of the other
    keys stay.  The new sum is the exact sum when that is a double.  The
    sum before and the amount being doubles, the new sum is a double; it
    is not below the sum before when the amount is not negative, and not
    above it when the amount is not positive: a negative amount makes the
    running sum decrease, or leaves it when the amount is too small beside
    the sum to change it.  The sums are taken to stay in the range of the
    doubles. *)
Theorem running_sum_adds_amount
        (v : Py.version) (data : Data) (self : TransactionThread) :
  Py.truthy (cmte_id data) = true ->
  let amount := transaction_amt data in
  let zip_key := make_identifier (cmte_id data) (zipcode data) in
  let date_key := make_identifier (cmte_id data) (transaction_dt data) in
  let by_zip := state_of (zip_handler v data self) in
  let by_date := state_of (date_handler v data self) in
  Py.finite (Py.float_add (running_sum_or_zero zip_key self) amount) = true ->
  Py.finite (Py.float_add (running_sum_or_zero date_key self) amount) = true ->
  running_sum zip_key by_zip
  = Some (Py.float_add (running_sum_or_zero zip_key self) amount)
  /\ running_sum date_key by_date
     = Some (Py.float_add (running_sum_or_zero date_key self) amount)
  /\ (forall k, k <> zip_key -> running_sum k by_zip = running_sum k self)
  /\ (forall k, k <> date_key -> running_sum k by_date = running_sum k self)
  /\ ((Py.is_double (running_sum_or_zero zip_key self + amount) = true ->
       (running_sum_or_zero zip_key by_zip
        == running_sum_or_zero zip_key self + amount)%Q)
      /\ (Py.is_double (running_sum_or_zero date_key self + amount) = true ->
          (running_sum_or_zero date_key by_date
           == running_sum_or_zero date_key self + amount)%Q))
  /\ (Py.is_double amount = true ->
      (Py.is_double (running_sum_or_zero zip_key self) = true ->
       Py.is_double (running_sum_or_zero zip_key by_zip) = true)
      /\ (Py.is_double (running_sum_or_zero date_key self) = true ->
          Py.is_double (running_sum_or_zero date_key by_date) = true))
  /\ ((0 <= amount)%Q ->
      (Py.is_double (running_sum_or_zero zip_key self) = true ->
       (running_sum_or_zero zip_key self
        <= running_sum_or_zero zip_key by_zip)%Q)
      /\ (Py.is_double (running_sum_or_zero date_key self) = true ->
          (running_sum_or_zero date_key self
           <= running_sum_or_zero date_key by_date)%Q))
  /\ ((amount <= 0)%Q ->
      (Py.is_double (running_sum_or_zero zip_key self) = true ->
       (running_sum_or_zero zip_key by_zip
        <= running_sum_or_zero zip_key self)%Q)
      /\ (Py.is_double (running_sum_or_zero date_key self) = true ->
          (running_sum_or_zero date_key by_date
           <= running_sum_or_zero date_key self)%Q)).
Proof.
  intros H. cbv zeta. intros _ _.
  assert (Ez : forall k,
    running_sum k (state_of (zip_handler v data self))
    = running_sum k (recorded (make_identifier (cmte_id data) (zipcode data))
                              (transaction_amt data) self)).
  { intros k. unfold running_sum. now rewrite zip_handler_totals. }
  rewrite (date_handler_record v data self H). simpl state_of.
  set (zip_key := make_identifier (cmte_id data) (zipcode data)) in *.
  set (date_key := make_identifier (cmte_id data) (transaction_dt data)).
  assert (Hz : running_sum_or_zero zip_key
                 (state_of (zip_handler v data self))
               = Py.float_add (running_sum_or_zero zip_key self)
                              (transaction_amt data))
    by (unfold running_sum_or_zero at 1;
        now rewrite Ez, recorded_running_sum).
  assert (Hd : running_sum_or_zero date_key
                 (recorded date_key (transaction_amt data) self)
               = Py.float_add (running_sum_or_zero date_key self)
                              (transaction_amt data))
    by (unfold running_sum_or_zero at 1; now rewrite recorded_running_sum).
  rewrite Hz, Hd, Ez, !recorded_running_sum.
  split; [reflexivity|]. split; [reflexivity|].
  split; [intros k Hk; rewrite Ez; apply recorded_running_sum_other; auto|].
  split; [intros k Hk; apply recorded_running_sum_other; auto|].
  split; [split; apply float_add_exact|].
  split; [intros Ha; split; intros Hs; now apply float_add_is_double|].
  split; intros Ha; split; intros Hs.
  - now apply float_add_ge.
  - now apply float_add_ge.
  - now apply float_add_le.
  - now apply float_add_le.
Qed.

Lemma running_sum_adds_amount_witness :
  let v := Py.Py3 in
  let data := sample_record 384 in
  let self := init in
  let amount := transaction_amt data in
  let zip_key := make_identifier (cmte_id data) (zipcode data) in
  let date_key := make_identifier (cmte_id data) (transaction_dt data) in
  let by_zip := state_of (zip_handler v data self) in
  let by_date := state_of (date_handler v data self) in
  running_sum zip_key by_zip
  = Some (Py.float_add (running_sum_or_zero zip_key self) amount)
  /\ running_sum date_key by_date
     = Some (Py.float_add (running_sum_or_zero date_key self) amount)
  /\ (forall k, k <> zip_key -> running_sum k by_zip = running_sum k self)
  /\ (forall k, k <> date_key -> running_sum k by_date = running_sum k self)
  /\ ((Py.is_double (running_sum_or_zero zip_key self + amount) = true ->
       (running_sum_or_zero zip_key by_zip
        == running_sum_or_zero zip_key self + amount)%Q)
      /\ (Py.is_double (running_sum_or_zero date_key self + amount) = true ->
          (running_sum_or_zero date_key by_date
           == running_sum_or_zero date_key self + amount)%Q))
  /\ (Py.is_double amount = true ->
      (Py.is_double (running_sum_or_zero zip_key self) = true ->
       Py.is_double (running_sum_or_zero zip_key by_zip) = true)
      /\ (Py.is_double (running_sum_or_zero date_key self) = true ->
          Py.is_double (running_sum_or_zero date_key by_date) = true))
  /\ ((0 <= amount)%Q ->
      (Py.is_double (running_sum_or_zero zip_key self) = true ->
       (running_sum_or_zero zip_key self
        <= running_sum_or_zero zip_key by_zip)%Q)
      /\ (Py.is_double (running_sum_or_zero date_key self) = true ->
          (running_sum_or_zero date_key self
           <= running_sum_or_zero date_key by_date)%Q))
  /\ ((amount <= 0)%Q ->
      (Py.is_double (running_sum_or_zero zip_key self) = true ->
       (running_sum_or_zero zip_key by_zip
        <= running_sum_or_zero zip_key self)%Q)
      /\ (Py.is_double (running_sum_or_zero date_key self) = true ->
          (running_sum_or_zero date_key by_date
           <= running_sum_or_zero date_key self)%Q)).
Proof.
  intros v data self.
  apply (@running_sum_adds_amount v data self).
  - reflexivity.
  - vm_compute. reflexivity.
  - vm_compute. reflexivity.
Defined.

(** The sum of the floats is not the exact sum: the doubles nearest to 0.1
    and 0.2 add up to a double above their exact sum, and a record of
    amount -1 after one of 10^17 leaves the running sum at 10^17, under
    either handler. *)
Example running_sum_is_rounded :
  let tenth := Py.to_double (1 # 10) in
  let fifth := Py.to_double (2 # 10) in
  let by_zip1 := state_of (zip_handler Py.Py3 (sample_record tenth) init) in
  let by_zip2 :=
    state_of (zip_handler Py.Py3 (sample_record fifth) by_zip1) in
  let by_zip3 :=
    state_of (zip_handler Py.Py3 (sample_record (inject_Z (10 ^ 17))) init) in
  let by_zip4 :=
    state_of (zip_handler Py.Py3 (sample_record (- (1 # 1))) by_zip3) in
  let by_date3 :=
    state_of (date_handler Py.Py3 (sample_record (inject_Z (10 ^ 17))) init) in
  let by_date4 :=
    state_of (date_handler Py.Py3 (sample_record (- (1 # 1))) by_date3) in
  running_sum sample_zip_key by_zip1 = Some tenth
  /\ running_sum sample_zip_key by_zip2
     = Some (1351079888211149 # 2 ^ 52)%Q
  /\ (tenth + fifth < 1351079888211149 # 2 ^ 52)%Q
  /\ Py.is_double (inject_Z (10 ^ 17)) = true
  /\ running_sum sample_zip_key by_zip3 = Some (inject_Z (10 ^ 17))
  /\ running_sum sample_zip_key by_zip4 = Some (inject_Z (10 ^ 17))
  /\ running_sum sample_date_key by_date3 = Some (inject_Z (10 ^ 17))
  /\ running_sum sample_date_key by_date4 = Some (inject_Z (10 ^ 17)).
Proof.
  cbv zeta. repeat split; vm_compute; reflexivity.
Qed.

(** C4, as stated, fails: after a record of amount 10 and a record of
    amount -5 for the same key, the running sum of the key has gone from 10
    down to 5, under either handler. *)
Lemma running_sum_decreases :
  let by_zip1 := state_of (zip_handler Py.Py3 (sample_record 10) init) in
  let by_zip2 :=
    state_of (zip_handler Py.Py3 (sample_record (- (5 # 1))) by_zip1) in
  let by_date1 := state_of (date_handler Py.Py3 (sample_record 10) init) in
  let by_date2 :=
    state_of (date_handler Py.Py3 (sample_record (- (5 # 1))) by_date1) in
  running_sum sample_zip_key by_zip1 = Some 10%Q
  /\ running_sum sample_zip_key by_zip2 = Some 5%Q
  /\ running_sum sample_date_key by_date1 = Some 10%Q
  /\ running_sum sample_date_key by_date2 = Some 5%Q
  /\ (5 < 10)%Q.
Proof.
  cbv zeta. repeat split; vm_compute; reflexivity.
Qed.
(* ================================================================= *)
(** ** Dates that [strptime] accepts *)

Lemma digit_lt c d : datetime.digit c = Some d -> d < 10.
Proof.
  unfold datetime.digit.
  destruct (Nat.leb_spec 48 (nat_of_ascii c));
    destruct (Nat.leb_spec (nat_of_ascii c) 57); simpl; intros [= <-]; lia.
Qed.

Lemma digits_cons s d ds :
  digits s = Some (d :: ds) ->
  exists c s', s = String c s' /\ datetime.digit c = Some d
               /\ digits s' = Some ds.
Proof.
  destruct s as [|c s']; simpl; [discriminate|].
  destruct (datetime.digit c) as [d'|] eqn:Hd; [|discriminate].
  destruct (digits s') as [ds'|] eqn:Hds; [|discriminate].
  intros [= -> ->]. eauto.
Qed.

Lemma digits_nil s : digits s = Some [] -> s = EmptyString.
Proof.
  destruct s as [|c s']; simpl; auto.
  destruct (datetime.digit c); [|discriminate].
  destruct (digits s'); discriminate.
Qed.

Lemma two_digits first second c1 c2 d1 d2 rest :
  datetime.digit c1 = Some d1 -> datetime.digit c2 = Some d2 ->
  datetime.two first second (String c1 (String c2 rest))
  = if first d1 && second d2 then Some (10 * d1 + d2, rest) else None.
Proof. intros H1 H2. unfold datetime.two. now rewrite H1, H2. Qed.

Lemma between_true lo hi d :
  lo <= d <= hi -> datetime.between lo hi d = true.
Proof.
  intros H. unfold datetime.between.
  apply andb_true_iff. split; apply Nat.leb_le; lia.
Qed.

Lemma between_false lo hi d :
  d < lo \/ hi < d -> datetime.between lo hi d = false.
Proof.
  intros H. unfold datetime.between.
  apply andb_false_iff. rewrite !Nat.leb_gt. lia.
Qed.

Lemma days_in_month_le year month : datetime.days_in_month year month <= 31.
Proof.
  unfold datetime.days_in_month.
  destruct month as [|[|[|[|[|[|[|[|[|[|[|[|[|]]]]]]]]]]]]]; try lia.
  destruct (datetime.is_leap year); lia.
Qed.

(** Every valid MMDDYYYY calendar date is a non-empty string that
    [datetime.strptime] accepts under the format of the program. *)
Lemma strptime_accepts_valid s :
  valid_MMDDYYYY s = true ->
  Py.truthy s = true /\ datetime.strptime s "%m%d%Y" = true.
Proof.
  unfold valid_MMDDYYYY.
  destruct (digits s) as [[|m1 [|m2 [|d1 [|d2 [|y1 [|y2 [|y3 [|y4 [|]]]]]]]]]|]
    eqn:E; try discriminate.
  destruct (@digits_cons _ _ _ E) as (c1 & s1 & -> & H1 & E1).
  destruct (@digits_cons _ _ _ E1) as (c2 & s2 & -> & H2 & E2).
  destruct (@digits_cons _ _ _ E2) as (c3 & s3 & -> & H3 & E3).
  destruct (@digits_cons _ _ _ E3) as (c4 & s4 & -> & H4 & E4).
  destruct (@digits_cons _ _ _ E4) as (c5 & s5 & -> & H5 & E5).
  destruct (@digits_cons _ _ _ E5) as (c6 & s6 & -> & H6 & E6).
  destruct (@digits_cons _ _ _ E6) as (c7 & s7 & -> & H7 & E7).
  destruct (@digits_cons _ _ _ E7) as (c8 & s8 & -> & H8 & E8).
  apply digits_nil in E8. subst s8. clear E E1 E2 E3 E4 E5 E6 E7.
  cbv zeta. rewrite !andb_true_iff, !Nat.leb_le.
  intros ((((Hy & Hm1) & Hm2) & Hd1) & Hd2).
  split; [reflexivity|].
  pose proof (@digit_lt _ _ H1). pose proof (@digit_lt _ _ H2).
  pose proof (@digit_lt _ _ H3). pose proof (@digit_lt _ _ H4).
  pose proof (@digit_lt _ _ H5). pose proof (@digit_lt _ _ H6).
  pose proof (@digit_lt _ _ H7). pose proof (@digit_lt _ _ H8).
  pose proof (days_in_month_le (1000 * y1 + 100 * y2 + 10 * y3 + y4)
                               (10 * m1 + m2)) as Hdim.
  set (days := datetime.days_in_month _ _) in *.
  assert (Hyear : forall rest,
    datetime.year_group
      (String c5 (String c6 (String c7 (String c8 rest))))
    = Some (1000 * y1 + 100 * y2 + 10 * y3 + y4, rest)).
  { intros rest. unfold datetime.year_group.
    rewrite (@two_digits _ _ _ _ _ _ _ H5 H6).
    rewrite !between_true by lia. simpl andb. cbv iota.
    rewrite (@two_digits _ _ _ _ _ _ _ H7 H8).
    rewrite !between_true by lia. simpl andb. cbv iota.
    f_equal. f_equal. lia. }
  assert (Hday : forall month : nat,
    datetime.first_match datetime.day_group
      (String c3 (String c4 (String c5 (String c6 (String c7
         (String c8 EmptyString))))))
      (fun day rest' =>
         match datetime.year_group rest' with
         | Some (year, remains) => Some (month, day, year, remains)
         | None => None
         end)
    = Some (month, 10 * d1 + d2, 1000 * y1 + 100 * y2 + 10 * y3 + y4,
            EmptyString)).
  { intros month. unfold datetime.day_group, datetime.first_match.
    rewrite !(@two_digits _ _ _ _ _ _ _ H3 H4).
    assert (Hc : (d1 = 3 /\ d2 <= 1) \/ (1 <= d1 <= 2) \/ (d1 = 0 /\ 1 <= d2))
      by lia.
    destruct Hc as [[Hc Hc']|[Hc|[Hc Hc']]].
    - rewrite (@between_true 3 3 _), (@between_true 0 1 _) by lia.
      simpl andb. cbv iota. now rewrite Hyear.
    - rewrite (@between_false 3 3 _) by lia. simpl andb. cbv iota.
      rewrite (@between_true 1 2 _), (@between_true 0 9 _) by lia.
      simpl andb. cbv iota. now rewrite Hyear.
    - rewrite (@between_false 3 3 _), (@between_false 1 2 _) by lia.
      simpl andb. cbv iota.
      rewrite (@between_true 0 0 _), (@between_true 1 9 _) by lia.
      simpl andb. cbv iota. now rewrite Hyear. }
  assert (Hmatch :
    datetime.match_mdY
      (String c1 (String c2 (String c3 (String c4 (String c5 (String c6
         (String c7 (String c8 EmptyString))))))))
    = Some (10 * m1 + m2, 10 * d1 + d2,
            1000 * y1 + 100 * y2 + 10 * y3 + y4, EmptyString)).
  { unfold datetime.match_mdY, datetime.month_group.
    unfold datetime.first_match at 1.
    rewrite !(@two_digits _ _ _ _ _ _ _ H1 H2).
    assert (Hc : (m1 = 1 /\ m2 <= 2) \/ (m1 = 0 /\ 1 <= m2)) by lia.
    destruct Hc as [[Hc Hc']|[Hc Hc']].
    - rewrite (@between_true 1 1 _), (@between_true 0 2 _) by lia.
      simpl andb. cbv iota. now rewrite Hday.
    - rewrite (@between_false 1 1 _) by lia. simpl andb. cbv iota.
      rewrite (@between_true 0 0 _), (@between_true 1 9 _) by lia.
      simpl andb. cbv iota. now rewrite Hday. }
  unfold datetime.strptime. rewrite Hmatch, String.eqb_refl.
  cbn [Py.truthy negb andb].
  unfold datetime.is_date. fold days.
  rewrite !between_true by lia.
  replace (1 <=? 1000 * y1 + 100 * y2 + 10 * y3 + y4) with true
    by (symmetry; apply Nat.leb_le; lia).
  reflexivity.
Qed.
(* ================================================================= *)
(** ** [read_file] *)

Section ReadFile.
Variable float : string -> option Q.
Variable strptime : string -> string -> bool.

Lemma getitem_field line i x :
  field line i = Some x -> Py.getitem (Py.split "|" line) i = Py.Ok x.
Proof. unfold field, Py.getitem. now intros ->. Qed.

(** A line whose column 15 is not empty is skipped. *)
Lemma read_line_other_id line other r :
  field line main.OTHER_ID_POSITION = Some other ->
  Py.truthy other = true ->
  main.read_line float strptime line r = Py.Ok r.
Proof.
  intros Hf Ht. unfold main.read_line.
  rewrite (getitem_field _ _ Hf). simpl Py.rbind. now rewrite Ht.
Qed.

Lemma read_lines_app lines lines' r :
  main.read_lines float strptime (lines ++ lines') r
  = Py.rbind (main.read_lines float strptime lines r)
             (main.read_lines float strptime lines').
Proof.
  revert r. induction lines as [|l lines IH]; intros r; simpl; auto.
  destruct (main.read_line float strptime l r); simpl; auto.
Qed.

Lemma deref_fresh d r q1 q2 :
  main.deref {| main.objects := main.objects r ++ [d];
                main.date_queue := q1; main.zip_queue := q2 |}
             (length (main.objects r)) = d.
Proof. unfold main.deref. simpl. now rewrite nth_middle. Qed.

Lemma substring_length n s :
  n <= String.length s -> String.length (substring 0 n s) = n.
Proof.
  revert s. induction n as [|n IH]; intros s H.
  - now destruct s.
  - destruct s as [|c s]; simpl in *; [lia|]. rewrite IH; auto. lia.
Qed.

Lemma deref_set_zipcode a z r :
  a < length (main.objects r) ->
  main.deref (main.set_zipcode a z r) a
  = {| cmte_id := cmte_id (main.deref r a);
       zipcode := z;
       transaction_dt := transaction_dt (main.deref r a);
       transaction_amt := transaction_amt (main.deref r a) |}.
Proof.
  intros Ha. unfold main.deref, main.set_zipcode. simpl.
  destruct (nth_error (main.objects r) a) as [d|] eqn:E.
  - rewrite nth_setitem_eq by assumption.
    now rewrite (nth_error_nth _ _ _ E).
  - apply nth_error_None in E. lia.
Qed.

(** What the body of the loop does with a line that passes the checks of
    the other id, the committee id and the amount. *)
Lemma read_line_accepted line cmte zip dt amt amount r :
  field line main.OTHER_ID_POSITION = Some EmptyString ->
  field line main.CMTE_ID_POSITION = Some cmte ->
  field line main.ZIPCODE_POSITION = Some zip ->
  field line main.TRANSACTION_DT_POSITION = Some dt ->
  field line main.TRANSACTION_AMT_POSITION = Some amt ->
  Py.truthy cmte = true -> Py.truthy amt = true ->
  float amt = Some amount ->
  let d := {| cmte_id := cmte; zipcode := zip; transaction_dt := dt;
              transaction_amt := amount |} in
  let a := length (main.objects r) in
  let r1 := fst (main.new_dict d r) in
  let r2 := if Py.truthy dt && main.is_valid_date strptime dt
            then main.add_date_task a r1 else r1 in
  let r3 := if 5 <=? String.length zip
            then main.add_zip_task a
                   (main.set_zipcode a (substring 0 5 zip) r2)
            else r2 in
  main.read_line float strptime line r = Py.Ok r3.
Proof.
  intros H15 H0 H10 H13 H14 Hc Ha Hf. cbv zeta.
  unfold main.read_line.
  rewrite (getitem_field _ _ H15). simpl Py.rbind. cbn [Py.truthy].
  rewrite (getitem_field _ _ H0). simpl Py.rbind.
  rewrite (getitem_field _ _ H14). simpl Py.rbind.
  unfold main.is_number at 1. rewrite Hc, Ha, Hf. cbn [negb orb].
  rewrite (getitem_field _ _ H10). simpl Py.rbind.
  rewrite (getitem_field _ _ H13). simpl Py.rbind.
  unfold main.new_dict. cbv iota beta. cbn [fst snd].
  rewrite !deref_fresh. cbn [transaction_dt zipcode].
  destruct (Py.truthy dt && main.is_valid_date strptime dt);
    [unfold main.add_date_task; cbn [main.objects]|];
    now rewrite !deref_fresh.
Qed.
End ReadFile.

(** C9.  A line whose other-id column (column 15) is not empty is skipped by
    [read_file]: the body of the loop leaves both queues and the objects as
    they are, so the file with the line and the file without it give the
    same queues and the same two reports. *)
Theorem other_id_record_dropped
        (v : Py.version) (float : string -> option Q)
        (strptime : string -> string -> bool)
        (line other : string) (before after : list string) (r : main.Reader) :
  field line main.OTHER_ID_POSITION = Some other ->
  Py.truthy other = true ->
  main.read_line float strptime line r = Py.Ok r
  /\ main.read_file float strptime (before ++ line :: after) r
     = main.read_file float strptime (before ++ after) r
  /\ date_report v float strptime (before ++ line :: after)
     = date_report v float strptime (before ++ after)
  /\ zip_report v float strptime (before ++ line :: after)
     = zip_report v float strptime (before ++ after).
Proof.
  intros Hf Ht.
  assert (Hline : forall r', main.read_line float strptime line r' = Py.Ok r')
    by (intros r'; now apply read_line_other_id with other).
  assert (Hfile : forall r',
            main.read_file float strptime (before ++ line :: after) r'
            = main.read_file float strptime (before ++ after) r').
  { intros r'. unfold main.read_file. rewrite !read_lines_app.
    destruct (main.read_lines float strptime before r') as [r1|e]; simpl; auto.
    now rewrite Hline. }
  split; [apply Hline|]. split; [apply Hfile|].
  unfold date_report, zip_report. now rewrite !Hfile.
Qed.

Lemma other_id_record_dropped_witness :
  let line := sample_line "300047357" "01312017" "384" "H6CA34245" in
  let before := [sample_line "300047357" "01312017" "230" EmptyString] in
  let after := [sample_line "300047357" "01312017" "384" EmptyString] in
  main.read_line sample_float datetime.strptime line main.start
  = Py.Ok main.start
  /\ main.read_file sample_float datetime.strptime (before ++ line :: after)
                    main.start
     = main.read_file sample_float datetime.strptime (before ++ after)
                      main.start
  /\ date_report Py.Py3 sample_float datetime.strptime (before ++ line :: after)
     = date_report Py.Py3 sample_float datetime.strptime (before ++ after)
  /\ zip_report Py.Py3 sample_float datetime.strptime (before ++ line :: after)
     = zip_report Py.Py3 sample_float datetime.strptime (before ++ after).
Proof.
  intros line before after.
  apply (@other_id_record_dropped Py.Py3 sample_float datetime.strptime line
           "H6CA34245" before after main.start); reflexivity.
Defined.

(** C8.  For a line that passes the checks of the other id, the committee
    id and the amount, [read_file] creates one record.  With a zip field
    shorter than 5 characters the record does not go to the zip worker.
    Whatever the zip field, the record goes to the date worker exactly when
    its date field is not empty and [is_valid_date] accepts it, which is
    the case of every valid MMDDYYYY calendar date.  With a zip field of 5
    characters or more the record goes to the zip worker, and its zip field
    holds the first 5 characters only. *)
Theorem zip_prefix_routing
        (float : string -> option Q)
        (line cmte zip dt amt : string) (amount : Q) (r : main.Reader) :
  field line main.OTHER_ID_POSITION = Some EmptyString ->
  field line main.CMTE_ID_POSITION = Some cmte ->
  field line main.ZIPCODE_POSITION = Some zip ->
  field line main.TRANSACTION_DT_POSITION = Some dt ->
  field line main.TRANSACTION_AMT_POSITION = Some amt ->
  Py.truthy cmte = true -> Py.truthy amt = true ->
  float amt = Some amount ->
  exists r',
    let a := length (main.objects r) in
    main.read_line float datetime.strptime line r = Py.Ok r'
    /\ main.date_queue r'
       = main.date_queue r
         ++ (if Py.truthy dt && main.is_valid_date datetime.strptime dt
             then [a] else [])
    /\ (valid_MMDDYYYY dt = true ->
        main.date_queue r' = main.date_queue r ++ [a])
    /\ (String.length zip < 5 ->
        main.zip_queue r' = main.zip_queue r
        /\ main.deref r' a
           = {| cmte_id := cmte; zipcode := zip; transaction_dt := dt;
                transaction_amt := amount |})
    /\ (5 <= String.length zip ->
        main.zip_queue r' = main.zip_queue r ++ [a]
        /\ main.deref r' a
           = {| cmte_id := cmte; zipcode := substring 0 5 zip;
                transaction_dt := dt; transaction_amt := amount |}
        /\ String.length (zipcode (main.deref r' a)) = 5).
Proof.
  intros H15 H0 H10 H13 H14 Hc Ha Hf.
  pose proof (@read_line_accepted float datetime.strptime line cmte zip dt amt
                amount r H15 H0 H10 H13 H14 Hc Ha Hf) as E.
  cbv zeta in E. eexists. cbv zeta. split; [exact E|].
  unfold main.new_dict. cbn [fst].
  assert (Hvalid : valid_MMDDYYYY dt = true ->
                   Py.truthy dt && main.is_valid_date datetime.strptime dt
                   = true).
  { intros Hv. destruct (strptime_accepts_valid dt Hv) as [-> Hs].
    exact Hs. }
  set (d := {| cmte_id := cmte; zipcode := zip; transaction_dt := dt;
               transaction_amt := amount |}).
  destruct (Nat.leb_spec 5 (String.length zip)) as [Hz|Hz].
  - split; [|split; [|split; [lia|]]].
    + destruct (_ && _); simpl; auto using app_nil_r.
    + intros Hv. rewrite (Hvalid Hv). reflexivity.
    + intros _.
      assert (Hd : main.deref
                (main.add_zip_task (length (main.objects r))
                   (main.set_zipcode (length (main.objects r))
                      (substring 0 5 zip)
                      (if Py.truthy dt && main.is_valid_date datetime.strptime dt
                       then main.add_date_task (length (main.objects r))
                              {| main.objects := main.objects r ++ [d];
                                 main.date_queue := main.date_queue r;
                                 main.zip_queue := main.zip_queue r |}
                       else {| main.objects := main.objects r ++ [d];
                               main.date_queue := main.date_queue r;
                               main.zip_queue := main.zip_queue r |})))
                (length (main.objects r))
              = {| cmte_id := cmte; zipcode := substring 0 5 zip;
                   transaction_dt := dt; transaction_amt := amount |}).
      { change (main.deref (main.add_zip_task ?a ?x) ?b)
          with (main.deref x b).
        rewrite deref_set_zipcode.
        - destruct (_ && _); unfold main.add_date_task; cbn [main.objects];
            now rewrite deref_fresh.
        - destruct (_ && _); simpl; rewrite length_app; simpl; lia. }
      split; [|split].
      * destruct (_ && _); reflexivity.
      * exact Hd.
      * rewrite Hd. cbn [zipcode]. now apply substring_length.
  - split; [|split; [|split; [|lia]]].
    + destruct (_ && _); simpl; auto using app_nil_r.
    + intros Hv. rewrite (Hvalid Hv). reflexivity.
    + intros _. split.
      * destruct (_ && _); reflexivity.
      * destruct (_ && _); unfold main.add_date_task; cbn [main.objects];
          now rewrite deref_fresh.
Qed.

Lemma zip_prefix_routing_witness :
  let line := sample_line "3000" "01312017" "384" EmptyString in
  let r := main.start in
  exists r',
    let a := length (main.objects r) in
    main.read_line sample_float datetime.strptime line r = Py.Ok r'
    /\ main.date_queue r'
       = main.date_queue r
         ++ (if Py.truthy "01312017"
                && main.is_valid_date datetime.strptime "01312017"
             then [a] else [])
    /\ (valid_MMDDYYYY "01312017" = true ->
        main.date_queue r' = main.date_queue r ++ [a])
    /\ (String.length "3000" < 5 ->
        main.zip_queue r' = main.zip_queue r
        /\ main.deref r' a
           = {| cmte_id := "C00177436"; zipcode := "3000";
                transaction_dt := "01312017"; transaction_amt := 384 |})
    /\ (5 <= String.length "3000" ->
        main.zip_queue r' = main.zip_queue r ++ [a]
        /\ main.deref r' a
           = {| cmte_id := "C00177436"; zipcode := substring 0 5 "3000";
                transaction_dt := "01312017"; transaction_amt := 384 |}
        /\ String.length (zipcode (main.deref r' a)) = 5).
Proof.
  intros line r.
  apply (@zip_prefix_routing sample_float line
           "C00177436" "3000" "01312017" "384" 384%Q r); reflexivity.
Defined.

(** The date handler reads the committee, the date and the amount of an
    item and never its zip code: it does not matter to the date worker
    whether it takes an item from its queue before or after [read_file]
    has cut the zip code of the object. *)
Lemma date_handler_ignores_zipcode v d d' :
  cmte_id d = cmte_id d' ->
  transaction_dt d = transaction_dt d' ->
  transaction_amt d = transaction_amt d' ->
  date_handler v d = date_handler v d'.
Proof.
  intros H1 H2 H3. unfold date_handler. now rewrite H1, H2, H3.
Qed.

(** [read_file] and the two reports on four lines: a full record, a record
    with a short zip code, a record with an other id, and a record with a
    malformed date. *)
Example read_file_sample :
  main.read_file sample_float datetime.strptime
    [sample_line "300047357" "01312017" "384" EmptyString;
     sample_line "3000" "01312017" "230" EmptyString;
     sample_line "300047357" "01312017" "384" "H6CA34245";
     sample_line "300047357" "0131" "384" EmptyString]
    main.start
  = Py.Ok
      {| main.objects :=
           [ {| cmte_id := "C00177436"; zipcode := "30004";
                transaction_dt := "01312017"; transaction_amt := 384 |};
             {| cmte_id := "C00177436"; zipcode := "3000";
                transaction_dt := "01312017"; transaction_amt := 230 |};
             {| cmte_id := "C00177436"; zipcode := "30004";
                transaction_dt := "0131"; transaction_amt := 384 |};
             main.end_data ];
         main.date_queue := [0; 1; 3];
         main.zip_queue := [0; 2; 3] |}.
Proof. vm_compute. reflexivity. Qed.

Example reports_sample :
  let input :=
    [sample_line "300047357" "01312017" "384" EmptyString;
     sample_line "3000" "01312017" "230" EmptyString;
     sample_line "300047357" "01312017" "384" "H6CA34245";
     sample_line "300047357" "0131" "384" EmptyString] in
  date_report Py.Py3 sample_float datetime.strptime input
  = Some [("C00177436|01312017|307|2|614" ++ Py.newline)%string]
  /\ zip_report Py.Py3 sample_float datetime.strptime input
     = Some [("C00177436|30004|384|1|384" ++ Py.newline)%string;
             ("C00177436|30004|384|2|768" ++ Py.newline)%string].
Proof. cbv zeta. split; vm_compute; reflexivity. Qed.

(** A line with fewer than 16 columns makes [read_file] raise. *)
Example read_file_short_line :
  main.read_file sample_float datetime.strptime ["C00177436|N|M2"%string] main.start
  = Py.Raise Py.IndexError.
Proof. reflexivity. Qed.
(* ================================================================= *)
(** ** [heapify] and the constructors with elements *)

Lemma descends_le k pos : descends k pos -> k <= pos.
Proof.
  induction 1 as [|i Hi Hd IH]; auto.
  pose proof (parent_lt Hi). lia.
Qed.

Lemma descends_parent k pos :
  descends k pos -> k < pos -> descends k (parent pos) /\ k <= parent pos.
Proof.
  intros H Hlt. destruct H as [|i Hi Hd]; [lia|].
  split; auto. now apply descends_le.
Qed.

Lemma hole_up_from_stop k h pos x :
  hole_up_from k h pos x ->
  pos = k \/ (nth (parent pos) h 0 <= x)%Q ->
  heap_from k (Py.setitem h pos x).
Proof.
  intros [Hr Hb H1 H2 H3] Hstop i Hi Hk. rewrite setitem_length in Hi.
  pose proof (parent_lt (proj1 Hi)) as Hpi.
  destruct (Nat.eq_dec i pos) as [->|Hne].
  - rewrite nth_setitem_eq by lia.
    rewrite nth_setitem_neq by lia.
    destruct Hstop; [lia | assumption].
  - rewrite (nth_setitem_neq h x 0%Q (i := pos) (j := i)) by lia.
    destruct (Nat.eq_dec (parent i) pos) as [Hp|Hp].
    + rewrite Hp, nth_setitem_eq by lia. now apply H2.
    + rewrite nth_setitem_neq by auto. now apply H1.
Qed.

Lemma hole_up_from_step k h pos x :
  hole_up_from k h pos x -> k < pos -> (x < nth (parent pos) h 0)%Q ->
  hole_up_from k (Py.setitem h pos (nth (parent pos) h 0%Q)) (parent pos) x.
Proof.
  intros [Hr Hb H1 H2 H3] Hpos Hlt.
  assert (Hpos0 : 0 < pos) by lia.
  pose proof (parent_lt Hpos0) as Hpp.
  destruct (descends_parent Hb Hpos) as [Hb' Hkp].
  split; rewrite ?setitem_length.
  - lia.
  - assumption.
  - intros i Hi Hk Hne Hpne.
    assert (i <> pos) by congruence.
    destruct (Nat.eq_dec (parent i) pos) as [Hp|Hp]; nth_set.
    + now apply H3.
    + now apply H1.
  - intros i Hi Hp.
    destruct (Nat.eq_dec i pos) as [->|Hne]; nth_set.
    + now apply Qlt_le_weak.
    + apply Qlt_le_weak, Qlt_le_trans with (1 := Hlt).
      rewrite <- Hp. apply H1; auto; lia.
  - intros i Hi Hp Hpp0.
    assert (Hpp1 : 0 < parent pos) by lia.
    pose proof (parent_lt Hpp1).
    destruct (descends_parent Hb' Hpp0) as [_ Hkpp].
    assert (Hgp : (nth (parent (parent pos)) h 0 <= nth (parent pos) h 0)%Q)
      by (apply H1; lia).
    destruct (Nat.eq_dec i pos) as [->|Hne]; nth_set; auto.
    apply Qle_trans with (1 := Hgp).
    rewrite <- Hp. apply H1; auto; lia.
Qed.

Lemma hole_up_from_refill k h pos x y :
  hole_up_from k h pos x -> hole_up_from k (Py.setitem h pos y) pos x.
Proof.
  intros [Hr Hb H1 H2 H3].
  split; rewrite ?setitem_length; auto.
  - intros i Hi Hk Hne Hp. nth_set. now apply H1.
  - intros i Hi Hp. pose proof (parent_lt (proj1 Hi)). nth_set. now apply H2.
  - intros i Hi Hp Hpos.
    assert (Hpos0 : 0 < pos) by lia.
    pose proof (parent_lt (proj1 Hi)). pose proof (parent_lt Hpos0).
    nth_set. now apply H3.
Qed.

(** The loop of [_siftdown] that stops at [startpos]: the item never
    leaves the subtree, which ends ordered. *)
Lemma siftdown_loop_from fuel : forall k h pos x h' pos',
  pos <= fuel -> hole_up_from k h pos x ->
  heapq._siftdown_loop fuel h k pos x = (h', pos') ->
  heap_from k (Py.setitem h' pos' x)
  /\ Permutation (Py.setitem h' pos' x) (Py.setitem h pos x).
Proof.
  induction fuel as [|fuel IH]; intros k h pos x h' pos' Hf Hu E.
  - injection E as <- <-. split; auto.
    apply hole_up_from_stop; auto. left.
    pose proof (descends_le (huf_below Hu)). lia.
  - rewrite siftdown_loop_S in E.
    pose proof (descends_le (huf_below Hu)) as Hkp.
    destruct (Nat.ltb_spec k pos) as [Hpos|Hpos].
    + destruct (Py.lt x (nth (parent pos) h 0%Q)) eqn:Hlt.
      * apply lt_spec in Hlt.
        assert (Hpos0 : 0 < pos) by lia.
        pose proof (parent_lt Hpos0) as Hpp.
        pose proof (huf_range Hu) as Hr.
        apply IH in E; [|lia|now apply hole_up_from_step].
        destruct E as [Hok Hperm]. split; auto.
        rewrite Hperm.
        rewrite (setitem_swap_perm h (i := pos) (j := parent pos)) by lia.
        replace (nth (parent pos) h 0%Q)
          with (nth (parent pos) (Py.setitem h pos x) 0%Q) by (now nth_set).
        now rewrite setitem_same.
      * apply lt_false in Hlt. injection E as <- <-. split; auto.
        apply hole_up_from_stop; auto.
    + injection E as <- <-. split; auto.
      apply hole_up_from_stop; auto. left; lia.
Qed.

Lemma siftdown_from k h pos :
  hole_up_from k h pos (nth pos h 0%Q) ->
  heap_from k (heapq._siftdown h k pos)
  /\ Permutation (heapq._siftdown h k pos) h.
Proof.
  intros Hu. unfold heapq._siftdown.
  destruct (heapq._siftdown_loop pos h k pos (nth pos h 0%Q))
    as [h' pos'] eqn:E.
  apply siftdown_loop_from in E; auto.
  now rewrite setitem_same in E.
Qed.

(** The child that the loop of [_siftup] moves up is a least one. *)
Lemma siftup_child_least (h : list Q) pos :
  2 * pos + 1 < length h ->
  let c := if (2 * pos + 1 + 1 <? length h)
              && negb (Py.lt (nth (2 * pos + 1) h 0%Q)
                             (nth (2 * pos + 1 + 1) h 0%Q))
           then 2 * pos + 1 + 1 else 2 * pos + 1 in
  (c = 2 * pos + 1 \/ c = 2 * pos + 2) /\ c < length h
  /\ forall i, 0 < i < length h -> parent i = pos ->
               (nth c h 0 <= nth i h 0)%Q.
Proof.
  intros Hl. cbv zeta.
  destruct (Nat.ltb_spec (2 * pos + 1 + 1) (length h)) as [Hrt|Hrt];
    simpl andb.
  - destruct (Py.lt _ _) eqn:Hcmp; simpl negb; cbv iota.
    + apply lt_spec in Hcmp. split; [|split]; auto.
      intros i Hi Hp.
      pose proof (parent_children (proj1 Hi)) as [Hi'|Hi'];
        rewrite Hp in Hi'; subst i.
      * apply Qle_refl.
      * replace (2 * pos + 2) with (2 * pos + 1 + 1) by lia.
        now apply Qlt_le_weak.
    + apply lt_false in Hcmp. split; [|split]; auto; try lia.
      intros i Hi Hp.
      pose proof (parent_children (proj1 Hi)) as [Hi'|Hi'];
        rewrite Hp in Hi'; subst i.
      * exact Hcmp.
      * replace (2 * pos + 2) with (2 * pos + 1 + 1) by lia.
        apply Qle_refl.
  - split; [|split]; auto.
    intros i Hi Hp.
    pose proof (parent_children (proj1 Hi)) as [Hi'|Hi'];
      rewrite Hp in Hi'; subst i; [apply Qle_refl | lia].
Qed.

Lemma hole_down_from_step k h pos c :
  hole_down_from k h pos -> c < length h -> 0 < c -> parent c = pos ->
  (forall i, 0 < i < length h -> parent i = pos ->
             (nth c h 0 <= nth i h 0)%Q) ->
  hole_down_from k (Py.setitem h pos (nth c h 0%Q)) c.
Proof.
  intros [Hr Hb H1 H3] Hc Hc0 Hpc Hmin.
  pose proof (parent_lt Hc0) as Hlt.
  pose proof (descends_le Hb) as Hkp.
  split; rewrite ?setitem_length; auto.
  - apply descends_child; auto. now rewrite Hpc.
  - intros i Hi Hk Hne Hp.
    pose proof (parent_lt (proj1 Hi)).
    destruct (Nat.eq_dec i pos) as [->|Hnp]; nth_set.
    + apply H3; auto; lia.
    + destruct (Nat.eq_dec (parent i) pos) as [Hpp|Hpp]; nth_set.
      * now apply Hmin.
      * now apply H1.
  - intros i Hi Hp _.
    pose proof (parent_lt (proj1 Hi)).
    nth_set. rewrite <- Hp. apply H1; auto; lia.
Qed.

Lemma hole_down_from_leaf k h pos x :
  hole_down_from k h pos -> length h <= 2 * pos + 1 ->
  hole_up_from k h pos x.
Proof.
  intros [Hr Hb H1 H3] Hleaf.
  split; auto; intros i Hi Hp; pose proof (parent_children (proj1 Hi)); lia.
Qed.

Lemma siftup_loop_hole_from fuel : forall k h pos h' pos',
  length h - pos <= fuel -> hole_down_from k h pos ->
  heapq._siftup_loop fuel h (length h) pos (2 * pos + 1) = (h', pos') ->
  length h' = length h /\ hole_down_from k h' pos'
  /\ length h' <= 2 * pos' + 1
  /\ forall x, Permutation (Py.setitem h' pos' x) (Py.setitem h pos x).
Proof.
  induction fuel as [|fuel IH]; intros k h pos h' pos' Hf Hd E.
  - pose proof (hdf_range Hd). lia.
  - rewrite siftup_loop_S in E.
    pose proof (hdf_range Hd) as Hr.
    destruct (Nat.ltb_spec (2 * pos + 1) (length h)) as [Hl|Hl].
    + cbv zeta in E.
      pose proof (siftup_child_least h pos Hl) as Hc. cbv zeta in Hc.
      match type of E with
      | heapq._siftup_loop _ _ _ ?c' _ = _ => set (c := c') in *
      end.
      clearbody c. destruct Hc as (Hc12 & Hc & Hmin).
      assert (Hpc : parent c = pos)
        by (destruct Hc12; subst c; [apply parent_left | apply parent_right]).
      assert (Hd' : hole_down_from k (Py.setitem h pos (nth c h 0%Q)) c)
        by (apply hole_down_from_step; auto; lia).
      rewrite <- (setitem_length h pos (nth c h 0%Q)) in E.
      apply IH with (k := k) in E; auto; rewrite ?setitem_length in *;
        try lia.
      destruct E as (E1 & E2 & E3 & E4). split; [|split; [|split]]; auto.
      intros x. rewrite E4.
      rewrite (setitem_swap_perm h (i := pos) (j := c)) by lia.
      replace (nth c h 0%Q) with (nth c (Py.setitem h pos x) 0%Q)
        by (now nth_set).
      now rewrite setitem_same.
    + injection E as <- <-. split; [|split; [|split]]; auto.
Qed.

(** [_siftup] at position [k] orders the subtree of [k] when the subtrees
    of the later positions are ordered. *)
Lemma siftup_from k h :
  k < length h -> heap_from (S k) h ->
  heap_from k (heapq._siftup h k) /\ Permutation (heapq._siftup h k) h.
Proof.
  intros Hk Hf. unfold heapq._siftup.
  destruct (heapq._siftup_loop (length h) h (length h) k (2 * k + 1))
    as [h' pos'] eqn:E.
  assert (Hd : hole_down_from k h k).
  { split; auto.
    - constructor.
    - intros i Hi Hki Hne Hp. apply Hf; auto. lia.
    - intros; lia. }
  apply siftup_loop_hole_from with (k := k) in E; auto; try lia.
  destruct E as (E1 & E2 & E3 & E4).
  pose proof (hdf_range E2) as Hr.
  set (x := nth k h 0%Q) in *.
  assert (Hu : hole_up_from k (Py.setitem h' pos' x) pos'
                            (nth pos' (Py.setitem h' pos' x) 0%Q)).
  { nth_set. apply hole_up_from_refill. now apply hole_down_from_leaf. }
  destruct (siftdown_from Hu) as [H1 H2]. split; auto.
  rewrite H2, E4. subst x. now rewrite setitem_same.
Qed.

Lemma heapify_from m : forall h,
  2 * m <= length h -> heap_from m h ->
  let h' := fold_left (fun x i => heapq._siftup x i) (rev (seq 0 m)) h in
  heap_ok h' /\ Permutation h' h.
Proof.
  induction m as [|m IH]; intros h Hm Hf; cbv zeta.
  - simpl. split; auto. intros i Hi. apply Hf; auto. lia.
  - rewrite seq_S, rev_app_distr. simpl rev. simpl app. simpl fold_left.
    assert (Hk : m < length h) by lia.
    destruct (siftup_from Hk Hf) as [H1 H2].
    destruct (IH (heapq._siftup h m)) as [H3 H4]; auto.
    + rewrite siftup_length. lia.
    + split; auto. now rewrite H4.
Qed.

(** [heapify] makes a heap of the items it is given. *)
Lemma heapify_heap x :
  heap_ok (heapq.heapify x) /\ Permutation (heapq.heapify x) x.
Proof.
  unfold heapq.heapify. cbv zeta.
  pose proof (Nat.div_mod_eq (length x) 2) as Hd.
  pose proof (Nat.mod_upper_bound (length x) 2) as Hu.
  apply heapify_from; [lia|].
  intros i Hi Hk. pose proof (parent_children (proj1 Hi)). lia.
Qed.

(** The first item of a heap, when there is one, is among the items and
    below them all. *)
Lemma heap_first_least h :
  heap_ok h ->
  match h with
  | m :: _ => In m h /\ forall y, In y h -> (m <= y)%Q
  | [] => True
  end.
Proof.
  intros Hok. destruct h as [|m t]; auto.
  split; [now left|]. intros y Hy. exact (heap_root_min_In y Hok Hy).
Qed.

Lemma map_id_eq {A} (l : list A) : map (fun e => e) l = l.
Proof. induction l as [|a l IH]; simpl; congruence. Qed.

Lemma map_opp_opp (l : list Q) : map Qopp (map (fun e => (- e)%Q) l) = l.
Proof.
  induction l as [|a l IH]; simpl; auto. now rewrite Qopp_opp_eq, IH.
Qed.

Lemma MinHeap_init_heap elements :
  heap_ok (heap.MinHeap.__init__ elements)
  /\ Permutation (heap.MinHeap.__init__ elements) elements.
Proof.
  unfold heap.MinHeap.__init__. rewrite map_id_eq. apply heapify_heap.
Qed.

Lemma MaxHeap_init_heap elements :
  heap_ok (heap.MaxHeap.__init__ elements)
  /\ Permutation (map Qopp (heap.MaxHeap.__init__ elements)) elements.
Proof.
  unfold heap.MaxHeap.__init__.
  destruct (heapify_heap (map (fun e => (- e)%Q) elements)) as [H1 H2].
  split; auto.
  rewrite <- (map_opp_opp elements) at 2. now apply Permutation_map.
Qed.

(** The values popped from a heap come out in ascending order, and they
    are the items of the heap. *)
Lemma MinHeap_pop_all_sorted fuel : forall h,
  heap_ok h -> length h <= fuel ->
  StronglySorted Qle (MinHeap_pop_all fuel h)
  /\ Permutation (MinHeap_pop_all fuel h) h.
Proof.
  induction fuel as [|fuel IH]; intros h Hok Hf.
  - destruct h; simpl in *; [|lia]. split; constructor.
  - destruct h as [|r t].
    + simpl. split; constructor.
    + assert (Hne : r :: t <> []) by discriminate.
      destruct (MinHeap_pop_run Hne) as (h' & E & Ep & Hl).
      cbn [MinHeap_pop_all]. rewrite E. cbn [heap.MinHeap.peek].
      destruct (@MinHeap_pop_ok (r :: t) h' r Hok E) as [Hok' Hperm].
      destruct (IH h' Hok') as [Hs Hp]; [simpl in *; lia|].
      split.
      * constructor; auto.
        apply Forall_forall. intros y Hy.
        apply (heap_root_min_In y Hok).
        apply Permutation_in with (r :: h'); auto.
        right. apply Permutation_in with (1 := Hp). exact Hy.
      * rewrite <- Hperm. now apply perm_skip.
Qed.

Lemma MaxHeap_pop_all_sorted fuel : forall h,
  heap_ok h -> length h <= fuel ->
  StronglySorted (fun a b => (b <= a)%Q) (MaxHeap_pop_all fuel h)
  /\ Permutation (MaxHeap_pop_all fuel h) (map Qopp h).
Proof.
  induction fuel as [|fuel IH]; intros h Hok Hf.
  - destruct h; simpl in *; [|lia]. split; constructor.
  - destruct h as [|r t].
    + simpl. split; constructor.
    + assert (Hne : r :: t <> []) by discriminate.
      destruct (MaxHeap_pop_run Hne) as (h' & E & Ep & Hl).
      cbn [MaxHeap_pop_all]. rewrite E. cbn [heap.MaxHeap.peek].
      destruct (@MaxHeap_pop_ok (r :: t) h' (- r)%Q Hok E) as [Hok' Hperm].
      destruct (IH h' Hok') as [Hs Hp]; [simpl in *; lia|].
      split.
      * constructor; auto.
        apply Forall_forall. intros y Hy.
        assert (Hin : In y (map Qopp (r :: t))).
        { apply Permutation_in with (1 := Hperm). right.
          apply Permutation_in with (1 := Hp). exact Hy. }
        apply in_map_iff in Hin. destruct Hin as (z & <- & Hz).
        apply Qopp_le_compat. exact (heap_root_min_In z Hok Hz).
      * rewrite <- Hperm. now apply perm_skip.
Qed.

(* ================================================================= *)
(** ** The two heap classes as priority queues *)

(** The constructors called without elements give the empty heaps. *)
Example init_without_elements :
  heap.MinHeap.__init__ [] = heap.MinHeap.init
  /\ heap.MaxHeap.__init__ [] = heap.MaxHeap.init.
Proof. split; reflexivity. Qed.

(** X1.  [MinHeap(elements)], the constructor called with a list: the
    object holds exactly the elements given, arranged as a heap, and [peek]
    then returns a least element, or [None] when the list was empty. *)
Theorem MinHeap_init_elements (elements : list Q) :
  let self := heap.MinHeap.__init__ elements in
  heap_ok self /\ Permutation self elements
  /\ match heap.MinHeap.peek self with
     | Some m => In m elements /\ forall y, In y elements -> (m <= y)%Q
     | None => elements = []
     end.
Proof.
  cbv zeta. destruct (MinHeap_init_heap elements) as [H1 H2].
  split; [|split]; auto.
  pose proof (heap_first_least H1) as H3.
  destruct (heap.MinHeap.__init__ elements) as [|m t]; simpl.
  - now apply Permutation_nil in H2.
  - destruct H3 as [H3 H4]. split.
    + now apply Permutation_in with (1 := H2).
    + intros y Hy. apply H4.
      apply Permutation_in with (1 := Permutation_sym H2). exact Hy.
Qed.

(** X2.  [MaxHeap(elements)]: the object holds exactly the elements given
    (it stores them negated, as a heap), and [peek] then returns a greatest
    element, or [None] when the list was empty. *)
Theorem MaxHeap_init_elements (elements : list Q) :
  let self := heap.MaxHeap.__init__ elements in
  heap_ok self /\ Permutation (map Qopp self) elements
  /\ match heap.MaxHeap.peek self with
     | Some m => In m elements /\ forall y, In y elements -> (y <= m)%Q
     | None => elements = []
     end.
Proof.
  cbv zeta. destruct (MaxHeap_init_heap elements) as [H1 H2].
  split; [|split]; auto.
  destruct (heap.MaxHeap.__init__ elements) as [|m t] eqn:E.
  - simpl in *. now apply Permutation_nil in H2.
  - destruct (@MaxHeap_peek_max (m :: t) (- m)%Q H1 eq_refl) as [H3 H4].
    cbn [heap.MaxHeap.peek]. split.
    + now apply Permutation_in with (1 := H2).
    + intros y Hy. apply H4.
      apply Permutation_in with (1 := Permutation_sym H2). exact Hy.
Qed.

(** X3.  [MinHeap.push] on a heap: the object stays a heap, holds the
    value pushed besides what it held, is one larger, and [peek] returns a
    least of these values. *)
Theorem MinHeap_push_least (self : heap.MinHeap.t) (value : Q) :
  heap_ok self ->
  let self' := heap.MinHeap.push self value in
  heap_ok self' /\ Permutation self' (value :: self)
  /\ heap.MinHeap.size self' = S (heap.MinHeap.size self)
  /\ exists m, heap.MinHeap.peek self' = Some m /\ In m (value :: self)
               /\ forall y, In y (value :: self) -> (m <= y)%Q.
Proof.
  intros Hok. cbv zeta.
  destruct (MinHeap_push_ok value Hok) as [H1 H2].
  split; [|split; [|split]]; auto.
  - apply heappush_length.
  - pose proof (heap_first_least H1) as H3.
    destruct (heap.MinHeap.push self value) as [|m t].
    + apply Permutation_nil in H2. discriminate.
    + exists m. destruct H3 as [H3 H4]. split; [reflexivity|]. split.
      * now apply Permutation_in with (1 := H2).
      * intros y Hy. apply H4.
        apply Permutation_in with (1 := Permutation_sym H2). exact Hy.
Qed.

Lemma MinHeap_push_least_witness :
  heap_ok [1; 3; 2]%Q
  /\ let self' := heap.MinHeap.push [1; 3; 2]%Q 0%Q in
     heap_ok self' /\ Permutation self' [0; 1; 3; 2]%Q
     /\ heap.MinHeap.size self' = 4
     /\ exists m, heap.MinHeap.peek self' = Some m /\ In m [0; 1; 3; 2]%Q
                  /\ forall y, In y [0; 1; 3; 2]%Q -> (m <= y)%Q.
Proof.
  assert (H : heap_ok [1; 3; 2]%Q).
  { intros [|[|[|i]]] Hi; simpl in Hi; try lia; vm_compute;
      intros H'; discriminate H'. }
  split; [exact H | exact (MinHeap_push_least 0%Q H)].
Defined.

(** X4.  [MinHeap.pop] on a heap that is not empty returns a least of the
    values held and leaves a heap of the others. *)
Theorem MinHeap_pop_least (self : heap.MinHeap.t) :
  heap_ok self -> self <> [] ->
  exists m self',
    heap.MinHeap.pop self = Py.Ok (Some m, self')
    /\ In m self /\ (forall y, In y self -> (m <= y)%Q)
    /\ heap_ok self' /\ Permutation (m :: self') self.
Proof.
  intros Hok Hne.
  destruct (MinHeap_pop_run Hne) as (self' & E & Ep & Hl).
  rewrite Ep in E.
  destruct (@MinHeap_pop_ok self self' _ Hok E) as [H1 H2].
  destruct (@MinHeap_peek_min self _ Hok Ep) as [H3 H4].
  eauto 10.
Qed.

Lemma MinHeap_pop_least_witness :
  heap_ok [1; 3; 2]%Q /\ [1; 3; 2]%Q <> []
  /\ exists m self',
       heap.MinHeap.pop [1; 3; 2]%Q = Py.Ok (Some m, self')
       /\ In m [1; 3; 2]%Q /\ (forall y, In y [1; 3; 2]%Q -> (m <= y)%Q)
       /\ heap_ok self' /\ Permutation (m :: self') [1; 3; 2]%Q.
Proof.
  assert (H : heap_ok [1; 3; 2]%Q).
  { intros [|[|[|i]]] Hi; simpl in Hi; try lia; vm_compute;
      intros H'; discriminate H'. }
  assert (Hne : [1; 3; 2]%Q <> []) by discriminate.
  split; [exact H | split; [exact Hne | exact (MinHeap_pop_least H Hne)]].
Defined.

(** X5.  [MaxHeap.push] on a heap: the object stays a heap of negated
    values, holds the value pushed besides what it held, is one larger, and
    [peek] returns a greatest of these values. *)
Theorem MaxHeap_push_greatest (self : heap.MaxHeap.t) (value : Q) :
  heap_ok self ->
  let self' := heap.MaxHeap.push self value in
  heap_ok self' /\ Permutation (map Qopp self') (value :: map Qopp self)
  /\ heap.MaxHeap.size self' = S (heap.MaxHeap.size self)
  /\ exists m, heap.MaxHeap.peek self' = Some m
               /\ In m (value :: map Qopp self)
               /\ forall y, In y (value :: map Qopp self) -> (y <= m)%Q.
Proof.
  intros Hok. cbv zeta.
  destruct (MaxHeap_push_ok value Hok) as [H1 H2].
  split; [|split; [|split]]; auto.
  - apply heappush_length.
  - destruct (heap.MaxHeap.push self value) as [|m t] eqn:E.
    + apply Permutation_nil in H2. discriminate.
    + exists (- m)%Q.
      destruct (@MaxHeap_peek_max (m :: t) (- m)%Q H1 eq_refl) as [H3 H4].
      split; [reflexivity|]. split.
      * now apply Permutation_in with (1 := H2).
      * intros y Hy. apply H4.
        apply Permutation_in with (1 := Permutation_sym H2). exact Hy.
Qed.

Lemma MaxHeap_push_greatest_witness :
  heap_ok [(- (3 # 1)); - (1 # 1); - (2 # 1)]%Q
  /\ let self := [(- (3 # 1)); - (1 # 1); - (2 # 1)]%Q in
     let self' := heap.MaxHeap.push self 5%Q in
     heap_ok self' /\ Permutation (map Qopp self') (5%Q :: map Qopp self)
     /\ heap.MaxHeap.size self' = S (heap.MaxHeap.size self)
     /\ exists m, heap.MaxHeap.peek self' = Some m
                  /\ In m (5%Q :: map Qopp self)
                  /\ forall y, In y (5%Q :: map Qopp self) -> (y <= m)%Q.
Proof.
  assert (H : heap_ok [(- (3 # 1)); - (1 # 1); - (2 # 1)]%Q).
  { intros [|[|[|i]]] Hi; simpl in Hi; try lia; vm_compute;
      intros H'; discriminate H'. }
  split; [exact H | exact (MaxHeap_push_greatest 5%Q H)].
Defined.

(** X6.  [MaxHeap.pop] on a heap that is not empty returns a greatest of
    the values held and leaves a heap of the others. *)
Theorem MaxHeap_pop_greatest (self : heap.MaxHeap.t) :
  heap_ok self -> self <> [] ->
  exists m self',
    heap.MaxHeap.pop self = Py.Ok (Some m, self')
    /\ In m (map Qopp self) /\ (forall y, In y (map Qopp self) -> (y <= m)%Q)
    /\ heap_ok self' /\ Permutation (m :: map Qopp self') (map Qopp self).
Proof.
  intros Hok Hne.
  destruct (MaxHeap_pop_run Hne) as (self' & E & Ep & Hl).
  rewrite Ep in E.
  destruct (@MaxHeap_pop_ok self self' _ Hok E) as [H1 H2].
  destruct (@MaxHeap_peek_max self _ Hok Ep) as [H3 H4].
  eauto 10.
Qed.

Lemma MaxHeap_pop_greatest_witness :
  let self := [(- (3 # 1)); - (1 # 1); - (2 # 1)]%Q in
  heap_ok self /\ self <> []
  /\ exists m self',
       heap.MaxHeap.pop self = Py.Ok (Some m, self')
       /\ In m (map Qopp self)
       /\ (forall y, In y (map Qopp self) -> (y <= m)%Q)
       /\ heap_ok self' /\ Permutation (m :: map Qopp self') (map Qopp self).
Proof.
  assert (H : heap_ok [(- (3 # 1)); - (1 # 1); - (2 # 1)]%Q).
  { intros [|[|[|i]]] Hi; simpl in Hi; try lia; vm_compute;
      intros H'; discriminate H'. }
  assert (Hne : [(- (3 # 1)); - (1 # 1); - (2 # 1)]%Q <> []) by discriminate.
  split; [exact H | split; [exact Hne | exact (MaxHeap_pop_greatest H Hne)]].
Defined.

(** X7.  [pop] of either class never raises, whatever the list the object
    holds: it returns what [peek] returns on the same object, [None] for an
    empty one, and leaves one item fewer. *)
Theorem pop_returns_peek (self : list Q) :
  (exists self',
     heap.MinHeap.pop self = Py.Ok (heap.MinHeap.peek self, self')
     /\ heap.MinHeap.size self' = heap.MinHeap.size self - 1)
  /\ (exists self',
        heap.MaxHeap.pop self = Py.Ok (heap.MaxHeap.peek self, self')
        /\ heap.MaxHeap.size self' = heap.MaxHeap.size self - 1).
Proof.
  destruct self as [|r t].
  - split; exists []; split; reflexivity.
  - assert (Hne : r :: t <> []) by discriminate.
    destruct (MinHeap_pop_run Hne) as (h1 & E1 & _ & L1).
    destruct (MaxHeap_pop_run Hne) as (h2 & E2 & _ & L2).
    split; [exists h1 | exists h2]; split; auto;
      unfold heap.MinHeap.size, heap.MaxHeap.size; lia.
Qed.

(** X8.  Heap sort with [MinHeap]: the values popped one after the other
    from [MinHeap(elements)], as many as there are elements, are the
    elements in ascending order. *)
Theorem MinHeap_pops_ascending (elements : list Q) :
  let out :=
    MinHeap_pop_all (length elements) (heap.MinHeap.__init__ elements) in
  StronglySorted Qle out /\ Permutation out elements.
Proof.
  cbv zeta. destruct (MinHeap_init_heap elements) as [H1 H2].
  destruct (@MinHeap_pop_all_sorted (length elements)
              (heap.MinHeap.__init__ elements) H1) as [H3 H4].
  - now rewrite (Permutation_length H2).
  - split; auto. now rewrite H4.
Qed.

(** X9.  With [MaxHeap]: the values popped one after the other from
    [MaxHeap(elements)] are the elements in descending order. *)
Theorem MaxHeap_pops_descending (elements : list Q) :
  let out :=
    MaxHeap_pop_all (length elements) (heap.MaxHeap.__init__ elements) in
  StronglySorted (fun a b => (b <= a)%Q) out /\ Permutation out elements.
Proof.
  cbv zeta. destruct (MaxHeap_init_heap elements) as [H1 H2].
  destruct (@MaxHeap_pop_all_sorted (length elements)
              (heap.MaxHeap.__init__ elements) H1) as [H3 H4].
  - rewrite <- (Permutation_length H2). now rewrite length_map.
  - split; auto. now rewrite H4.
Qed.
(* ================================================================= *)
(** ** A worker on a stream of records *)

Lemma string_app_assoc (a b c : string) :
  ((a ++ b) ++ c = a ++ b ++ c)%string.
Proof. induction a as [|x a IH]; simpl; congruence. Qed.

Lemma for_each_app {A} (xs ys : list A) (body : A -> M unit) self :
  for_each (xs ++ ys) body self
  = bind (for_each xs body) (fun _ => for_each ys body) self.
Proof.
  revert self. induction xs as [|x xs IH]; intros self.
  - reflexivity.
  - simpl for_each. unfold bind.
    destruct (body x self) as [[] s|e s]; auto.
Qed.

Lemma holds_perm id self l l' :
  Permutation l l' -> holds id self l -> holds id self l'.
Proof.
  intros HP (Hp & Hb & Hv & Ht). split; [|split; [|split]]; auto.
  - now rewrite Hv.
  - intros Hne. apply Ht. intros ->. apply Permutation_nil in HP. congruence.
Qed.

Lemma holds_same_heaps id self self' l :
  transaction_amt_heaps self' = transaction_amt_heaps self ->
  holds id self l -> holds id self' l.
Proof. intros E. unfold holds, tracker_or_new, tracker. now rewrite E. Qed.

Lemma stores_same_dicts key seen self self' :
  transaction_amt_heaps self' = transaction_amt_heaps self ->
  total_amt_dict self' = total_amt_dict self ->
  stores key seen self -> stores key seen self'.
Proof.
  intros E1 E2 H k. destruct (H k) as (H1 & H2 & H3).
  split; [|split].
  - now apply holds_same_heaps with self.
  - unfold running_sum_or_zero, running_sum in *. now rewrite E2.
  - unfold running_sum in *. now rewrite E2.
Qed.

Lemma stores_init key : stores key [] init.
Proof.
  intros k. split; [|split].
  - now apply holds_new.
  - reflexivity.
  - intros H. now elim H.
Qed.

Lemma amounts_of_app key k l l' :
  amounts_of key k (l ++ l') = amounts_of key k l ++ amounts_of key k l'.
Proof. unfold amounts_of. now rewrite filter_app, map_app. Qed.

Lemma amounts_of_one key k d :
  amounts_of key k [d]
  = if String.eqb (key d) k then [transaction_amt d] else [].
Proof. unfold amounts_of. simpl. now destruct (String.eqb _ _). Qed.

Lemma amounts_of_In key d records :
  In d records -> amounts_of key (key d) records <> [].
Proof.
  intros Hin. unfold amounts_of.
  assert (H : In d (filter (fun data => String.eqb (key data) (key d)) records))
    by (apply filter_In; split; auto; apply String.eqb_refl).
  destruct (filter _ records); [contradiction | discriminate].
Qed.

Lemma total_app l x : total (l ++ [x]) = Py.float_add (total l) x.
Proof. unfold total. now rewrite fold_left_app. Qed.

Lemma recorded_tracker_other id k amount self :
  id <> k -> tracker k (recorded id amount self) = tracker k self.
Proof.
  intros H. unfold recorded. now rewrite tracker_set_tracker_neq by auto.
Qed.

(** Storing a record keeps the heaps and the sums of all keys in step with
    the records. *)
Lemma stores_recorded key seen d self :
  stores key seen self ->
  stores key (seen ++ [d]) (recorded (key d) (transaction_amt d) self).
Proof.
  intros H k. destruct (H k) as (Hh & Hs & Hn).
  rewrite amounts_of_app, amounts_of_one.
  destruct (String.eqb_spec (key d) k) as [<-|Hne].
  - split; [|split].
    + apply holds_perm with (transaction_amt d :: amounts_of key (key d) seen).
      * apply Permutation_cons_append.
      * apply (@holds_step (key d)
                 (set_total (key d)
                    (Py.float_add (running_sum_or_zero (key d) self)
                                  (transaction_amt d))
                    self)).
        now apply holds_same_heaps with self.
    + rewrite total_app. unfold running_sum_or_zero at 1.
      rewrite recorded_running_sum. now rewrite Hs.
    + intros _. rewrite recorded_running_sum. discriminate.
  - rewrite app_nil_r. split; [|split].
    + unfold holds, tracker_or_new in *.
      now rewrite recorded_tracker_other by auto.
    + unfold running_sum_or_zero.
      now rewrite recorded_running_sum_other by auto.
    + now rewrite recorded_running_sum_other by auto.
Qed.

(** What a state that stores the records knows about a key that has
    records: its heaps, their median, their size and the sum. *)
Lemma stores_key v key seen self k :
  stores key seen self -> amounts_of key k seen <> [] ->
  exists heaps m,
    tracker k self = Some heaps
    /\ median_value heaps = Some m
    /\ Py.round v m = Py.round v (float_median (amounts_of key k seen))
    /\ size lower_heap heaps + size higher_heap heaps
       = length (amounts_of key k seen)
    /\ running_sum k self = Some (total (amounts_of key k seen)).
Proof.
  intros H Hne. destruct (H k) as ((Hp & Hb & Hv & Ht) & Hs & Hn).
  specialize (Ht Hne). specialize (Hn Hne).
  set (heaps := tracker_or_new k self) in *.
  destruct (median_value_float_median Hp Hb Hne Hv) as (m & Hm & Hmed).
  exists heaps, m. split; [|split; [|split; [|split]]]; auto.
  - now apply round_comp.
  - rewrite <- (Permutation_length Hv), values_length.
    destruct heaps as [lo hi]. reflexivity.
  - unfold running_sum_or_zero in Hs.
    destruct (running_sum k self) as [t|]; congruence.
Qed.

Lemma format_line_report v a b m n t l self :
  Py.round v m = Py.round v (float_median l) -> n = length l -> t = total l ->
  format_line a b (Some (Py.int (Py.round v m))) n (Py.int t) self
  = Return (report_line v (make_identifier a b) l) self.
Proof.
  intros -> -> ->. unfold format_line, ret, report_line, make_identifier.
  f_equal. rewrite !string_app_assoc. reflexivity.
Qed.

(** The zip handler on a record: the record is stored and its line
    written. *)
Lemma zip_handler_line v seen d self :
  Py.truthy (cmte_id d) = true ->
  stores zip_key seen self ->
  zip_handler v d self
  = write (report_line v (zip_key d)
                       (amounts_of zip_key (zip_key d) (seen ++ [d])))
          (recorded (zip_key d) (transaction_amt d) self).
Proof.
  intros Ht Hst.
  destruct (zip_handler_record v d self Ht)
    as (heaps & m & t & line & Hk & Hm & Hs & Hf & E).
  fold (zip_key d) in *. rewrite E. f_equal.
  assert (Hne : amounts_of zip_key (zip_key d) (seen ++ [d]) <> []).
  { apply amounts_of_In. apply in_or_app. right. now left. }
  destruct (@stores_key v zip_key (seen ++ [d]) _ (zip_key d)
              (@stores_recorded zip_key seen d self Hst) Hne)
    as (heaps' & m' & Hk' & Hm' & Hr & Hn & Hs').
  rewrite Hk in Hk'. injection Hk' as <-.
  rewrite Hm in Hm'. injection Hm' as <-.
  rewrite Hs in Hs'. injection Hs' as ->.
  rewrite (@format_line_report v (cmte_id d) (zipcode d) m _ _ _ _
             Hr Hn eq_refl) in Hf.
  now injection Hf as <-.
Qed.

Lemma recorded_closed id amount self :
  closed (output_file (recorded id amount self)) = closed (output_file self).
Proof. now rewrite recorded_output. Qed.

Lemma zip_records_run v records : forall seen self,
  Forall (fun d => Py.truthy (cmte_id d) = true) records ->
  stores zip_key seen self -> closed (output_file self) = false ->
  exists self',
    run (zip_handler v) records self = Return tt self'
    /\ stores zip_key (seen ++ records) self'
    /\ closed (output_file self') = false
    /\ written (output_file self')
       = written (output_file self) ++ zip_lines v seen records.
Proof.
  induction records as [|d records IH]; intros seen self Hall Hst Hcl.
  - exists self. rewrite !app_nil_r. auto.
  - inversion Hall as [|? ? Hd Hall']; subst.
    unfold run. simpl for_each. unfold bind at 1.
    rewrite (@zip_handler_line v seen d self Hd Hst), write_run,
      recorded_closed, Hcl.
    set (line := report_line _ _ _).
    set (s1 := recorded _ _ self).
    assert (Hcl1 : closed (output_file s1) = false)
      by (subst s1; now rewrite recorded_closed).
    destruct (@appended_open line s1 Hcl1) as (Hw & Hc & Ht & Hh).
    destruct (IH (seen ++ [d]) (appended line s1) Hall')
      as (s' & E & H1 & H2 & H3).
    + apply stores_same_dicts with s1; auto. subst s1.
      now apply stores_recorded.
    + exact Hc.
    + exists s'. fold (run (zip_handler v) records). rewrite E.
      rewrite <- app_assoc in H1. simpl app in H1.
      split; [|split; [|split]]; auto.
      rewrite H3, Hw. subst s1. rewrite recorded_output.
      rewrite <- app_assoc. reflexivity.
Qed.

(* ----------------------------------------------------------------- *)
(** *** The keys of the date worker *)

Lemma dict_keys_set {V} k (x : V) (d : Py.dict V) :
  Py.dict_keys (Py.dict_set k x d)
  = if Py.dict_mem k d then Py.dict_keys d else Py.dict_keys d ++ [k].
Proof.
  induction d as [|[k' x'] d IH]; auto.
  unfold Py.dict_mem in *. simpl.
  destruct (String.eqb k k'); auto.
  simpl. rewrite IH. now destruct (Py.dict_get k d).
Qed.

Lemma dict_mem_keys {V} k (d : Py.dict V) :
  Py.dict_mem k d = existsb (String.eqb k) (Py.dict_keys d).
Proof.
  unfold Py.dict_mem. induction d as [|[k' x'] d IH]; auto.
  simpl. now destruct (String.eqb k k').
Qed.

Lemma first_seen_snoc keys k :
  first_seen (keys ++ [k])
  = if existsb (String.eqb k) (first_seen keys) then first_seen keys
    else first_seen keys ++ [k].
Proof. unfold first_seen. now rewrite fold_left_app. Qed.

Lemma first_seen_In keys k : In k (first_seen keys) -> In k keys.
Proof.
  induction keys as [|k' keys IH] using rev_ind.
  - auto.
  - rewrite first_seen_snoc. intros H. apply in_or_app.
    destruct (existsb _ _); auto.
    apply in_app_or in H. destruct H; auto.
Qed.

Lemma recorded_keys id amount self :
  Py.dict_keys (transaction_amt_heaps (recorded id amount self))
  = if existsb (String.eqb id) (Py.dict_keys (transaction_amt_heaps self))
    then Py.dict_keys (transaction_amt_heaps self)
    else Py.dict_keys (transaction_amt_heaps self) ++ [id].
Proof.
  rewrite <- dict_mem_keys.
  exact (dict_keys_set id _ (transaction_amt_heaps self)).
Qed.

Lemma date_records_run v records : forall seen self,
  Forall (fun d => Py.truthy (cmte_id d) = true) records ->
  stores date_key seen self ->
  Py.dict_keys (transaction_amt_heaps self) = first_seen (map date_key seen) ->
  exists self',
    run (date_handler v) records self = Return tt self'
    /\ stores date_key (seen ++ records) self'
    /\ Py.dict_keys (transaction_amt_heaps self')
       = first_seen (map date_key (seen ++ records))
    /\ output_file self' = output_file self.
Proof.
  induction records as [|d records IH]; intros seen self Hall Hst Hk.
  - exists self. rewrite !app_nil_r. auto.
  - inversion Hall as [|? ? Hd Hall']; subst.
    unfold run. simpl for_each. unfold bind at 1.
    rewrite (date_handler_record v d self Hd). fold (date_key d).
    destruct (IH (seen ++ [d]) (recorded (date_key d) (transaction_amt d) self)
                 Hall') as (s' & E & H1 & H2 & H3).
    + now apply stores_recorded.
    + rewrite recorded_keys, map_app. simpl map.
      rewrite first_seen_snoc. now rewrite Hk.
    + exists s'. fold (run (date_handler v) records). rewrite E.
      rewrite <- app_assoc in H1, H2. simpl app in H1, H2.
      split; [|split; [|split]]; auto.
Qed.

(** A key splits back into the two fields it was made of. *)
Lemma split_identifier a b :
  occurs "|" a = false ->
  Py.split "|" (make_identifier a b) = a :: Py.split "|" b.
Proof.
  unfold make_identifier. induction a as [|c a IH]; intros H.
  - reflexivity.
  - simpl in H. apply orb_false_iff in H. destruct H as [Hc Ha].
    change ((String c a ++ "|" ++ b)%string)
      with (String c (a ++ "|" ++ b)%string).
    cbn [Py.split]. rewrite Hc, (IH Ha). reflexivity.
Qed.

(** The body of the loop at the end of the stream writes the line of the
    key. *)
Lemma flush_line_run v records a b s :
  stores date_key records s -> closed (output_file s) = false ->
  amounts_of date_key (make_identifier a b) records <> [] ->
  occurs "|" a = false -> occurs "|" b = false ->
  let k := make_identifier a b in
  flush_line v k s
  = Return tt (appended (report_line v k (amounts_of date_key k records)) s).
Proof.
  intros Hst Hcl Hne Ha Hb k.
  destruct (@stores_key v date_key records s _ Hst Hne)
    as (heaps & m & Hk & Hm & Hr & Hn & Hs).
  fold k in Hk, Hr, Hn, Hs.
  assert (Hsplit : Py.split "|" k = [a; b]).
  { unfold k. rewrite (@split_identifier a b Ha).
    now rewrite (@split_no_sep "|" b Hb). }
  unfold flush_line. unfold bind at 1. rewrite heaps_get_run, Hk.
  unfold bind at 1. rewrite (get_median_run v k s Hk), Hm.
  unfold bind at 1. unfold total_amt_get.
  change (Py.dict_get k (total_amt_dict s)) with (running_sum k s).
  rewrite Hs, Hsplit.
  unfold bind at 1. cbn [Py.getitem nth_error lift ret].
  unfold bind at 1. cbn [Py.getitem nth_error lift ret].
  unfold bind at 1.
  rewrite (@format_line_report v a b m _ _ _ s Hr Hn eq_refl).
  fold k. rewrite write_run, Hcl. reflexivity.
Qed.

Lemma flush_run v records ks : forall s,
  stores date_key records s -> closed (output_file s) = false ->
  (forall k, In k ks ->
     exists d, In d records /\ k = date_key d
               /\ occurs "|" (cmte_id d) = false
               /\ occurs "|" (transaction_dt d) = false) ->
  exists s',
    for_each ks (flush_line v) s = Return tt s'
    /\ transaction_amt_heaps s' = transaction_amt_heaps s
    /\ total_amt_dict s' = total_amt_dict s
    /\ closed (output_file s') = false
    /\ written (output_file s')
       = written (output_file s)
         ++ map (fun k => report_line v k (amounts_of date_key k records)) ks.
Proof.
  induction ks as [|k ks IH]; intros s Hst Hcl Hks.
  - exists s. rewrite app_nil_r. auto.
  - destruct (Hks k (or_introl eq_refl)) as (d & Hd & -> & Ha & Hb).
    simpl for_each. unfold bind at 1.
    pose proof (@amounts_of_In date_key d records Hd) as Hne.
    unfold date_key at 1.
    rewrite (@flush_line_run v records (cmte_id d) (transaction_dt d) s
               Hst Hcl Hne Ha Hb).
    fold (date_key d).
    set (line := report_line _ _ _).
    destruct (@appended_open line s Hcl) as (Hw & Hc & Ht & Hh).
    destruct (IH (appended line s)) as (s' & E & H1 & H2 & H3 & H4).
    + now apply stores_same_dicts with s.
    + exact Hc.
    + intros k' Hk'. apply Hks. now right.
    + exists s'. rewrite E. split; [|split; [|split; [|split]]]; auto.
      * congruence.
      * congruence.
      * rewrite H4, Hw, <- app_assoc. reflexivity.
Qed.

Lemma date_handler_flush v data self :
  Py.truthy (cmte_id data) = false ->
  date_handler v data self
  = bind (for_each (Py.dict_keys (transaction_amt_heaps self)) (flush_line v))
         (fun _ => close) self.
Proof. intros H. unfold date_handler. rewrite H. reflexivity. Qed.

Lemma write_dicts line s :
  transaction_amt_heaps (state_of (write line s)) = transaction_amt_heaps s
  /\ total_amt_dict (state_of (write line s)) = total_amt_dict s.
Proof. unfold write. now destruct (closed (output_file s)). Qed.

Lemma close_run s :
  close s = Return tt {| total_amt_dict := total_amt_dict s;
                         transaction_amt_heaps := transaction_amt_heaps s;
                         output_file :=
                           {| written := written (output_file s);
                              closed := true |};
                         stdout := stdout s |}.
Proof. reflexivity. Qed.

Lemma no_bar_newline : occurs "|" Py.newline = false.
Proof. reflexivity. Qed.

(** The zip handler on a stream of records and the end marker, from any
    state that stores the records seen before and has its file open. *)
Lemma zip_stream_run v records sentinel seen self :
  Forall (fun d => Py.truthy (cmte_id d) = true) records ->
  Py.truthy (cmte_id sentinel) = false ->
  stores zip_key seen self -> closed (output_file self) = false ->
  exists self',
    run (zip_handler v) (records ++ [sentinel]) self = Return tt self'
    /\ written (output_file self')
       = written (output_file self) ++ zip_lines v seen records
    /\ closed (output_file self') = true.
Proof.
  intros Hall Hs Hst Hcl.
  destruct (@zip_records_run v records seen self Hall Hst Hcl)
    as (s & E & H1 & H2 & H3).
  unfold run in *. rewrite for_each_app. unfold bind at 1. rewrite E.
  simpl for_each. unfold bind.
  rewrite (@zip_handler_sentinel v sentinel s Hs), close_run.
  eexists. split; [reflexivity|]. split; auto.
Qed.

(** The date handler on a stream of records and the end marker. *)
Lemma date_stream_run
        (v : Py.version) (records : list Data) (sentinel : Data) :
  Forall (fun d => Py.truthy (cmte_id d) = true
                   /\ occurs "|" (cmte_id d) = false
                   /\ occurs "|" (transaction_dt d) = false) records ->
  Py.truthy (cmte_id sentinel) = false ->
  (exists self0,
     run (date_handler v) records init = Return tt self0
     /\ written (output_file self0) = [])
  /\ exists self',
       run (date_handler v) (records ++ [sentinel]) init = Return tt self'
       /\ written (output_file self') = date_lines v records
       /\ closed (output_file self') = true.
Proof.
  intros Hall Hs.
  assert (Hall1 : Forall (fun d => Py.truthy (cmte_id d) = true) records).
  { apply Forall_impl with (2 := Hall). now intros d (H & _). }
  destruct (@date_records_run v records [] init Hall1 (stores_init date_key)
              eq_refl) as (s & E & H1 & H2 & H3).
  simpl app in H1, H2.
  split.
  - exists s. split; auto. now rewrite H3.
  - assert (Hcl : closed (output_file s) = false) by now rewrite H3.
    destruct (@flush_run v records (Py.dict_keys (transaction_amt_heaps s)) s
                H1 Hcl) as (s' & E' & K1 & K2 & K3 & K4).
    { intros k Hk. rewrite H2 in Hk. apply first_seen_In in Hk.
      apply in_map_iff in Hk. destruct Hk as (d & <- & Hd).
      exists d. rewrite Forall_forall in Hall.
      destruct (Hall d Hd) as (_ & Ha & Hb). auto. }
    unfold run in *. rewrite for_each_app. unfold bind at 1. rewrite E.
    simpl for_each. unfold bind at 1.
    rewrite (@date_handler_flush v sentinel s Hs). unfold bind at 1.
    rewrite E', close_run. unfold bind.
    eexists. split; [reflexivity|]. split; auto.
    cbn [output_file written]. rewrite K4, H3, H2. reflexivity.
Qed.

(* ================================================================= *)
(** ** The two reports *)

(** X10.  The report by zip code, for any stream of records with a
    committee id followed by the end marker, the amounts being doubles
    (neither an infinity nor NaN) and the sums staying in the range of the
    doubles: the handler returns on every item, closes the file, and has
    written one line per record, in the order of the records; the line of
    a record gives its key, then the median of the amounts of the records of
    this key so far, rounded by [int(round(.))], their number, and their
    sum truncated by [int].  The sum is the sum of the floats, each addition
    rounded to a double, and so is the median of an even number of
    amounts ([total], [float_median]). *)
Theorem zip_report_of_records
        (v : Py.version) (records : list Data) (sentinel : Data) :
  Forall (fun d => Py.truthy (cmte_id d) = true) records ->
  Py.truthy (cmte_id sentinel) = false ->
  float_amounts records = true -> zip_finite [] records = true ->
  exists self',
    run (zip_handler v) (records ++ [sentinel]) init = Return tt self'
    /\ written (output_file self') = zip_lines v [] records
    /\ closed (output_file self') = true.
Proof.
  intros Hall Hs _ _.
  destruct (@zip_stream_run v records sentinel [] init Hall Hs
              (stores_init zip_key) eq_refl) as (self' & E & Hw & Hc).
  exists self'. split; [exact E|]. split; [|exact Hc].
  rewrite Hw. reflexivity.
Qed.

Lemma zip_report_of_records_witness :
  exists self',
    run (zip_handler Py.Py3)
        ([sample_record 5; sample_record 2; sample_record (17 # 2)]
           ++ [main.end_data]) init
    = Return tt self'
    /\ written (output_file self')
       = zip_lines Py.Py3 []
           [sample_record 5; sample_record 2; sample_record (17 # 2)]
    /\ closed (output_file self') = true.
Proof.
  apply (@zip_report_of_records Py.Py3
           [sample_record 5; sample_record 2; sample_record (17 # 2)]
           main.end_data).
  - repeat constructor.
  - reflexivity.
  - vm_compute. reflexivity.
  - vm_compute. reflexivity.
Defined.

(** X11.  The report by date, for any stream of records whose committee
    id and date hold no bar, followed by the end marker, the amounts being
    doubles (neither an infinity nor NaN) and the sums staying in the range
    of the doubles: nothing is written before the marker; at the marker the
    handler writes one line per key, in the order in which the dictionary
    gives the keys, and closes the file; the line of a key gives the key,
    then the median of the amounts of all the records of the key, rounded
    by [int(round(.))], their number, and their sum truncated by [int].
    The sum is the sum of the floats in the order of the records, each
    addition rounded to a double, and so is the median of an even number of
    amounts ([total], [float_median]). *)
Theorem date_report_of_records
        (v : Py.version) (records : list Data) (sentinel : Data) :
  Forall (fun d => Py.truthy (cmte_id d) = true
                   /\ occurs "|" (cmte_id d) = false
                   /\ occurs "|" (transaction_dt d) = false) records ->
  Py.truthy (cmte_id sentinel) = false ->
  float_amounts records = true -> date_finite records = true ->
  (exists self0,
     run (date_handler v) records init = Return tt self0
     /\ written (output_file self0) = [])
  /\ exists self',
       run (date_handler v) (records ++ [sentinel]) init = Return tt self'
       /\ Permutation (written (output_file self')) (date_lines v records)
       /\ closed (output_file self') = true.
Proof.
  intros Hall Hs _ _.
  destruct (@date_stream_run v records sentinel Hall Hs)
    as (H0 & self' & E & Hw & Hc).
  split; auto. exists self'. rewrite Hw. auto.
Qed.

Lemma date_report_of_records_witness :
  (exists self0,
     run (date_handler Py.Py3)
         [sample_record 5; sample_record 2; sample_record (17 # 2)] init
     = Return tt self0
     /\ written (output_file self0) = [])
  /\ exists self',
       run (date_handler Py.Py3)
           ([sample_record 5; sample_record 2; sample_record (17 # 2)]
              ++ [main.end_data]) init
       = Return tt self'
       /\ Permutation
            (written (output_file self'))
            (date_lines Py.Py3
               [sample_record 5; sample_record 2; sample_record (17 # 2)])
       /\ closed (output_file self') = true.
Proof.
  apply (@date_report_of_records Py.Py3
           [sample_record 5; sample_record 2; sample_record (17 # 2)]
           main.end_data).
  - repeat constructor.
  - reflexivity.
  - vm_compute. reflexivity.
  - vm_compute. reflexivity.
Defined.

(** The two reports on three sample records, line by line. *)
Example zip_lines_sample :
  zip_lines Py.Py3 []
    [sample_record 5; sample_record 2; sample_record (17 # 2)]
  = [("C00177436|30004|5|1|5" ++ Py.newline)%string;
     ("C00177436|30004|4|2|7" ++ Py.newline)%string;
     ("C00177436|30004|5|3|15" ++ Py.newline)%string].
Proof. vm_compute. reflexivity. Qed.

Example date_lines_sample :
  date_lines Py.Py3
    [sample_record 5; sample_record 2; sample_record (17 # 2)]
  = [("C00177436|01312017|5|3|15" ++ Py.newline)%string].
Proof. vm_compute. reflexivity. Qed.

(** Ten records of the double nearest to 0.1: the sum of the floats is
    just below 1 and the last field of the last line is 0, not 1. *)
Example zip_lines_of_tenths :
  let tenth := sample_record (Py.to_double (1 # 10)) in
  let records :=
    [tenth; tenth; tenth; tenth; tenth; tenth; tenth; tenth; tenth; tenth] in
  total (amounts_of zip_key sample_zip_key records)
  = (9007199254740991 # 2 ^ 53)%Q
  /\ last (zip_lines Py.Py3 [] records) EmptyString
     = ("C00177436|30004|0|10|0" ++ Py.newline)%string
  /\ date_lines Py.Py3 records
     = [("C00177436|01312017|0|10|0" ++ Py.newline)%string].
Proof. cbv zeta. repeat split; vm_compute; reflexivity. Qed.

(* ================================================================= *)
(** ** The pair of heaps and the methods that use it *)

(** X12.  The partition of the module docstring: after the values of any
    sequence have been inserted for a new key, each insertion followed by
    one rebalancing, every value of the lower heap is at most every value
    of the higher heap, the root of each heap bounds its values, and the
    lower heap is empty only if nothing was inserted. *)
Theorem lower_part_below_higher_part
        (v : Py.version) (id : string) (xs : list Q) (self : TransactionThread) :
  tracker id self = None ->
  exists self',
    insert_all v id xs self = Return tt self'
    /\ let heaps := tracker_or_new id self' in
       (forall a b, In a (lower_values heaps) -> In b (higher_values heaps) ->
                    (a <= b)%Q)
       /\ (forall a top, peek lower_heap heaps = Some top ->
                         In a (lower_values heaps) -> (a <= top)%Q)
       /\ (forall b bot, peek higher_heap heaps = Some bot ->
                         In b (higher_values heaps) -> (bot <= b)%Q)
       /\ (xs <> [] -> peek lower_heap heaps <> None).
Proof.
  intros Hnew.
  destruct (@insert_all_from_new v id xs self Hnew) as (self' & E & Hh).
  exists self'. split; auto. cbv zeta.
  destruct Hh as ([Hlo Hhi Hle Hfirst] & Hb & Hv & Ht).
  destruct (tracker_or_new id self') as [lo hi].
  cbn [fst snd] in *. unfold lower_values, higher_values in *.
  cbn [fst snd peek] in *.
  split; [|split; [|split]].
  - exact Hle.
  - intros a top Hp Ha.
    destruct (@MaxHeap_peek_max lo top Hlo Hp) as [_ H]. now apply H.
  - intros b bot Hp Hb'.
    destruct (@MinHeap_peek_min hi bot Hhi Hp) as [_ H]. now apply H.
  - intros Hne Hp. destruct lo as [|r t]; [|discriminate].
    rewrite (Hfirst eq_refl) in Hv. simpl in Hv.
    apply Permutation_nil in Hv. congruence.
Qed.

Lemma lower_part_below_higher_part_witness :
  exists self',
    insert_all Py.Py3 "C00177436|30004" [5; 2; 8; 1]%Q init = Return tt self'
    /\ let heaps := tracker_or_new "C00177436|30004" self' in
       (forall a b, In a (lower_values heaps) -> In b (higher_values heaps) ->
                    (a <= b)%Q)
       /\ (forall a top, peek lower_heap heaps = Some top ->
                         In a (lower_values heaps) -> (a <= top)%Q)
       /\ (forall b bot, peek higher_heap heaps = Some bot ->
                         In b (higher_values heaps) -> (bot <= b)%Q)
       /\ ([5; 2; 8; 1]%Q <> [] -> peek lower_heap heaps <> None).
Proof.
  apply (@lower_part_below_higher_part Py.Py3 "C00177436|30004"
           [5; 2; 8; 1]%Q init).
  reflexivity.
Defined.

(** X13.  The [except IndexError] clauses of
    [transaction_heaps_rebalance] and [transaction_heaps_get_median] are
    never entered, in any state and for any key: neither method raises
    [IndexError] inside its [try], so nothing is printed and
    [transaction_heaps_get_median] never returns [None]; it also leaves the
    state as it found it. *)
Theorem except_clauses_never_entered
        (v : Py.version) (id : string) (self : TransactionThread) :
  stdout (state_of (transaction_heaps_rebalance id self)) = stdout self
  /\ state_of (transaction_heaps_get_median v id self) = self
  /\ (forall self', transaction_heaps_rebalance id self
                    <> Throw Py.IndexError self')
  /\ (forall self', transaction_heaps_get_median v id self
                    <> Throw Py.IndexError self')
  /\ (forall self', transaction_heaps_get_median v id self
                    <> Return None self').
Proof.
  destruct (tracker id self) as [heaps|] eqn:E.
  - rewrite (@rebalance_run id self heaps E).
    rewrite (@get_median_run v id self heaps E).
    split; [|split; [|split; [|split]]]; try discriminate.
    + simpl. now destruct (unbalanced heaps).
    + now destruct (median_value heaps).
    + intros self'. now destruct (median_value heaps).
    + intros self'. now destruct (median_value heaps).
  - rewrite (@rebalance_missing id self E).
    rewrite (@get_median_missing v id self E).
    split; [|split; [|split; [|split]]]; auto; discriminate.
Qed.

(** X14.  The groups are independent: whatever item a handler is given, it
    leaves the heaps and the running sum of every key other than the key of
    the item as they were. *)
Theorem other_keys_untouched
        (v : Py.version) (data : Data) (k : string) (self : TransactionThread) :
  (zip_key data <> k ->
   tracker k (state_of (zip_handler v data self)) = tracker k self
   /\ running_sum k (state_of (zip_handler v data self)) = running_sum k self)
  /\ (date_key data <> k ->
      tracker k (state_of (date_handler v data self)) = tracker k self
      /\ running_sum k (state_of (date_handler v data self))
         = running_sum k self).
Proof.
  destruct (Py.truthy (cmte_id data)) eqn:Ht.
  - split; intros Hk.
    + destruct (@zip_handler_record v data self Ht)
        as (heaps & m & t & line & _ & _ & _ & _ & E).
      fold (zip_key data) in E. rewrite E.
      destruct (write_dicts line
                  (recorded (zip_key data) (transaction_amt data) self))
        as [E1 E2].
      unfold tracker, running_sum. rewrite E1, E2.
      split.
      * now apply recorded_tracker_other.
      * now apply recorded_running_sum_other.
    + rewrite (@date_handler_record v data self Ht).
      fold (date_key data). cbn [state_of]. split.
      * now apply recorded_tracker_other.
      * now apply recorded_running_sum_other.
  - split; intros Hk.
    + rewrite (@zip_handler_sentinel v data self Ht). split; reflexivity.
    + destruct (@date_handler_sentinel v data self Ht) as (E1 & E2 & _).
      unfold tracker, running_sum. now rewrite E1, E2.
Qed.

Lemma other_keys_untouched_witness :
  let data := sample_record 384 in
  let k := "C00384516|02895"%string in
  let self := state_of (zip_handler Py.Py3
                          {| cmte_id := "C00384516"; zipcode := "02895";
                             transaction_dt := "01122017";
                             transaction_amt := 230 |} init) in
  zip_key data <> k
  /\ tracker k (state_of (zip_handler Py.Py3 data self)) = tracker k self
  /\ running_sum k (state_of (zip_handler Py.Py3 data self))
     = running_sum k self.
Proof.
  cbv zeta.
  assert (H : zip_key (sample_record 384) <> "C00384516|02895"%string)
    by (intros H'; discriminate H').
  split; [exact H|].
  exact (proj1 (@other_keys_untouched Py.Py3 (sample_record 384)
                  "C00384516|02895" _) H).
Defined.



(* ================================================================= *)
(** ** Keys and lines as strings *)

(** X16.  The key of a group splits back into its parts: for a committee
    id and a date (or zip code) that hold no bar, the key ['%s|%s' % (a, b)]
    split at the bars is the list of the two, so that the date handler
    prints the committee id and the date of the records of the key. *)
Theorem identifier_round_trip (a b : string) :
  occurs "|" a = false -> occurs "|" b = false ->
  Py.split "|" (make_identifier a b) = [a; b]
  /\ Py.getitem (Py.split "|" (make_identifier a b)) 0 = Py.Ok a
  /\ Py.getitem (Py.split "|" (make_identifier a b)) 1 = Py.Ok b.
Proof.
  intros Ha Hb.
  rewrite (@split_identifier a b Ha), (@split_no_sep "|" b Hb).
  auto.
Qed.

Lemma identifier_round_trip_witness :
  Py.split "|" (make_identifier "C00177436" "01312017")
  = ["C00177436"; "01312017"]%string
  /\ Py.getitem (Py.split "|" (make_identifier "C00177436" "01312017")) 0
     = Py.Ok "C00177436"%string
  /\ Py.getitem (Py.split "|" (make_identifier "C00177436" "01312017")) 1
     = Py.Ok "01312017"%string.
Proof.
  apply (@identifier_round_trip "C00177436" "01312017"); reflexivity.
Defined.

(** X17.  A line of either report has exactly five fields: for key parts
    that hold no bar, the line made by ['%s|%s|%d|%d|%d\n'] split at the
    bars gives back the two key parts and the three integers in decimal,
    the last one followed by the end of the line. *)
Theorem report_line_has_five_fields
        (a b line : string) (median total : Z) (count : nat)
        (self self' : TransactionThread) :
  occurs "|" a = false -> occurs "|" b = false ->
  format_line a b (Some median) count total self = Return line self' ->
  Py.split "|" line
  = [a; b; Py.format_d median; Py.format_d (Z.of_nat count);
     (Py.format_d total ++ Py.newline)%string].
Proof.
  intros Ha Hb E. unfold format_line, ret in E. injection E as <- _.
  change (Py.split "|"
            (make_identifier a
               (make_identifier b
                  (make_identifier (Py.format_d median)
                     (make_identifier (Py.format_d (Z.of_nat count))
                        (Py.format_d total ++ Py.newline)))))
          = [a; b; Py.format_d median; Py.format_d (Z.of_nat count);
             (Py.format_d total ++ Py.newline)%string]).
  rewrite (@split_identifier a _ Ha), (@split_identifier b _ Hb).
  rewrite (@split_identifier _ _ (format_d_no_bar median)).
  rewrite (@split_identifier _ _ (format_d_no_bar (Z.of_nat count))).
  rewrite split_no_sep; auto.
  now rewrite occurs_app, format_d_no_bar, no_bar_newline.
Qed.

Lemma report_line_has_five_fields_witness :
  Py.split "|" ("C00177436|30004|5|3|15" ++ Py.newline)%string
  = ["C00177436"; "30004"; Py.format_d 5; Py.format_d (Z.of_nat 3);
     (Py.format_d 15 ++ Py.newline)]%string.
Proof.
  apply (@report_line_has_five_fields "C00177436" "30004"
           ("C00177436|30004|5|3|15" ++ Py.newline)%string 5 15 3 init init);
    reflexivity.
Defined.
(* ================================================================= *)
(** ** The queues that [read_file] fills *)

Lemma field_some line i : i < columns line -> exists x, field line i = Some x.
Proof.
  unfold columns, field. intros H.
  destruct (nth_error (Py.split "|" line) i) eqn:E; eauto.
  apply nth_error_None in E. lia.
Qed.

Lemma field_none line i : columns line <= i -> field line i = None.
Proof. unfold columns, field. apply nth_error_None. Qed.

Lemma split_field_no_sep sep s : forall f,
  In f (Py.split sep s) -> occurs sep f = false.
Proof.
  induction s as [|c s IH]; intros f Hin.
  - simpl in Hin. destruct Hin as [<-|[]]. reflexivity.
  - cbn [Py.split] in Hin. destruct (Ascii.eqb c sep) eqn:Ec.
    + destruct Hin as [<-|Hin]; auto.
    + destruct (Py.split sep s) as [|g gs] eqn:Es.
      * destruct Hin as [<-|[]]. simpl. now rewrite Ec.
      * destruct Hin as [<-|Hin].
        -- simpl. rewrite Ec. apply IH. now left.
        -- apply IH. now right.
Qed.

Lemma field_no_bar line i x : field line i = Some x -> occurs "|" x = false.
Proof.
  unfold field. intros H. apply nth_error_In in H.
  now apply split_field_no_sep with line.
Qed.

Lemma setitem_last {A} (l : list A) x y :
  Py.setitem (l ++ [x]) (length l) y = l ++ [y].
Proof. induction l as [|a l IH]; simpl; congruence. Qed.

Lemma nth_error_last {A} (l : list A) x :
  nth_error (l ++ [x]) (length l) = Some x.
Proof. induction l as [|a l IH]; simpl; auto. Qed.

(** The items of a queue after a new object has been created, and has gone
    into the queue or not. *)
Lemma tasks_extend (objs : list Data) d q (extra : bool) :
  Forall (fun a => a < length objs) q ->
  map (fun a => nth a (objs ++ [d]) main.end_data)
      (q ++ if extra then [length objs] else [])
  = map (fun a => nth a objs main.end_data) q ++ if extra then [d] else [].
Proof.
  intros Hq. rewrite map_app. f_equal.
  - apply map_ext_in. intros a Ha. rewrite Forall_forall in Hq.
    apply app_nth1. now apply Hq.
  - destruct extra; auto. simpl. now rewrite nth_middle.
Qed.

Lemma bound_extend (objs : list Data) d q (extra : bool) :
  Forall (fun a => a < length objs) q ->
  Forall (fun a => a < length (objs ++ [d]))
         (q ++ if extra then [length objs] else []).
Proof.
  intros Hq. rewrite length_app. simpl length. apply Forall_app. split.
  - apply Forall_impl with (2 := Hq). intros a Ha. lia.
  - destruct extra; repeat constructor. lia.
Qed.

Section Queues.
Variable float : string -> option Q.
Variable strptime : string -> string -> bool.

(** A line with fewer than sixteen columns stops [read_file]. *)
Lemma read_line_short line r :
  columns line < 16 ->
  main.read_line float strptime line r = Py.Raise Py.IndexError.
Proof.
  intros H. unfold main.read_line, Py.getitem.
  change (nth_error (Py.split "|" line) main.OTHER_ID_POSITION)
    with (field line 15).
  now rewrite field_none by lia.
Qed.

(** A line without committee id or without an amount that is a number is
    skipped. *)
Lemma read_line_rejected line cmte amt r :
  field line main.OTHER_ID_POSITION = Some EmptyString ->
  field line main.CMTE_ID_POSITION = Some cmte ->
  field line main.TRANSACTION_AMT_POSITION = Some amt ->
  cmte = EmptyString \/ amt = EmptyString \/ float amt = None ->
  main.read_line float strptime line r = Py.Ok r.
Proof.
  intros H15 H0 H14 H. unfold main.read_line.
  rewrite (getitem_field _ _ H15). simpl Py.rbind. cbn [Py.truthy].
  rewrite (getitem_field _ _ H0). simpl Py.rbind.
  rewrite (getitem_field _ _ H14). simpl Py.rbind.
  destruct H as [->|[->|Hf]].
  - reflexivity.
  - now destruct (Py.truthy cmte).
  - unfold main.is_number. rewrite Hf.
    now destruct (Py.truthy cmte), (Py.truthy amt).
Qed.

(** The reader after a line that passes the checks: one new object, with
    the zip code cut when it is long enough, in the queues it is fit for. *)
Lemma read_line_accepted_reader line cmte zip dt amt amount r :
  field line main.OTHER_ID_POSITION = Some EmptyString ->
  field line main.CMTE_ID_POSITION = Some cmte ->
  field line main.ZIPCODE_POSITION = Some zip ->
  field line main.TRANSACTION_DT_POSITION = Some dt ->
  field line main.TRANSACTION_AMT_POSITION = Some amt ->
  Py.truthy cmte = true -> Py.truthy amt = true ->
  float amt = Some amount ->
  main.read_line float strptime line r
  = Py.Ok
      {| main.objects :=
           main.objects r
           ++ [{| cmte_id := cmte;
                  zipcode := if 5 <=? String.length zip
                             then substring 0 5 zip else zip;
                  transaction_dt := dt;
                  transaction_amt := amount |}];
         main.date_queue :=
           main.date_queue r
           ++ (if Py.truthy dt && strptime dt "%m%d%Y"
               then [length (main.objects r)] else []);
         main.zip_queue :=
           main.zip_queue r
           ++ (if 5 <=? String.length zip
               then [length (main.objects r)] else []) |}.
Proof.
  intros H15 H0 H10 H13 H14 Hc Ha Hf.
  rewrite (@read_line_accepted float strptime line cmte zip dt amt amount r
             H15 H0 H10 H13 H14 Hc Ha Hf).
  unfold main.new_dict, main.is_valid_date. cbn [fst].
  destruct (Py.truthy dt && strptime dt "%m%d%Y");
    destruct (5 <=? String.length zip);
    unfold main.add_date_task, main.add_zip_task, main.set_zipcode;
    cbn [main.objects main.date_queue main.zip_queue];
    rewrite ?nth_error_last, ?setitem_last, ?app_nil_r; reflexivity.
Qed.

Lemma record_list_skipped line other :
  field line main.OTHER_ID_POSITION = Some other ->
  Py.truthy other = true -> record_list float line = [].
Proof.
  intros H15 Ht. unfold record_list, distilled. rewrite H15.
  destruct (field line main.CMTE_ID_POSITION); auto.
  destruct (field line main.ZIPCODE_POSITION); auto.
  destruct (field line main.TRANSACTION_DT_POSITION); auto.
  destruct (field line main.TRANSACTION_AMT_POSITION); auto.
  now rewrite Ht.
Qed.

Lemma record_list_rejected line cmte amt :
  field line main.CMTE_ID_POSITION = Some cmte ->
  field line main.TRANSACTION_AMT_POSITION = Some amt ->
  cmte = EmptyString \/ amt = EmptyString \/ float amt = None ->
  record_list float line = [].
Proof.
  intros H0 H14 H. unfold record_list, distilled. rewrite H0, H14.
  destruct (field line main.OTHER_ID_POSITION) as [other|]; auto.
  destruct (field line main.ZIPCODE_POSITION); auto.
  destruct (field line main.TRANSACTION_DT_POSITION); auto.
  destruct H as [->|[->|Hf]].
  - now rewrite orb_true_r.
  - now rewrite orb_true_r.
  - rewrite Hf. now destruct (_ || _).
Qed.

(** What the body of the loop does to the reader, for a line of sixteen
    columns or more. *)
Lemma read_line_tasks line r :
  16 <= columns line ->
  exists r',
    main.read_line float strptime line r = Py.Ok r'
    /\ (bound r ->
        bound r'
        /\ main.date_tasks r'
           = main.date_tasks r
             ++ filter (for_date strptime) (record_list float line)
        /\ main.zip_tasks r'
           = main.zip_tasks r ++ filter for_zip (record_list float line)).
Proof.
  intros Hc.
  destruct (@field_some line main.OTHER_ID_POSITION) as (other & H15);
    [unfold main.OTHER_ID_POSITION; lia|].
  destruct (@field_some line main.CMTE_ID_POSITION) as (cmte & H0);
    [unfold main.CMTE_ID_POSITION; lia|].
  destruct (@field_some line main.ZIPCODE_POSITION) as (zip & H10);
    [unfold main.ZIPCODE_POSITION; lia|].
  destruct (@field_some line main.TRANSACTION_DT_POSITION) as (dt & H13);
    [unfold main.TRANSACTION_DT_POSITION; lia|].
  destruct (@field_some line main.TRANSACTION_AMT_POSITION) as (amt & H14);
    [unfold main.TRANSACTION_AMT_POSITION; lia|].
  assert (Hskip : forall r0,
            main.read_line float strptime line r0 = Py.Ok r0 ->
            record_list float line = [] ->
            exists r',
              main.read_line float strptime line r0 = Py.Ok r'
              /\ (bound r0 ->
                  bound r'
                  /\ main.date_tasks r'
                     = main.date_tasks r0
                       ++ filter (for_date strptime) (record_list float line)
                  /\ main.zip_tasks r'
                     = main.zip_tasks r0
                       ++ filter for_zip (record_list float line))).
  { intros r0 E1 E2. exists r0. split; auto. intros Hb.
    rewrite E2. simpl. now rewrite !app_nil_r. }
  destruct (Py.truthy other) eqn:Ho.
  { apply Hskip.
    - now apply read_line_other_id with other.
    - now apply record_list_skipped with other. }
  assert (other = EmptyString) by (destruct other; [auto | discriminate]).
  subst other.
  destruct (Py.truthy cmte) eqn:Hcm.
  2:{ assert (cmte = EmptyString) by (destruct cmte; [auto | discriminate]).
      apply Hskip.
      - apply read_line_rejected with cmte amt; auto.
      - apply record_list_rejected with cmte amt; auto. }
  destruct (Py.truthy amt) eqn:Ham.
  2:{ assert (amt = EmptyString) by (destruct amt; [auto | discriminate]).
      apply Hskip.
      - apply read_line_rejected with cmte amt; auto.
      - apply record_list_rejected with cmte amt; auto. }
  destruct (float amt) as [amount|] eqn:Hf.
  2:{ apply Hskip.
      - apply read_line_rejected with cmte amt; auto.
      - apply record_list_rejected with cmte amt; auto. }
  rewrite (@read_line_accepted_reader line cmte zip dt amt amount r
             H15 H0 H10 H13 H14 Hcm Ham Hf).
  eexists. split; [reflexivity|]. intros [Hbd Hbz].
  assert (Hrec : record_list float line
                 = [{| cmte_id := cmte;
                       zipcode := if 5 <=? String.length zip
                                  then substring 0 5 zip else zip;
                       transaction_dt := dt;
                       transaction_amt := amount |}]).
  { unfold record_list, distilled.
    rewrite H15, H0, H10, H13, H14, Hcm, Ham, Hf. reflexivity. }
  rewrite Hrec.
  assert (Hzip : for_zip {| cmte_id := cmte;
                            zipcode := if 5 <=? String.length zip
                                       then substring 0 5 zip else zip;
                            transaction_dt := dt;
                            transaction_amt := amount |}
                 = (5 <=? String.length zip)).
  { unfold for_zip. cbn [zipcode].
    destruct (Nat.leb_spec 5 (String.length zip)) as [Hl|Hl].
    - rewrite substring_length by assumption. reflexivity.
    - apply Nat.leb_gt. assumption. }
  cbn [filter]. rewrite Hzip. unfold for_date. cbn [transaction_dt].
  unfold bound, main.date_tasks, main.zip_tasks, main.deref.
  cbn [main.objects main.date_queue main.zip_queue].
  split; [split|split].
  - now apply bound_extend.
  - now apply bound_extend.
  - now apply tasks_extend.
  - now apply tasks_extend.
Qed.

Lemma read_lines_tasks lines : forall r,
  Forall (fun line => 16 <= columns line) lines ->
  exists r',
    main.read_lines float strptime lines r = Py.Ok r'
    /\ (bound r ->
        bound r'
        /\ main.date_tasks r'
           = main.date_tasks r
             ++ filter (for_date strptime) (records_of float lines)
        /\ main.zip_tasks r'
           = main.zip_tasks r ++ filter for_zip (records_of float lines)).
Proof.
  induction lines as [|line lines IH]; intros r Hall.
  - exists r. split; auto. intros Hb. simpl. now rewrite !app_nil_r.
  - inversion Hall as [|? ? Hl Hall']; subst.
    destruct (@read_line_tasks line r Hl) as (r1 & E1 & H1).
    destruct (IH r1 Hall') as (r2 & E2 & H2).
    exists r2. simpl main.read_lines. rewrite E1. simpl Py.rbind.
    split; auto. intros Hb.
    destruct (H1 Hb) as (Hb1 & Hd1 & Hz1).
    destruct (H2 Hb1) as (Hb2 & Hd2 & Hz2).
    split; auto.
    unfold records_of in *. simpl flat_map. rewrite !filter_app.
    rewrite Hd2, Hz2, Hd1, Hz1, <- !app_assoc. auto.
Qed.

Lemma bound_start : bound main.start.
Proof. split; constructor. Qed.

(** [read_file] on lines of sixteen columns or more, from any reader: the
    queues get the records fit for each worker, in the order of the lines,
    and then the end marker, one object for both. *)
Lemma read_file_tasks lines r :
  Forall (fun line => 16 <= columns line) lines -> bound r ->
  exists r',
    main.read_file float strptime lines r = Py.Ok r'
    /\ main.date_tasks r'
       = main.date_tasks r
         ++ filter (for_date strptime) (records_of float lines)
         ++ [main.end_data]
    /\ main.zip_tasks r'
       = main.zip_tasks r
         ++ filter for_zip (records_of float lines) ++ [main.end_data]
    /\ last (main.date_queue r') 0 = last (main.zip_queue r') 0.
Proof.
  intros Hall Hb.
  destruct (@read_lines_tasks lines r Hall) as (r1 & E & H).
  destruct (H Hb) as ([Hbd Hbz] & Hd & Hz).
  unfold main.read_file. rewrite E. simpl Py.rbind.
  eexists. split; [reflexivity|].
  unfold main.date_tasks, main.zip_tasks, main.deref,
    main.add_zip_task, main.add_date_task in *.
  cbn [main.objects main.date_queue main.zip_queue] in *.
  pose proof (@tasks_extend (main.objects r1) main.end_data
                (main.date_queue r1) true Hbd) as Td.
  pose proof (@tasks_extend (main.objects r1) main.end_data
                (main.zip_queue r1) true Hbz) as Tz.
  cbv iota in Td, Tz.
  rewrite Td, Tz, Hd, Hz, <- !app_assoc.
  split; [|split]; auto.
  now rewrite !last_last.
Qed.

(** [read_file] either reads every line, all of sixteen columns or more, or
    raises [IndexError] at a line with fewer. *)
Lemma read_lines_total lines : forall r,
  (Forall (fun line => 16 <= columns line) lines
   /\ exists r', main.read_lines float strptime lines r = Py.Ok r')
  \/ (Exists (fun line => columns line < 16) lines
      /\ main.read_lines float strptime lines r = Py.Raise Py.IndexError).
Proof.
  induction lines as [|line lines IH]; intros r.
  - left. split; [constructor | now exists r].
  - simpl main.read_lines.
    destruct (Nat.le_gt_cases 16 (columns line)) as [Hl|Hl].
    + destruct (@read_line_tasks line r Hl) as (r1 & E1 & _).
      rewrite E1. simpl Py.rbind.
      destruct (IH r1) as [(Hall & r' & E)|(Hex & E)].
      * left. split; [now constructor | now exists r'].
      * right. split; [now apply Exists_cons_tl | assumption].
    + right. split; [now apply Exists_cons_hd|].
      now rewrite (@read_line_short line r Hl).
Qed.

(** The records of a file have a committee id, and neither it nor the date
    holds a bar. *)
Lemma records_of_fields lines :
  Forall (fun d => Py.truthy (cmte_id d) = true
                   /\ occurs "|" (cmte_id d) = false
                   /\ occurs "|" (transaction_dt d) = false)
         (records_of float lines).
Proof.
  apply Forall_forall. intros d Hd. unfold records_of in Hd.
  apply in_flat_map in Hd. destruct Hd as (line & _ & Hd).
  unfold record_list, distilled in Hd.
  destruct (field line main.OTHER_ID_POSITION) as [other|]; [|contradiction].
  destruct (field line main.CMTE_ID_POSITION) as [cmte|] eqn:H0;
    [|contradiction].
  destruct (field line main.ZIPCODE_POSITION) as [zip|]; [|contradiction].
  destruct (field line main.TRANSACTION_DT_POSITION) as [dt|] eqn:H13;
    [|contradiction].
  destruct (field line main.TRANSACTION_AMT_POSITION) as [amt|];
    [|contradiction].
  destruct (Py.truthy other); [contradiction|].
  destruct (Py.truthy cmte) eqn:Hc; [|contradiction].
  destruct (Py.truthy amt); [|contradiction].
  simpl in Hd. destruct (float amt) as [amount|]; [|contradiction].
  destruct Hd as [<-|[]]. cbn [cmte_id transaction_dt].
  split; [|split]; auto.
  - now apply field_no_bar with line main.CMTE_ID_POSITION.
  - now apply field_no_bar with line main.TRANSACTION_DT_POSITION.
Qed.

End Queues.

Lemma records_of_zip float lines :
  Forall (fun d => String.length (zipcode d) <= 5) (records_of float lines).
Proof.
  apply Forall_forall. intros d Hd. unfold records_of in Hd.
  apply in_flat_map in Hd. destruct Hd as (line & _ & Hd).
  unfold record_list, distilled in Hd.
  destruct (field line main.OTHER_ID_POSITION) as [other|]; [|contradiction].
  destruct (field line main.CMTE_ID_POSITION) as [cmte|]; [|contradiction].
  destruct (field line main.ZIPCODE_POSITION) as [zip|]; [|contradiction].
  destruct (field line main.TRANSACTION_DT_POSITION) as [dt|];
    [|contradiction].
  destruct (field line main.TRANSACTION_AMT_POSITION) as [amt|];
    [|contradiction].
  destruct (_ || _); [contradiction|].
  destruct (float amt) as [amount|]; [|contradiction].
  destruct Hd as [<-|[]]. cbn [zipcode].
  destruct (Nat.leb_spec 5 (String.length zip)) as [Hl|Hl].
  - rewrite substring_length by assumption. lia.
  - lia.
Qed.

Lemma Forall_filter {A} (P : A -> Prop) (f : A -> bool) (l : list A) :
  Forall P l -> Forall P (filter f l).
Proof.
  rewrite !Forall_forall. intros H x Hx. apply filter_In in Hx.
  apply H. tauto.
Qed.

Lemma Forall_filter_true {A} (f : A -> bool) (l : list A) :
  Forall (fun x => f x = true) (filter f l).
Proof.
  apply Forall_forall. intros x Hx. apply filter_In in Hx. tauto.
Qed.

(** A line that [read_line] skips changes nothing in what [read_file]
    returns and in the two reports. *)
Lemma skipped_line_dropped v float strptime line before after :
  (forall r, main.read_line float strptime line r = Py.Ok r) ->
  (forall r, main.read_file float strptime (before ++ line :: after) r
             = main.read_file float strptime (before ++ after) r)
  /\ date_report v float strptime (before ++ line :: after)
     = date_report v float strptime (before ++ after)
  /\ zip_report v float strptime (before ++ line :: after)
     = zip_report v float strptime (before ++ after).
Proof.
  intros Hline.
  assert (Hfile : forall r,
            main.read_file float strptime (before ++ line :: after) r
            = main.read_file float strptime (before ++ after) r).
  { intros r. unfold main.read_file. rewrite !read_lines_app.
    destruct (main.read_lines float strptime before r) as [r1|e]; simpl; auto.
    now rewrite Hline. }
  split; [exact Hfile|].
  unfold date_report, zip_report. now rewrite !Hfile.
Qed.

(* ================================================================= *)
(** ** [read_file] and the whole program *)

(** X18.  [read_file] reads a file to its end exactly when every line has
    sixteen columns or more: it then returns, and otherwise, with a line of
    fewer columns, it raises [IndexError], the only exception it raises;
    [float] and [strptime] are arbitrary. *)
Theorem short_line_stops_read_file
        (float : string -> option Q) (strptime : string -> string -> bool)
        (lines : list string) (r : main.Reader) :
  (Forall (fun line => 16 <= columns line) lines
   /\ exists r', main.read_file float strptime lines r = Py.Ok r')
  \/ (Exists (fun line => columns line < 16) lines
      /\ main.read_file float strptime lines r = Py.Raise Py.IndexError).
Proof.
  unfold main.read_file.
  destruct (@read_lines_total float strptime lines r)
    as [(Hall & r' & E)|(Hex & E)]; rewrite E; simpl Py.rbind.
  - left. split; auto. eexists. reflexivity.
  - right. auto.
Qed.

(** X19.  What [read_file] puts in the two queues, for a file whose lines
    have sixteen columns or more: the date worker gets the records with a
    date that [strptime] reads and the zip worker the records with a zip
    code of five characters or more, both in the order of the lines and
    with the zip code already cut to five characters; then comes the end
    marker, the same object in both queues. *)
Theorem read_file_queues
        (float : string -> option Q) (strptime : string -> string -> bool)
        (lines : list string) :
  Forall (fun line => 16 <= columns line) lines ->
  exists r,
    main.read_file float strptime lines main.start = Py.Ok r
    /\ main.date_tasks r
       = filter (for_date strptime) (records_of float lines)
         ++ [main.end_data]
    /\ main.zip_tasks r
       = filter for_zip (records_of float lines) ++ [main.end_data]
    /\ last (main.date_queue r) 0 = last (main.zip_queue r) 0.
Proof.
  intros Hall.
  destruct (@read_file_tasks float strptime lines main.start Hall
              bound_start) as (r & E & Hd & Hz & Hl).
  exists r. split; [exact E|]. split; [exact Hd|]. split; [exact Hz|].
  exact Hl.
Qed.

Lemma read_file_queues_witness :
  let lines :=
    [sample_line "300047357" "01312017" "384" EmptyString;
     sample_line "3000" "01312017" "230" EmptyString;
     sample_line "30004" "013120170" "50" EmptyString;
     sample_line "30004" "01312017" "100" "H6CA34245"] in
  exists r,
    main.read_file sample_float datetime.strptime lines main.start = Py.Ok r
    /\ main.date_tasks r
       = filter (for_date datetime.strptime) (records_of sample_float lines)
         ++ [main.end_data]
    /\ main.zip_tasks r
       = filter for_zip (records_of sample_float lines) ++ [main.end_data]
    /\ last (main.date_queue r) 0 = last (main.zip_queue r) 0.
Proof.
  intros lines.
  apply (@read_file_queues sample_float datetime.strptime lines).
  repeat (apply Forall_cons; [vm_compute; lia|]). apply Forall_nil.
Defined.

(** The records and the queues of the sample file above. *)
Example records_of_sample :
  let lines :=
    [sample_line "300047357" "01312017" "384" EmptyString;
     sample_line "3000" "01312017" "230" EmptyString;
     sample_line "30004" "013120170" "50" EmptyString;
     sample_line "30004" "01312017" "100" "H6CA34245"] in
  filter (for_date datetime.strptime) (records_of sample_float lines)
  = [sample_record 384;
     {| cmte_id := "C00177436"; zipcode := "3000";
        transaction_dt := "01312017"; transaction_amt := 230 |}]
  /\ filter for_zip (records_of sample_float lines)
     = [sample_record 384;
        {| cmte_id := "C00177436"; zipcode := "30004";
           transaction_dt := "013120170"; transaction_amt := 50 |}].
Proof. vm_compute. split; reflexivity. Qed.

(** X20.  What the handlers can rely on: when [read_file] returns, the
    last item of each queue is the end marker, every item before it has a
    committee id, so that the marker comes once and last, every item before
    it in the queue of the zip worker has a zip code of exactly five
    characters, and every item before it in the queue of the date worker
    has a date that [strptime] reads. *)
Theorem end_marker_is_last
        (float : string -> option Q) (strptime : string -> string -> bool)
        (lines : list string) (r : main.Reader) :
  main.read_file float strptime lines main.start = Py.Ok r ->
  exists dates zips,
    main.date_tasks r = dates ++ [main.end_data]
    /\ main.zip_tasks r = zips ++ [main.end_data]
    /\ Forall (fun d => Py.truthy (cmte_id d) = true) dates
    /\ Forall (fun d => Py.truthy (cmte_id d) = true) zips
    /\ Forall (fun d => String.length (zipcode d) = 5) zips
    /\ Forall (fun d => Py.truthy (transaction_dt d) = true
                        /\ strptime (transaction_dt d) "%m%d%Y"%string = true)
              dates.
Proof.
  intros E.
  assert (Hall : Forall (fun line => 16 <= columns line) lines).
  { unfold main.read_file in E.
    destruct (@read_lines_total float strptime lines main.start)
      as [(Hall & _)|(_ & E')]; auto.
    rewrite E' in E. discriminate. }
  destruct (@read_file_tasks float strptime lines main.start Hall
              bound_start) as (r' & E' & Hd & Hz & _).
  simpl app in Hd, Hz.
  rewrite E in E'. injection E' as <-.
  exists (filter (for_date strptime) (records_of float lines)),
         (filter for_zip (records_of float lines)).
  pose proof (records_of_fields float lines) as Hf.
  assert (Hc : Forall (fun d => Py.truthy (cmte_id d) = true)
                      (records_of float lines)).
  { apply Forall_impl with (2 := Hf). now intros d (H & _). }
  split; [|split; [|split; [|split; [|split]]]]; auto.
  - now apply Forall_filter.
  - now apply Forall_filter.
  - pose proof (Forall_filter for_zip (records_of_zip float lines)) as H1.
    pose proof (Forall_filter_true for_zip (records_of float lines)) as H2.
    rewrite Forall_forall in *. intros d Hd'.
    specialize (H1 d Hd'). specialize (H2 d Hd').
    unfold for_zip in H2. apply Nat.leb_le in H2. lia.
  - pose proof (Forall_filter_true (for_date strptime)
                  (records_of float lines)) as H2.
    apply Forall_impl with (2 := H2). intros d Hd'.
    unfold for_date in Hd'. now apply andb_true_iff in Hd'.
Qed.

Lemma end_marker_is_last_witness :
  let lines :=
    [sample_line "300047357" "01312017" "384" EmptyString;
     sample_line "3000" "01312017" "230" EmptyString] in
  exists r,
    main.read_file sample_float datetime.strptime lines main.start = Py.Ok r
    /\ exists dates zips,
         main.date_tasks r = dates ++ [main.end_data]
         /\ main.zip_tasks r = zips ++ [main.end_data]
         /\ Forall (fun d => Py.truthy (cmte_id d) = true) dates
         /\ Forall (fun d => Py.truthy (cmte_id d) = true) zips
         /\ Forall (fun d => String.length (zipcode d) = 5) zips
         /\ Forall (fun d => Py.truthy (transaction_dt d) = true
                             /\ datetime.strptime (transaction_dt d) "%m%d%Y"%string
                                = true) dates.
Proof.
  intros lines. eexists. split; [vm_compute; reflexivity|].
  apply (@end_marker_is_last sample_float datetime.strptime lines).
  vm_compute. reflexivity.
Defined.

(** X21.  A line whose committee id is empty, or whose amount is empty or
    not a number for [float], is skipped by [read_file] as a whole: the
    file with the line and the file without it give the same queues and
    the same two reports. *)
Theorem record_without_id_or_amount_dropped
        (v : Py.version) (float : string -> option Q)
        (strptime : string -> string -> bool)
        (line cmte amt : string) (before after : list string)
        (r : main.Reader) :
  field line main.OTHER_ID_POSITION = Some EmptyString ->
  field line main.CMTE_ID_POSITION = Some cmte ->
  field line main.TRANSACTION_AMT_POSITION = Some amt ->
  cmte = EmptyString \/ amt = EmptyString \/ float amt = None ->
  main.read_line float strptime line r = Py.Ok r
  /\ main.read_file float strptime (before ++ line :: after) r
     = main.read_file float strptime (before ++ after) r
  /\ date_report v float strptime (before ++ line :: after)
     = date_report v float strptime (before ++ after)
  /\ zip_report v float strptime (before ++ line :: after)
     = zip_report v float strptime (before ++ after).
Proof.
  intros H15 H0 H14 H.
  assert (Hline : forall r', main.read_line float strptime line r' = Py.Ok r')
    by (intros r'; now apply read_line_rejected with cmte amt).
  destruct (@skipped_line_dropped v float strptime line before after Hline)
    as (H1 & H2 & H3).
  auto.
Qed.

Lemma record_without_id_or_amount_dropped_witness :
  let line := sample_line "300047357" "01312017" "12a" EmptyString in
  let before := [sample_line "300047357" "01312017" "384" EmptyString] in
  let after := [sample_line "300047357" "01312017" "230" EmptyString] in
  main.read_line sample_float datetime.strptime line main.start
  = Py.Ok main.start
  /\ main.read_file sample_float datetime.strptime
       (before ++ line :: after) main.start
     = main.read_file sample_float datetime.strptime
         (before ++ after) main.start
  /\ date_report Py.Py3 sample_float datetime.strptime
       (before ++ line :: after)
     = date_report Py.Py3 sample_float datetime.strptime (before ++ after)
  /\ zip_report Py.Py3 sample_float datetime.strptime
       (before ++ line :: after)
     = zip_report Py.Py3 sample_float datetime.strptime (before ++ after).
Proof.
  intros line before after.
  apply (@record_without_id_or_amount_dropped Py.Py3 sample_float
           datetime.strptime line "C00177436" "12a" before after main.start).
  - reflexivity.
  - reflexivity.
  - reflexivity.
  - right. right. reflexivity.
Defined.

(** X22.  The whole program by zip code: for an input file whose lines have
    sixteen columns or more, the report holds one line for each record that
    passes the checks of [read_file] and has a zip code of five characters
    or more, in the order of the file; the line gives the committee id and
    the first five characters of the zip code, then the median of the
    amounts of the records of this key so far, rounded by [int(round(.))],
    their number, and their sum truncated by [int].  The amounts that
    [float] reads for these records are doubles (no amount is an infinity,
    NaN or beyond the range) and the sums stay in the range of the doubles;
    the sum is the sum of the floats, each addition rounded to a double,
    and so is the median of an even number of amounts ([total],
    [float_median]). *)
Theorem zip_report_of_file
        (v : Py.version) (float : string -> option Q)
        (strptime : string -> string -> bool) (lines : list string) :
  Forall (fun line => 16 <= columns line) lines ->
  float_amounts (filter for_zip (records_of float lines)) = true ->
  zip_finite [] (filter for_zip (records_of float lines)) = true ->
  zip_report v float strptime lines
  = Some (zip_lines v [] (filter for_zip (records_of float lines))).
Proof.
  intros Hall _ _. unfold zip_report.
  destruct (@read_file_tasks float strptime lines main.start Hall
              bound_start) as (r & E & _ & Hz & _).
  simpl app in Hz. rewrite E, Hz.
  pose proof (records_of_fields float lines) as Hf.
  assert (Hc : Forall (fun d => Py.truthy (cmte_id d) = true)
                      (filter for_zip (records_of float lines))).
  { apply Forall_filter. apply Forall_impl with (2 := Hf).
    now intros d (H & _). }
  destruct (@zip_stream_run v _ main.end_data [] init Hc eq_refl
              (stores_init zip_key) eq_refl) as (self' & E' & Hw & _).
  rewrite E'. cbn [state_of]. now rewrite Hw.
Qed.

Lemma zip_report_of_file_witness :
  let lines :=
    [sample_line "300047357" "01312017" "384" EmptyString;
     sample_line "3000" "01312017" "230" EmptyString;
     sample_line "30004" "013120170" "50" EmptyString;
     sample_line "30004" "01312017" "100" "H6CA34245"] in
  zip_report Py.Py3 sample_float datetime.strptime lines
  = Some (zip_lines Py.Py3 []
            (filter for_zip (records_of sample_float lines))).
Proof.
  intros lines.
  apply (@zip_report_of_file Py.Py3 sample_float datetime.strptime lines).
  - repeat (apply Forall_cons; [vm_compute; lia|]). apply Forall_nil.
  - vm_compute. reflexivity.
  - vm_compute. reflexivity.
Defined.

(** X23.  The whole program by date: for an input file whose lines have
    sixteen columns or more, the report holds one line for each pair of a
    committee id and a date among the records that pass the checks of
    [read_file] and have a date that [strptime] reads, in the order in
    which the dictionary gives the pairs; the line gives the pair, then the
    median of the amounts of all the records of the pair, rounded by
    [int(round(.))], their number, and their sum truncated by [int].  The
    amounts that [float] reads for these records are doubles (no amount is
    an infinity, NaN or beyond the range) and the sums stay in the range of
    the doubles; the sum is the sum of the floats in the order of the file,
    each addition rounded to a double, and so is the median of an even
    number of amounts ([total], [float_median]). *)
Theorem date_report_of_file
        (v : Py.version) (float : string -> option Q)
        (strptime : string -> string -> bool) (lines : list string) :
  Forall (fun line => 16 <= columns line) lines ->
  float_amounts (filter (for_date strptime) (records_of float lines)) = true ->
  date_finite (filter (for_date strptime) (records_of float lines)) = true ->
  exists report,
    date_report v float strptime lines = Some report
    /\ Permutation
         report
         (date_lines v (filter (for_date strptime) (records_of float lines))).
Proof.
  intros Hall _ _. unfold date_report.
  destruct (@read_file_tasks float strptime lines main.start Hall
              bound_start) as (r & E & Hd & _ & _).
  simpl app in Hd. rewrite E, Hd.
  pose proof (Forall_filter (for_date strptime)
                (records_of_fields float lines)) as Hf.
  destruct (@date_stream_run v _ main.end_data Hf eq_refl)
    as (_ & self' & E' & Hw & _).
  rewrite E'. cbn [state_of]. eexists. split; [reflexivity|].
  now rewrite Hw.
Qed.

Lemma date_report_of_file_witness :
  let lines :=
    [sample_line "300047357" "01312017" "384" EmptyString;
     sample_line "3000" "01312017" "230" EmptyString;
     sample_line "30004" "013120170" "50" EmptyString;
     sample_line "30004" "01312017" "100" "H6CA34245"] in
  exists report,
    date_report Py.Py3 sample_float datetime.strptime lines = Some report
    /\ Permutation
         report
         (date_lines Py.Py3
            (filter (for_date datetime.strptime)
                    (records_of sample_float lines))).
Proof.
  intros lines.
  apply (@date_report_of_file Py.Py3 sample_float datetime.strptime lines).
  - repeat (apply Forall_cons; [vm_compute; lia|]). apply Forall_nil.
  - vm_compute. reflexivity.
  - vm_compute. reflexivity.
Defined.

(** The two reports of the sample file. *)
Example reports_of_sample_file :
  let lines :=
    [sample_line "300047357" "01312017" "384" EmptyString;
     sample_line "3000" "01312017" "230" EmptyString;
     sample_line "30004" "013120170" "50" EmptyString;
     sample_line "30004" "01312017" "100" "H6CA34245"] in
  zip_report Py.Py3 sample_float datetime.strptime lines
  = Some [("C00177436|30004|384|1|384" ++ Py.newline)%string;
          ("C00177436|30004|217|2|434" ++ Py.newline)%string]
  /\ date_report Py.Py3 sample_float datetime.strptime lines
     = Some [("C00177436|01312017|307|2|614" ++ Py.newline)%string].
Proof. vm_compute. split; reflexivity. Qed.
(* ================================================================= *)
(** ** Strings that [is_valid_date] accepts *)

Lemma two_length first second s n rest :
  datetime.two first second s = Some (n, rest) ->
  String.length s = 2 + String.length rest.
Proof.
  unfold datetime.two. destruct s as [|c1 [|c2 s]]; try discriminate.
  destruct (datetime.digit c1); [|discriminate].
  destruct (datetime.digit c2); [|discriminate].
  destruct (_ && _); [|discriminate].
  now intros [= _ <-].
Qed.

Lemma one_length class s n rest :
  datetime.one class s = Some (n, rest) ->
  String.length s = 1 + String.length rest.
Proof.
  unfold datetime.one. destruct s as [|c s]; try discriminate.
  destruct (datetime.digit c); [|discriminate].
  destruct (class _); [|discriminate].
  now intros [= _ <-].
Qed.

Lemma space_one_length class s n rest :
  datetime.space_one class s = Some (n, rest) ->
  String.length s = 2 + String.length rest.
Proof.
  unfold datetime.space_one. destruct s as [|c s]; try discriminate.
  destruct (Ascii.eqb c " "); [|discriminate].
  intros H. apply one_length in H. simpl. lia.
Qed.

Lemma year_group_length s year rest :
  datetime.year_group s = Some (year, rest) ->
  String.length s = 4 + String.length rest.
Proof.
  unfold datetime.year_group.
  destruct (datetime.two _ _ s) as [[hi s1]|] eqn:E1; [|discriminate].
  destruct (datetime.two _ _ s1) as [[lo s2]|] eqn:E2; [|discriminate].
  intros [= _ <-]. apply two_length in E1, E2. lia.
Qed.

(** A match of a group is the match of one of its alternatives. *)
Lemma first_match_In {A} (group : list datetime.alternative) s
      (then_ : nat -> string -> option A) r :
  datetime.first_match group s then_ = Some r ->
  exists alt n rest,
    In alt group /\ alt s = Some (n, rest) /\ then_ n rest = Some r.
Proof.
  induction group as [|alt group IH]; simpl; [discriminate|].
  destruct (alt s) as [[n rest]|] eqn:Ea.
  - destruct (then_ n rest) as [found|] eqn:Et.
    + intros [= <-]. exists alt, n, rest. auto.
    + intros H. destruct (IH H) as (alt' & n' & rest' & Hin & H1 & H2).
      exists alt', n', rest'. auto.
  - intros H. destruct (IH H) as (alt' & n' & rest' & Hin & H1 & H2).
    exists alt', n', rest'. auto.
Qed.

Lemma day_group_length alt s n rest :
  In alt datetime.day_group -> alt s = Some (n, rest) ->
  1 + String.length rest <= String.length s <= 2 + String.length rest.
Proof.
  unfold datetime.day_group.
  intros [<-|[<-|[<-|[<-|[<-|[]]]]]] H;
    first [apply two_length in H | apply one_length in H
          | apply space_one_length in H]; lia.
Qed.

(* ----------------------------------------------------------------- *)
(** *** What an alternative reads *)

Lemma string_length_app (a b : string) :
  String.length (a ++ b) = String.length a + String.length b.
Proof. induction a as [|c a IH]; simpl; auto. Qed.

Lemma one_digit class c d rest :
  datetime.digit c = Some d ->
  datetime.one class (String c rest)
  = if class d then Some (d, rest) else None.
Proof. intros H. unfold datetime.one. now rewrite H. Qed.

Lemma two_inv first second s n rest :
  datetime.two first second s = Some (n, rest) ->
  exists c1 c2 d1 d2,
    s = String c1 (String c2 rest)
    /\ datetime.digit c1 = Some d1 /\ datetime.digit c2 = Some d2
    /\ first d1 = true /\ second d2 = true /\ n = 10 * d1 + d2.
Proof.
  unfold datetime.two. destruct s as [|c1 [|c2 s]]; try discriminate.
  destruct (datetime.digit c1) as [d1|] eqn:E1; [|discriminate].
  destruct (datetime.digit c2) as [d2|] eqn:E2; [|discriminate].
  destruct (first d1) eqn:F; [|discriminate].
  destruct (second d2) eqn:G; [|discriminate].
  intros [= <- <-]. exists c1, c2, d1, d2. auto 10.
Qed.

Lemma one_inv class s n rest :
  datetime.one class s = Some (n, rest) ->
  exists c, s = String c rest /\ datetime.digit c = Some n
            /\ class n = true.
Proof.
  unfold datetime.one. destruct s as [|c s]; try discriminate.
  destruct (datetime.digit c) as [d|] eqn:E; [|discriminate].
  destruct (class d) eqn:F; [|discriminate].
  intros [= <- <-]. exists c. auto.
Qed.

Lemma space_one_inv class s n rest :
  datetime.space_one class s = Some (n, rest) ->
  exists c, s = String " " (String c rest) /\ datetime.digit c = Some n
            /\ class n = true.
Proof.
  unfold datetime.space_one. destruct s as [|c0 s]; try discriminate.
  destruct (Ascii.eqb_spec c0 " ") as [->|]; [|discriminate].
  intros H. apply one_inv in H. destruct H as (c & -> & H1 & H2).
  exists c. auto.
Qed.

Lemma year_group_inv s year rest :
  datetime.year_group s = Some (year, rest) ->
  exists c1 c2 c3 c4 y1 y2 y3 y4,
    s = String c1 (String c2 (String c3 (String c4 rest)))
    /\ datetime.digit c1 = Some y1 /\ datetime.digit c2 = Some y2
    /\ datetime.digit c3 = Some y3 /\ datetime.digit c4 = Some y4
    /\ year = 1000 * y1 + 100 * y2 + 10 * y3 + y4.
Proof.
  unfold datetime.year_group.
  destruct (datetime.two _ _ s) as [[hi s1]|] eqn:E1; [|discriminate].
  destruct (datetime.two _ _ s1) as [[lo s2]|] eqn:E2; [|discriminate].
  intros [= <- <-].
  apply two_inv in E1. destruct E1 as (c1 & c2 & y1 & y2 & -> & H1 & H2 & _ & _ & ->).
  apply two_inv in E2. destruct E2 as (c3 & c4 & y3 & y4 & -> & H3 & H4 & _ & _ & ->).
  exists c1, c2, c3, c4, y1, y2, y3, y4.
  repeat split; auto. lia.
Qed.

Lemma between_iff lo hi d :
  datetime.between lo hi d = true <-> lo <= d <= hi.
Proof.
  unfold datetime.between. rewrite andb_true_iff, !Nat.leb_le. tauto.
Qed.

(* ----------------------------------------------------------------- *)
(** *** Strings of digits *)

Lemma digits_one s d :
  digits s = Some [d] ->
  exists c, s = String c EmptyString /\ datetime.digit c = Some d.
Proof.
  intros H. apply digits_cons in H. destruct H as (c & s' & -> & H1 & H2).
  apply digits_nil in H2. subst s'. exists c. auto.
Qed.

Lemma digits_two s d1 d2 :
  digits s = Some [d1; d2] ->
  exists c1 c2, s = String c1 (String c2 EmptyString)
                /\ datetime.digit c1 = Some d1
                /\ datetime.digit c2 = Some d2.
Proof.
  intros H. apply digits_cons in H. destruct H as (c1 & s' & -> & H1 & H2).
  apply digits_one in H2. destruct H2 as (c2 & -> & H2).
  exists c1, c2. auto.
Qed.

Lemma digits_four s y1 y2 y3 y4 :
  digits s = Some [y1; y2; y3; y4] ->
  exists c1 c2 c3 c4,
    s = String c1 (String c2 (String c3 (String c4 EmptyString)))
    /\ datetime.digit c1 = Some y1 /\ datetime.digit c2 = Some y2
    /\ datetime.digit c3 = Some y3 /\ datetime.digit c4 = Some y4.
Proof.
  intros H. apply digits_cons in H. destruct H as (c1 & s1 & -> & H1 & H).
  apply digits_cons in H. destruct H as (c2 & s2 & -> & H2 & H).
  apply digits_two in H. destruct H as (c3 & c4 & -> & H3 & H4).
  exists c1, c2, c3, c4. auto 10.
Qed.

Lemma digits_of_one c d :
  datetime.digit c = Some d -> digits (String c EmptyString) = Some [d].
Proof. intros H. simpl. now rewrite H. Qed.

Lemma digits_of_two c1 c2 d1 d2 :
  datetime.digit c1 = Some d1 -> datetime.digit c2 = Some d2 ->
  digits (String c1 (String c2 EmptyString)) = Some [d1; d2].
Proof. intros H1 H2. simpl. now rewrite H1, H2. Qed.

Lemma digits_of_four c1 c2 c3 c4 y1 y2 y3 y4 :
  datetime.digit c1 = Some y1 -> datetime.digit c2 = Some y2 ->
  datetime.digit c3 = Some y3 -> datetime.digit c4 = Some y4 ->
  digits (String c1 (String c2 (String c3 (String c4 EmptyString))))
  = Some [y1; y2; y3; y4].
Proof. intros H1 H2 H3 H4. simpl. now rewrite H1, H2, H3, H4. Qed.

Lemma writes_year_length y year :
  writes_year y year -> String.length y = 4.
Proof.
  intros (y1 & y2 & y3 & y4 & H & _).
  apply digits_four in H. destruct H as (c1 & c2 & c3 & c4 & -> & _).
  reflexivity.
Qed.

(* ----------------------------------------------------------------- *)
(** *** The first match *)

Lemma match_mdY_eq s :
  datetime.match_mdY s
  = datetime.first_match datetime.month_group s day_then.
Proof. reflexivity. Qed.

(** An alternative after which the rest does not match is passed over. *)
Lemma first_match_skip {A} alt group s (then_ : nat -> string -> option A) :
  (forall n rest, alt s = Some (n, rest) -> then_ n rest = None) ->
  datetime.first_match (alt :: group) s then_
  = datetime.first_match group s then_.
Proof.
  intros H. simpl. destruct (alt s) as [[n rest]|]; auto.
  now rewrite (H n rest eq_refl).
Qed.

Lemma first_match_hit {A} alt group s (then_ : nat -> string -> option A)
      n rest r :
  alt s = Some (n, rest) -> then_ n rest = Some r ->
  datetime.first_match (alt :: group) s then_ = Some r.
Proof. intros H1 H2. simpl. now rewrite H1, H2. Qed.

Lemma year_group_short s :
  String.length s < 4 -> datetime.year_group s = None.
Proof.
  intros H. destruct (datetime.year_group s) as [[year rest]|] eqn:E; auto.
  apply year_group_length in E. lia.
Qed.

Lemma year_then_short month day s :
  String.length s < 4 -> year_then month day s = None.
Proof. intros H. unfold year_then. now rewrite year_group_short. Qed.

Lemma year_then_hit month day y year :
  writes_year y year -> year_then month day y
                        = Some (month, day, year, EmptyString).
Proof.
  intros (y1 & y2 & y3 & y4 & H & ->).
  apply digits_four in H.
  destruct H as (c1 & c2 & c3 & c4 & -> & H1 & H2 & H3 & H4).
  unfold year_then, datetime.year_group.
  rewrite (@two_digits _ _ c1 c2 y1 y2 _ H1 H2).
  rewrite (proj2 (between_iff 0 9 y1)), (proj2 (between_iff 0 9 y2))
    by (pose proof (digit_lt _ H1); pose proof (digit_lt _ H2); lia).
  cbn [andb].
  rewrite (@two_digits _ _ c3 c4 y3 y4 _ H3 H4).
  rewrite (proj2 (between_iff 0 9 y3)), (proj2 (between_iff 0 9 y4))
    by (pose proof (digit_lt _ H3); pose proof (digit_lt _ H4); lia).
  cbn [andb]. do 3 f_equal. lia.
Qed.

(** A two-digit alternative of the day on fewer than six characters is
    passed over: fewer than four are left for the year. *)
Lemma day_two_skip first second group month s :
  String.length s <= 5 ->
  datetime.first_match (datetime.two first second :: group) s
                       (year_then month)
  = datetime.first_match group s (year_then month).
Proof.
  intros H. apply first_match_skip. intros n rest Hm.
  apply two_length in Hm. apply year_then_short. lia.
Qed.

(** A one-digit day before the year. *)
Lemma day_then_one month c day y year :
  datetime.digit c = Some day -> 1 <= day -> writes_year y year ->
  day_then month (String c y) = Some (month, day, year, EmptyString).
Proof.
  intros Hc Hd Hy. pose proof (writes_year_length Hy) as Hl.
  pose proof (digit_lt _ Hc) as Hlt.
  unfold day_then, datetime.day_group.
  rewrite !day_two_skip by (simpl; lia).
  apply first_match_hit with day y.
  - rewrite (@one_digit _ c day _ Hc).
    now rewrite (proj2 (between_iff 1 9 day)) by lia.
  - now apply year_then_hit.
Qed.

(** A two-digit day before the year. *)
Lemma day_then_two month c1 c2 d1 d2 y year :
  datetime.digit c1 = Some d1 -> datetime.digit c2 = Some d2 ->
  1 <= 10 * d1 + d2 <= 31 -> writes_year y year ->
  day_then month (String c1 (String c2 y))
  = Some (month, 10 * d1 + d2, year, EmptyString).
Proof.
  intros H1 H2 Hd Hy.
  pose proof (digit_lt _ H1). pose proof (digit_lt _ H2).
  pose proof (@year_then_hit month (10 * d1 + d2) y year Hy) as Hyear.
  unfold day_then, datetime.day_group.
  destruct (Nat.eq_dec d1 3) as [E3|N3].
  { apply first_match_hit with (10 * d1 + d2) y; auto.
    rewrite (@two_digits _ _ c1 c2 d1 d2 _ H1 H2).
    now rewrite (proj2 (between_iff 3 3 d1)),
      (proj2 (between_iff 0 1 d2)) by lia. }
  rewrite first_match_skip.
  2:{ intros n rest Hm. rewrite (@two_digits _ _ c1 c2 d1 d2 _ H1 H2) in Hm.
      rewrite (@between_false 3 3 d1) in Hm by lia. discriminate. }
  destruct (Nat.eq_dec d1 0) as [E0|N0].
  - rewrite first_match_skip.
    2:{ intros n rest Hm. rewrite (@two_digits _ _ c1 c2 d1 d2 _ H1 H2) in Hm.
        rewrite (@between_false 1 2 d1) in Hm by lia. discriminate. }
    apply first_match_hit with (10 * d1 + d2) y; auto.
    rewrite (@two_digits _ _ c1 c2 d1 d2 _ H1 H2).
    now rewrite (proj2 (between_iff 0 0 d1)),
      (proj2 (between_iff 1 9 d2)) by lia.
  - apply first_match_hit with (10 * d1 + d2) y; auto.
    rewrite (@two_digits _ _ c1 c2 d1 d2 _ H1 H2).
    now rewrite (proj2 (between_iff 1 2 d1)),
      (proj2 (between_iff 0 9 d2)) by lia.
Qed.

(** A day written with a space before the year. *)
Lemma day_then_space month c day y year :
  datetime.digit c = Some day -> 1 <= day -> writes_year y year ->
  day_then month (String " " (String c y))
  = Some (month, day, year, EmptyString).
Proof.
  intros Hc Hd Hy. pose proof (digit_lt _ Hc) as Hlt.
  unfold day_then, datetime.day_group.
  do 4 (rewrite first_match_skip; [|intros n rest Hm; discriminate Hm]).
  apply first_match_hit with day y.
  - unfold datetime.space_one. cbn [Ascii.eqb Bool.eqb].
    rewrite (@one_digit _ c day _ Hc).
    now rewrite (proj2 (between_iff 1 9 day)) by lia.
  - now apply year_then_hit.
Qed.

(** The day and the year after the month, however the day is written. *)
Lemma day_then_written month d day y year :
  writes_day d day -> 1 <= day <= 31 -> writes_year y year ->
  day_then month (d ++ y) = Some (month, day, year, EmptyString).
Proof.
  intros [H|[(d1 & d2 & H & ->)|(c & -> & H)]] Hd Hy.
  - apply digits_one in H. destruct H as (c & -> & H).
    apply day_then_one; auto. lia.
  - apply digits_two in H. destruct H as (c1 & c2 & -> & H1 & H2).
    now apply day_then_two.
  - apply day_then_space; auto. lia.
Qed.

Lemma days_in_month_ge year month :
  10 <= month <= 12 -> 9 <= datetime.days_in_month year month.
Proof.
  intros H. unfold datetime.days_in_month.
  destruct month as [|[|[|[|[|[|[|[|[|[|[|[|[|month]]]]]]]]]]]]]; lia.
Qed.

Lemma is_date_true year month day :
  1 <= year -> 1 <= month <= 12 ->
  1 <= day <= datetime.days_in_month year month ->
  datetime.is_date year month day = true.
Proof.
  intros Hy Hm Hd. unfold datetime.is_date.
  rewrite (proj2 (between_iff 1 12 month)) by lia.
  rewrite (proj2 (between_iff 1 _ day)) by lia.
  now rewrite (proj2 (Nat.leb_le 1 year)) by lia.
Qed.

Lemma is_valid_date_of_match s month day year :
  datetime.match_mdY s = Some (month, day, year, EmptyString) ->
  1 <= year -> 1 <= month <= 12 ->
  1 <= day <= datetime.days_in_month year month ->
  main.is_valid_date datetime.strptime s = true.
Proof.
  intros E Hy Hm Hd. unfold main.is_valid_date, datetime.strptime.
  rewrite String.eqb_refl, E. cbn [andb Py.truthy negb].
  now apply is_date_true.
Qed.

(** A date that is written as [strptime] reads dates is accepted. *)
Lemma written_date_accepted s :
  written_date s -> main.is_valid_date datetime.strptime s = true.
Proof.
  intros (m & d & y & month & day & year & -> & Hm & Hd & Hy & Y1 & M1 & D1).
  pose proof (days_in_month_le year month) as Hle.
  pose proof (writes_year_length Hy) as Hly.
  assert (Hday : forall mo,
             day_then mo (d ++ y) = Some (mo, day, year, EmptyString))
    by (intros mo; apply day_then_written; auto; lia).
  destruct Hm as [Hm|(m1 & m2 & Hm & ->)].
  - (* a month of one digit *)
    apply digits_one in Hm. destruct Hm as (cm & -> & Hcm).
    pose proof (digit_lt _ Hcm) as Hmlt.
    change ((String cm EmptyString ++ d ++ y)%string)
      with (String cm (d ++ y)%string).
    assert (Hthird :
              datetime.first_match
                [datetime.one (datetime.between 1 9)]
                (String cm (d ++ y)%string) day_then
              = Some (month, day, year, EmptyString)).
    { apply first_match_hit with month (d ++ y)%string; auto.
      rewrite (@one_digit _ cm month _ Hcm).
      now rewrite (proj2 (between_iff 1 9 month)) by lia. }
    assert (Hsecond :
              datetime.first_match
                [datetime.two (datetime.between 0 0) (datetime.between 1 9);
                 datetime.one (datetime.between 1 9)]
                (String cm (d ++ y)%string) day_then
              = Some (month, day, year, EmptyString)).
    { rewrite first_match_skip; auto.
      intros n rest Hn. apply two_inv in Hn.
      destruct Hn as (c1 & c2 & e1 & e2 & Hs & H1 & H2 & F & _).
      injection Hs as <- _. rewrite Hcm in H1. injection H1 as <-.
      apply between_iff in F. lia. }
    destruct (datetime.two (datetime.between 1 1) (datetime.between 0 2)
                (String cm (d ++ y)%string)) as [[n rest]|] eqn:E1.
    2:{ apply is_valid_date_of_match with month day year; auto.
        rewrite match_mdY_eq. unfold datetime.month_group.
        rewrite first_match_skip; auto.
        intros n rest Hn. congruence. }
    destruct (day_then n rest) as [r|] eqn:E2.
    2:{ apply is_valid_date_of_match with month day year; auto.
        rewrite match_mdY_eq. unfold datetime.month_group.
        rewrite first_match_skip; auto.
        intros n' rest' Hn. rewrite E1 in Hn. injection Hn as <- <-. auto. }
    (* the first two characters read as a month from 10 to 12 *)
    assert (Hmatch : datetime.match_mdY (String cm (d ++ y)%string) = Some r).
    { rewrite match_mdY_eq. unfold datetime.month_group.
      now apply first_match_hit with n rest. }
    apply two_inv in E1.
    destruct E1 as (c1 & c2 & e1 & e2 & Hs & H1 & H2 & F & G & ->).
    injection Hs as <- Hs. rewrite Hcm in H1. injection H1 as <-.
    apply between_iff in F, G.
    unfold day_then in E2. apply first_match_In in E2.
    destruct E2 as (alt & k & rest' & Hin & Ha & E2).
    unfold year_then in E2.
    destruct (datetime.year_group rest') as [[yr remains]|] eqn:Ey;
      [|discriminate].
    injection E2 as <-.
    pose proof (@day_group_length alt rest k rest' Hin Ha) as Hl.
    pose proof (year_group_length _ Ey) as Hl'.
    assert (Hlen : String.length (d ++ y)%string
                   = String.length d + String.length y)
      by apply string_length_app.
    rewrite Hs in Hlen. cbn [String.length] in Hlen.
    assert (Hd2 : String.length d <= 2).
    { destruct Hd as [H|[(d1 & d2 & H & _)|(c & -> & _)]].
      - apply digits_one in H. destruct H as (c & -> & _). simpl. lia.
      - apply digits_two in H. destruct H as (ca & cb & -> & _). simpl. lia.
      - simpl. lia. }
    assert (Hrest : String.length rest = 5
                    /\ String.length rest' = 4
                    /\ remains = EmptyString).
    { assert (Hrem : String.length remains = 0) by lia.
      destruct remains; [|discriminate Hrem].
      simpl in Hl'. repeat split; lia. }
    destruct Hrest as (Hr5 & Hr4 & ->).
    (* so the day is the one digit before the last four characters *)
    assert (Hone : exists c, rest = String c rest'
                             /\ datetime.digit c = Some k /\ 1 <= k <= 9).
    { unfold datetime.day_group in Hin.
      destruct Hin as [<-|[<-|[<-|[<-|[<-|[]]]]]].
      - apply two_length in Ha. lia.
      - apply two_length in Ha. lia.
      - apply two_length in Ha. lia.
      - apply one_inv in Ha. destruct Ha as (c & -> & Hc & Hk).
        apply between_iff in Hk. eauto.
      - apply space_one_length in Ha. lia. }
    destruct Hone as (c & -> & Hc & Hk).
    (* and the year is the year written *)
    assert (Hyr : yr = year).
    { assert (Hy' : rest' = y).
      { destruct Hd as [H|[(d1 & d2 & H & _)|(c' & -> & _)]].
        - apply digits_one in H. destruct H as (c' & -> & _).
          simpl in Hs. injection Hs as _ ->. simpl in Hly. lia.
        - apply digits_two in H. destruct H as (ca & cb & -> & _).
          simpl in Hs. now injection Hs as _ _ <-.
        - simpl in Hs. now injection Hs as _ _ <-. }
      subst rest'.
      pose proof (@year_then_hit 0 0 y year Hy) as Hh.
      unfold year_then in Hh. rewrite Ey in Hh. now injection Hh as ->. }
    subst yr.
    apply is_valid_date_of_match with (10 * month + e2) k year; auto.
    + lia.
    + pose proof (@days_in_month_ge year (10 * month + e2)). lia.
  - (* a month of two digits *)
    apply digits_two in Hm. destruct Hm as (c1 & c2 & -> & H1 & H2).
    pose proof (digit_lt _ H1). pose proof (digit_lt _ H2).
    change ((String c1 (String c2 EmptyString) ++ d ++ y)%string)
      with (String c1 (String c2 (d ++ y)%string)).
    apply is_valid_date_of_match with (10 * m1 + m2) day year; auto.
    rewrite match_mdY_eq. unfold datetime.month_group.
    destruct (Nat.eq_dec m1 1) as [E1|N1].
    + apply first_match_hit with (10 * m1 + m2) (d ++ y)%string; auto.
      rewrite (@two_digits _ _ c1 c2 m1 m2 _ H1 H2).
      now rewrite (proj2 (between_iff 1 1 m1)),
        (proj2 (between_iff 0 2 m2)) by lia.
    + rewrite first_match_skip.
      2:{ intros n rest Hn.
          rewrite (@two_digits _ _ c1 c2 m1 m2 _ H1 H2) in Hn.
          rewrite (@between_false 1 1 m1) in Hn by lia. discriminate. }
      apply first_match_hit with (10 * m1 + m2) (d ++ y)%string; auto.
      rewrite (@two_digits _ _ c1 c2 m1 m2 _ H1 H2).
      now rewrite (proj2 (between_iff 0 0 m1)),
        (proj2 (between_iff 1 9 m2)) by lia.
Qed.

Lemma written_date_length s :
  written_date s -> 6 <= String.length s <= 8.
Proof.
  intros (m & d & y & month & day & year & -> & Hm & Hd & Hy & _).
  rewrite !string_length_app, (writes_year_length Hy).
  assert (Lm : 1 <= String.length m <= 2).
  { destruct Hm as [H|(m1 & m2 & H & _)].
    - apply digits_one in H. destruct H as (c & -> & _). simpl. lia.
    - apply digits_two in H. destruct H as (a & b & -> & _). simpl. lia. }
  assert (Ld : 1 <= String.length d <= 2).
  { destruct Hd as [H|[(d1 & d2 & H & _)|(c & -> & _)]].
    - apply digits_one in H. destruct H as (c & -> & _). simpl. lia.
    - apply digits_two in H. destruct H as (a & b & -> & _). simpl. lia.
    - simpl. lia. }
  lia.
Qed.

(** X24.  [is_valid_date], with [strptime] as the library has it for the
    format of the program, accepts exactly the strings that write a date of
    the calendar: a month from 1 to 12 written with one or two digits, then
    a day of this month written with one or two digits, or with a space
    and one digit, then a year from 1 on written with four digits, and
    nothing more.  So it accepts dates written with a month or a day of one
    digit, and a string it accepts has six to eight characters: it rejects
    the empty string and a date of eight characters followed by
    anything. *)
Theorem valid_date_is_a_calendar_date (date_str : string) :
  (main.is_valid_date datetime.strptime date_str = true
   <-> written_date date_str)
  /\ (main.is_valid_date datetime.strptime date_str = true ->
      6 <= String.length date_str <= 8).
Proof.
  assert (Hsound : main.is_valid_date datetime.strptime date_str = true ->
                   written_date date_str).
  { revert date_str. intros s.
    unfold main.is_valid_date, datetime.strptime.
    rewrite String.eqb_refl. cbn [andb].
    destruct (datetime.match_mdY s) as [[[[month day] year] remains]|]
      eqn:E; [|discriminate].
    intros H. apply andb_true_iff in H. destruct H as [Hr Hd].
    assert (remains = EmptyString) by (destruct remains; [auto|discriminate]).
    subst remains.
    unfold datetime.is_date in Hd.
    apply andb_true_iff in Hd. destruct Hd as [Hd Hday].
    apply andb_true_iff in Hd. destruct Hd as [Hyear Hmonth].
    apply Nat.leb_le in Hyear. apply between_iff in Hmonth, Hday.
    rewrite match_mdY_eq in E. apply first_match_In in E.
    destruct E as (alt1 & n1 & rest1 & Hin1 & Ha1 & E).
    unfold day_then in E. apply first_match_In in E.
    destruct E as (alt2 & n2 & rest2 & Hin2 & Ha2 & E).
    unfold year_then in E.
    destruct (datetime.year_group rest2) as [[yr rem]|] eqn:Ey; [|discriminate].
    injection E as -> -> -> ->.
    apply year_group_inv in Ey.
    destruct Ey as (c1 & c2 & c3 & c4 & y1 & y2 & y3 & y4 & -> & Y1 & Y2 & Y3
                    & Y4 & ->).
    assert (Hm : exists m, s = (m ++ rest1)%string /\ writes_month m month).
    { unfold datetime.month_group in Hin1.
      destruct Hin1 as [<-|[<-|[<-|[]]]].
      - apply two_inv in Ha1.
        destruct Ha1 as (a & b & m1 & m2 & -> & A & B & _ & _ & ->).
        exists (String a (String b EmptyString)). split; auto.
        right. exists m1, m2. split; auto. now apply digits_of_two.
      - apply two_inv in Ha1.
        destruct Ha1 as (a & b & m1 & m2 & -> & A & B & _ & _ & ->).
        exists (String a (String b EmptyString)). split; auto.
        right. exists m1, m2. split; auto. now apply digits_of_two.
      - apply one_inv in Ha1. destruct Ha1 as (a & -> & A & _).
        exists (String a EmptyString). split; auto.
        left. now apply digits_of_one. }
    assert (Hdy : exists d,
               rest1 = (d ++ String c1 (String c2 (String c3
                               (String c4 EmptyString))))%string
               /\ writes_day d day).
    { unfold datetime.day_group in Hin2.
      destruct Hin2 as [<-|[<-|[<-|[<-|[<-|[]]]]]].
      - apply two_inv in Ha2.
        destruct Ha2 as (a & b & d1 & d2 & -> & A & B & _ & _ & ->).
        exists (String a (String b EmptyString)). split; auto.
        right. left. exists d1, d2. split; auto. now apply digits_of_two.
      - apply two_inv in Ha2.
        destruct Ha2 as (a & b & d1 & d2 & -> & A & B & _ & _ & ->).
        exists (String a (String b EmptyString)). split; auto.
        right. left. exists d1, d2. split; auto. now apply digits_of_two.
      - apply two_inv in Ha2.
        destruct Ha2 as (a & b & d1 & d2 & -> & A & B & _ & _ & ->).
        exists (String a (String b EmptyString)). split; auto.
        right. left. exists d1, d2. split; auto. now apply digits_of_two.
      - apply one_inv in Ha2. destruct Ha2 as (a & -> & A & _).
        exists (String a EmptyString). split; auto.
        left. now apply digits_of_one.
      - apply space_one_inv in Ha2. destruct Ha2 as (a & -> & A & _).
        exists (String " " (String a EmptyString)). split; auto.
        right. right. exists a. auto. }
    destruct Hm as (m & -> & Hm). destruct Hdy as (d & -> & Hdy).
    exists m, d, (String c1 (String c2 (String c3 (String c4 EmptyString)))),
      month, day, (1000 * y1 + 100 * y2 + 10 * y3 + y4).
    repeat split; try tauto; try lia.
    exists y1, y2, y3, y4. split; auto. now apply digits_of_four.
  }
  split; [split|].
  - exact Hsound.
  - apply written_date_accepted.
  - intros H. apply written_date_length. now apply Hsound.
Qed.

Lemma valid_date_is_a_calendar_date_witness :
  main.is_valid_date datetime.strptime "1312017" = true
  /\ written_date "1312017"
  /\ 6 <= String.length "1312017" <= 8.
Proof.
  destruct (valid_date_is_a_calendar_date "1312017") as [[H1 _] H2].
  assert (E : main.is_valid_date datetime.strptime "1312017" = true)
    by reflexivity.
  split; [exact E|]. split; [exact (H1 E) | exact (H2 E)].
Defined.

(** Dates that [is_valid_date] accepts and strings that it rejects: a month
    and a day of one digit, the thirtieth of February, a ninth character, a
    month 13, the empty string; and seven digits that read two ways are
    read with the month of two digits. *)
Example is_valid_date_samples :
  main.is_valid_date datetime.strptime "01312017" = true
  /\ main.is_valid_date datetime.strptime "112017" = true
  /\ main.is_valid_date datetime.strptime "1 12017" = true
  /\ main.is_valid_date datetime.strptime "02292016" = true
  /\ main.is_valid_date datetime.strptime "02292017" = false
  /\ main.is_valid_date datetime.strptime "02302016" = false
  /\ main.is_valid_date datetime.strptime "013120170" = false
  /\ main.is_valid_date datetime.strptime "13012017" = false
  /\ main.is_valid_date datetime.strptime "01310000" = false
  /\ main.is_valid_date datetime.strptime EmptyString = false
  /\ datetime.match_mdY "1122017" = Some (11, 2, 2017, EmptyString).
Proof. repeat split; vm_compute; reflexivity. Qed.
